(** * Task allocation bot: claim tracking, winner selection, effects, rounds

    A shallow embedding of [task_bot_v2.py] (multi-winner rounds and the
    slash commands that configure, start and stop them) and of the
    single-winner selection loop of [task_bot.py].

    - The bot's attributes are a record; [reaction_timestamps], a dict of
      dicts keyed by message id and then by user id, is a [gmap Z (gmap Z Z)].
    - A [datetime] is the integer number of clock ticks it denotes; the
      comparisons the code makes on datetimes are the ones made on [Z].
    - Coroutines are functions in a state-and-exception monad whose state is
      the chronological trace of the external actions performed so far.
      What the platform and the spreadsheet answer is read from a [World]
      record, so both the successful and the failing answers are covered. *)

From Stdlib Require Import ZArith Ascii String List Permutation Sorted Lia.
From stdpp Require Import gmap strings list fin_maps pretty.

Local Open Scope string_scope.
Local Open Scope list_scope.
Local Open Scope Z_scope.

(** ** Data model *)

(** A [discord.User] as far as the bot reads it. *)
Record User := mkUser {
  u_id : Z;
  u_name : string;
  u_mention : string;
  u_bot : bool
}.

(** A [discord.Member] of the guild. *)
Record Member := mkMember {
  m_id : Z;
  m_name : string;
  m_mention : string
}.

(** A [discord.Role]. *)
Record Role := mkRole {
  r_name : string;
  r_position : Z
}.

(** The attributes [TaskBot.__init__] sets and the rounds read or write.
    [gc] and the two channels are only tested for presence. *)
Record TaskBot := mkTaskBot {
  total_tasks : Z;
  sheet_url : string;
  interval_minutes : Z;
  configured : bool;
  announce_channel : bool;
  logs_channel : bool;
  current_task : Z;
  gc : bool;
  reaction_timestamps : gmap Z (gmap Z Z);
  reaction_time : Z;
  role_removal_hours : Z;
  ping_role_name : string;
  winners_per_task : Z;
  task_type : string
}.

Definition set_reaction_timestamps (rt : gmap Z (gmap Z Z)) (b : TaskBot) : TaskBot :=
  mkTaskBot (total_tasks b) (sheet_url b) (interval_minutes b) (configured b)
    (announce_channel b) (logs_channel b) (current_task b) (gc b) rt
    (reaction_time b) (role_removal_hours b) (ping_role_name b)
    (winners_per_task b) (task_type b).

Definition set_current_task (c : Z) (b : TaskBot) : TaskBot :=
  mkTaskBot (total_tasks b) (sheet_url b) (interval_minutes b) (configured b)
    (announce_channel b) (logs_channel b) c (gc b) (reaction_timestamps b)
    (reaction_time b) (role_removal_hours b) (ping_role_name b)
    (winners_per_task b) (task_type b).

Definition TASK_ROLE_NAME : string := "TaskHolder".

Definition CHECKMARK : string := "✅".

(** ** ClaimTracker: [on_reaction_add] *)

(** [message_id in self.reaction_timestamps and
     user_id in self.reaction_timestamps[message_id]], with the value. *)
Definition recorded (rt : gmap Z (gmap Z Z)) (message_id user_id : Z) : option Z :=
  match rt !! message_id with
  | Some bucket => bucket !! user_id
  | None => None
  end.

(** [on_reaction_add(reaction, user)]; [now] is what [datetime.now()]
    returns if the call is reached. *)
Definition on_reaction_add (emoji : string) (message_id : Z) (user : User)
    (now : Z) (rt : gmap Z (gmap Z Z)) : gmap Z (gmap Z Z) :=
  if u_bot user || negb (String.eqb emoji CHECKMARK) then rt
  else
    let rt1 :=
      match rt !! message_id with
      | Some _ => rt
      | None => <[message_id := ∅]> rt
      end in
    match rt1 !! message_id with
    | Some bucket =>
        match bucket !! u_id user with
        | Some _ => rt1
        | None => <[message_id := <[u_id user := now]> bucket]> rt1
        end
    | None => rt1
    end.

(** ** WinnerSelector *)

(** The loop of [task_allocation_loop_impl] (v2) that pairs every reactor
    with a timestamp: the recorded one, or a fresh [datetime.now()].
    [now k] is the reading of the [k]-th call made during resolution. *)
Fixpoint stamp_reactors (rt : gmap Z (gmap Z Z)) (message_id : Z)
    (now : nat → Z) (k : nat) (reactors : list User) : list (User * Z) :=
  match reactors with
  | [] => []
  | reactor :: rest =>
      match recorded rt message_id (u_id reactor) with
      | Some timestamp =>
          (reactor, timestamp) :: stamp_reactors rt message_id now k rest
      | None =>
          (reactor, now k) :: stamp_reactors rt message_id now (S k) rest
      end
  end.

(** [list.sort(key=lambda x: x[1])] is a stable sort: of two pairs with
    equal keys the one that came first stays first.  It is written here as
    the stable insertion sort. *)
Fixpoint insert_by_timestamp (x : User * Z) (l : list (User * Z)) : list (User * Z) :=
  match l with
  | [] => [x]
  | y :: l' =>
      if x.2 <=? y.2 then x :: y :: l' else y :: insert_by_timestamp x l'
  end.

Definition sort_by_timestamp (l : list (User * Z)) : list (User * Z) :=
  foldr insert_by_timestamp [] l.

(** The slice [l[:k]] for an [int] [k]: a negative [k] counts from the end. *)
Definition slice_to {A} (k : Z) (l : list A) : list A :=
  if 0 <=? k then take (Z.to_nat k) l
  else take (Z.to_nat (Z.of_nat (length l) + k)) l.

(** Lines 670-686 of v2, under [if reactors:]. *)
Definition select_winners (rt : gmap Z (gmap Z Z)) (message_id : Z)
    (now : nat → Z) (tasks_this_round : Z) (reactors : list User) : list User :=
  let sorted_reactors := sort_by_timestamp (stamp_reactors rt message_id now 0 reactors) in
  (slice_to tasks_this_round sorted_reactors).*1.

(** The range check [create_task] (v2) makes before it stores
    [winners_per_task]; [__init__] stores 1. *)
Definition valid_winners_per_task (w : Z) : bool :=
  negb ((w <=? 0) || (20 <? w)).

(** The single-winner loop of [task_bot.py] (lines 648-662).  The state of
    the loop is [(winner, earliest_time)]. *)
Definition select_winner_step (rt : gmap Z (gmap Z Z)) (message_id : Z)
    (first : User) (st : User * option Z) (reactor : User) : User * option Z :=
  let '(winner, earliest_time) := st in
  let '(winner, earliest_time) :=
    match recorded rt message_id (u_id reactor) with
    | Some timestamp =>
        match earliest_time with
        | None => (reactor, Some timestamp)
        | Some e => if timestamp <? e then (reactor, Some timestamp)
                    else (winner, earliest_time)
        end
    | None => (winner, earliest_time)
    end in
  match earliest_time with
  | None => (first, earliest_time)
  | Some _ => (winner, earliest_time)
  end.

Definition select_winner_v1 (rt : gmap Z (gmap Z Z)) (message_id : Z)
    (reactors : list User) : option User :=
  match reactors with
  | [] => None
  | first :: _ =>
      Some (fold_left (select_winner_step rt message_id first) reactors (first, None)).1
  end.

(** ** Exceptions, embeds and the trace of external actions *)

Inductive exn_class :=
  | NotFound | Forbidden | HTTPException | WorksheetNotFound | OtherException.

(** A raised exception: its class and the text [f"{e}"] prints. *)
Record exn := mkExn { e_class : exn_class; e_text : string }.

(** [discord.NotFound] and [discord.Forbidden] derive from
    [discord.HTTPException]; every class derives from [Exception]. *)
Definition is_NotFound (e : exn) : bool :=
  match e_class e with NotFound => true | _ => false end.

Definition is_Forbidden (e : exn) : bool :=
  match e_class e with Forbidden => true | _ => false end.

Definition is_HTTPException (e : exn) : bool :=
  match e_class e with
  | NotFound | Forbidden | HTTPException => true
  | _ => false
  end.

Definition is_WorksheetNotFound (e : exn) : bool :=
  match e_class e with WorksheetNotFound => true | _ => false end.

Inductive result (A : Type) :=
  | Ok (a : A)
  | Raise (e : exn).
Arguments Ok {A} a.
Arguments Raise {A} e.

Inductive colour := green | blue | orange | red.

(** A [discord.Embed]: [fields] holds [(name, value, inline)]. *)
Record Embed := mkEmbed {
  title : string;
  description : string;
  color : colour;
  fields : list (string * string * bool);
  footer : option string
}.

(** What [announce_channel.send] is given. *)
Inductive content :=
  | Text (s : string)
  | WithEmbed (e : Embed)
  | RolePing (mention : string).

Inductive level := WARNING | ERROR.

(** The external actions a coroutine attempts, in the order it attempts
    them.  An action that can fail carries the exception it raised, if any.
    [logger.info] lines are left out; [logger.warning] and [logger.error]
    lines are [Logger] events. *)
Inductive event :=
  | Post (c : content) (failure : option exn)
  | LogSent (msg : string)
  | AddReaction (message_id : Z) (emoji : string) (failure : option exn)
  | Sleep (seconds : Z)
  | FetchMessage (message_id : Z)
  | FetchMember (user_id : Z)
  | CreateRole (name : string)
  | AddRoles (m : Member) (r : Role) (reason : string) (failure : option exn)
  | ScheduleRoleRemoval (m : Member) (r : Role)
  | DirectMessage (m : Member) (e : Embed) (failure : option exn)
  | OpenByKey (sheet_id : string)
  | UpdateCell (row col : Z) (value : string) (failure : option exn)
  | Logger (l : level) (msg : string)
  | LoopStop.

(** ** The answers of the platform and of the spreadsheet *)

Record Reaction := mkReaction {
  rx_emoji : string;
  rx_users : result (list User)
}.

(** The message [fetch_message] returns; [msg_guild] is the name of its
    guild, if it has one. *)
Record Message := mkMessage {
  msg_guild : option string;
  msg_reactions : list Reaction
}.

Definition has_guild (message : Message) : bool :=
  match msg_guild message with Some _ => true | None => false end.

(** A worksheet: what [get_all_values] returns (the number of rows is all
    the code reads) and what [update_cell] does. *)
Record Worksheet := mkWorksheet {
  ws_all_values : result nat;
  ws_update_cell : option exn
}.

Record Spreadsheet := mkSpreadsheet {
  sp_tasks : result Worksheet;
  sp_first : result Worksheet
}.

(** What the guild and the spreadsheet answer while one winner is
    processed.  [ww_open_by_key attempt] answers the call made in the
    given iteration of the retry loop. *)
Record WinnerWorld := mkWinnerWorld {
  ww_cached : option Member;
  ww_fetched : result Member;
  ww_in_members : bool;
  ww_existing_role : option Role;
  ww_created_role : result Role;
  ww_manage_roles : bool;
  ww_top_role_position : Z;
  ww_add_roles : option exn;
  ww_role_held : bool;
  ww_dm : option exn;
  ww_open_by_key : Z → result Spreadsheet
}.

(** What the outside answers during one round.  [w_post k] answers the
    [k]-th call of [announce_channel.send]; [w_window] lists the reaction
    events delivered to [on_reaction_add] while the round sleeps, each with
    the reading of [datetime.now()] at its delivery; [w_now k] is the
    [k]-th reading of [datetime.now()] made while the winners are sorted. *)
Record World := mkWorld {
  w_post : nat → option exn;
  w_message_id : Z;
  w_add_reaction : option exn;
  w_ping_role : option string;
  w_window : list (string * Z * User * Z);
  w_fetch_message : result Message;
  w_now : nat → Z;
  w_winner : Z → WinnerWorld
}.

(** ** The monad of coroutines *)

(** The bot ([self]), the trace, and the local variables of
    [task_allocation_loop_impl] that outlive a [try] block. *)
Record St := mkSt {
  st_bot : TaskBot;
  st_trace : list event;
  st_reactors : list User;
  st_winners : list User;
  st_winners_assigned : list (Member * Z)
}.

Definition M (A : Type) : Type := St → result A * St.

Global Instance M_ret : MRet M := λ A a st, (Ok a, st).

Global Instance M_bind : MBind M := λ A B f m st,
  match m st with
  | (Ok a, st') => f a st'
  | (Raise e, st') => (Raise e, st')
  end.

Definition raise {A} (e : exn) : M A := λ st, (Raise e, st).

(** The outcome of a call that returns or raises. *)
Definition lift {A} (r : result A) : M A :=
  match r with
  | Ok a => mret a
  | Raise e => raise e
  end.

(** [try: body except Exception as e: handler e]; a handler re-raises the
    classes it does not catch. *)
Definition try_except {A} (body : M A) (handler : exn → M A) : M A := λ st,
  match body st with
  | (Ok a, st') => (Ok a, st')
  | (Raise e, st') => handler e st'
  end.

Definition get_bot : M TaskBot := λ st, (Ok (st_bot st), st).

Definition put_bot (b : TaskBot) : M unit := λ st,
  (Ok tt, mkSt b (st_trace st) (st_reactors st) (st_winners st) (st_winners_assigned st)).

Definition emit (e : event) : M unit := λ st,
  (Ok tt, mkSt (st_bot st) (st_trace st ++ [e]) (st_reactors st) (st_winners st)
            (st_winners_assigned st)).

Definition set_reactors (l : list User) : M unit := λ st,
  (Ok tt, mkSt (st_bot st) (st_trace st) l (st_winners st) (st_winners_assigned st)).

Definition set_winners (l : list User) : M unit := λ st,
  (Ok tt, mkSt (st_bot st) (st_trace st) (st_reactors st) l (st_winners_assigned st)).

Definition get_winners_assigned : M (list (Member * Z)) := λ st,
  (Ok (st_winners_assigned st), st).

Definition set_winners_assigned (l : list (Member * Z)) : M unit := λ st,
  (Ok tt, mkSt (st_bot st) (st_trace st) (st_reactors st) (st_winners st) l).

Definition is_post (e : event) : bool :=
  match e with Post _ _ => true | _ => false end.

(** [await self.announce_channel.send(...)]. *)
Definition announce_send (w : World) (c : content) : M unit := λ st,
  let failure := w_post w (length (filter is_post (st_trace st))) in
  match emit (Post c failure) st with
  | (_, st') =>
      match failure with
      | None => (Ok tt, st')
      | Some e => (Raise e, st')
      end
  end.

(** [send_log], for a logs channel that accepts the message.  A send that
    raises is caught inside [send_log], so nothing propagates either way;
    the [logger.error] line of that handler is not part of the trace. *)
Definition send_log (message : string) : M unit :=
  b ← get_bot;
  if logs_channel b then emit (LogSent message) else mret tt.

Definition init_st (b : TaskBot) : St := mkSt b [] [] [] [].

(** ** LedgerClient: [extract_sheet_id] and [write_to_sheet] *)

Definition is_sheet_id_char (c : ascii) : bool :=
  let n := N_of_ascii c in
  ((65 <=? n) && (n <=? 90) || (97 <=? n) && (n <=? 122)
   || (48 <=? n) && (n <=? 57) || (n =? 45) || (n =? 95))%N.

(** The longest prefix made of [[A-Za-z0-9\-_]]. *)
Fixpoint sheet_id_prefix (s : string) : string :=
  match s with
  | String c s' => if is_sheet_id_char c then String c (sheet_id_prefix s') else ""
  | EmptyString => ""
  end.

(** [re.search(r'/d/([A-Za-z0-9\-_]+)', url)]: the leftmost ["/d/"] that
    is followed by at least one character of the class. *)
Fixpoint extract_sheet_id (url : string) : option string :=
  match url with
  | EmptyString => None
  | String c rest =>
      match url with
      | String "/" (String "d" (String "/" tail)) =>
          match sheet_id_prefix tail with
          | EmptyString => extract_sheet_id rest
          | id => Some id
          end
      | _ => extract_sheet_id rest
      end
  end.

(** How one iteration of the retry loop ends. *)
Inductive attempt_end := Returned | NextAttempt.

(** [try: worksheet = sheet.worksheet("Tasks")
     except gspread.WorksheetNotFound: worksheet = sheet.get_worksheet(0)]. *)
Definition open_worksheet (sheet : Spreadsheet) : result Worksheet :=
  match sp_tasks sheet with
  | Ok worksheet => Ok worksheet
  | Raise e => if is_WorksheetNotFound e then sp_first sheet else Raise e
  end.

(** The [try] block of one iteration of [write_to_sheet]. *)
Definition write_attempt (ww : WinnerWorld) (task_number : Z)
    (winner_name : string) (attempt : Z) : M attempt_end :=
  b ← get_bot;
  match extract_sheet_id (sheet_url b) with
  | None => mret Returned
  | Some sheet_id =>
      emit (OpenByKey sheet_id);;
      sheet ← lift (ww_open_by_key ww attempt);
      worksheet ← lift (open_worksheet sheet);
      rows ← lift (ws_all_values worksheet);
      if Z.of_nat rows <? task_number + 1 then
        emit (Logger ERROR ("Task " +:+ pretty task_number
                            +:+ " row doesn't exist in sheet"));;
        mret Returned
      else
        emit (UpdateCell (task_number + 1) 4 winner_name (ws_update_cell worksheet));;
        match ws_update_cell worksheet with
        | Some e => raise e
        | None => mret Returned
        end
  end.

(** [for attempt in attempts: try: ... except Exception as e: ...]. *)
Fixpoint write_attempts (ww : WinnerWorld) (task_number : Z)
    (winner_name : string) (attempts : list Z) : M unit :=
  match attempts with
  | [] => mret tt
  | attempt :: rest =>
      r ← try_except (write_attempt ww task_number winner_name attempt)
            (λ e,
              emit (Logger ERROR ("Sheet write attempt " +:+ pretty (attempt + 1)
                                  +:+ " failed: " +:+ e_text e));;
              (if attempt <? 2 then emit (Sleep (2 ^ attempt))
               else emit (Logger ERROR "Failed to write to sheet after 3 attempts"));;
              mret NextAttempt);
      match r with
      | Returned => mret tt
      | NextAttempt => write_attempts ww task_number winner_name rest
      end
  end.

(** [range(3)]. *)
Definition range3 : list Z := [0; 1; 2].

Definition write_to_sheet (ww : WinnerWorld) (task_number : Z)
    (winner_name : string) : M unit :=
  b ← get_bot;
  if negb (gc b) || String.eqb (sheet_url b) "" then
    emit (Logger WARNING "Google Sheets not configured")
  else write_attempts ww task_number winner_name range3.

(** ** EffectPipeline: [dm_winner], [get_member_safely], [get_or_create_role] *)

Definition NL : string := String (ascii_of_nat 10) EmptyString.

Definition sheet_link_field (b : TaskBot) : string * string * bool :=
  ("📋 Google Sheets Link",
   "[Click here to access the task sheet](" +:+ sheet_url b +:+ ")", false).

Definition instructions_field : string * string * bool :=
  ("📝 Instructions",
   "Please fill in the **Proof link** column (Column E) in the sheet with your Reddit post link once you complete the task.",
   false).

Definition task_details_field (b : TaskBot) (task_number : Z) : string * string * bool :=
  ("⏰ Task Details",
   "Task Number: **" +:+ pretty task_number +:+ "**" +:+ NL +:+ "Role: **"
     +:+ TASK_ROLE_NAME +:+ "** (will be removed in "
     +:+ pretty (role_removal_hours b) +:+ " hours)",
   false).

Definition assigned_text (task_number : Z) : string :=
  "You have been assigned **Task #" +:+ pretty task_number +:+ "**!".

(** The embed [dm_winner] sends to the winner. *)
Definition dm_embed (b : TaskBot) (task_number : Z) : Embed :=
  mkEmbed "🎉 Congratulations! Task Assigned" (assigned_text task_number) green
    [sheet_link_field b; instructions_field; task_details_field b task_number]
    (Some "Good luck with your task!").

(** The embed [dm_winner] posts in the announcement channel instead. *)
Definition channel_embed (b : TaskBot) (winner_member : Member) (task_number : Z) : Embed :=
  mkEmbed "🚫 Inaccessible DM's"
    (m_mention winner_member
       +:+ " - Your DMs are inaccessible, so here's your task information:")
    orange
    [("🎉 Task Assigned", assigned_text task_number, false);
     sheet_link_field b; instructions_field; task_details_field b task_number]
    (Some "Please enable DMs for future tasks!").

Definition dm_winner (w : World) (ww : WinnerWorld) (winner_member : Member)
    (task_number : Z) : M bool :=
  try_except
    (b ← get_bot;
     let embed := dm_embed b task_number in
     try_except
       (emit (DirectMessage winner_member embed (ww_dm ww));;
        match ww_dm ww with
        | Some e => raise e
        | None =>
            send_log ("✅ DM sent to " +:+ m_mention winner_member
                      +:+ " for Task #" +:+ pretty task_number);;
            mret true
        end)
       (λ e,
         if is_HTTPException e then
           emit (Logger WARNING ("Cannot DM " +:+ m_name winner_member
                                 +:+ ": " +:+ e_text e));;
           (if announce_channel b then
              announce_send w (WithEmbed (channel_embed b winner_member task_number))
            else mret tt);;
           send_log ("🚫 DM inaccessible for " +:+ m_mention winner_member
                     +:+ " - sent in channel instead");;
           mret false
         else raise e))
    (λ e, emit (Logger ERROR ("Error in dm_winner: " +:+ e_text e));; mret false).

(** [get_member_safely(guild, user_id)]. *)
Definition get_member_safely (ww : WinnerWorld) (guild : option string) (user_id : Z)
    : M (option Member) :=
  match guild with
  | None => mret None
  | Some guild_name =>
    match ww_cached ww with
    | Some member => mret (Some member)
    | None =>
        emit (FetchMember user_id);;
        match ww_fetched ww with
        | Ok member => mret (Some member)
        | Raise e =>
            if is_NotFound e then
              emit (Logger ERROR ("User " +:+ pretty user_id +:+ " not found in guild "
                                  +:+ guild_name));;
              mret None
            else if is_HTTPException e then
              emit (Logger ERROR ("Failed to fetch member " +:+ pretty user_id
                                  +:+ ": " +:+ e_text e));;
              mret None
            else raise e
        end
    end
  end.

Definition get_or_create_role (ww : WinnerWorld) (role_name : string) : M Role :=
  match ww_existing_role ww with
  | Some role => mret role
  | None =>
      emit (CreateRole role_name);;
      match ww_created_role ww with
      | Ok role => mret role
      | Raise e =>
          (if is_Forbidden e then
             emit (Logger ERROR ("Bot lacks permission to create role '" +:+ role_name +:+ "'"))
           else
             emit (Logger ERROR ("Failed to create role '" +:+ role_name +:+ "': "
                                 +:+ e_text e)));;
          raise e
      end
  end.

(** ** AllocationRound: one winner *)

(** The body of [for i, winner in enumerate(winners)] (v2, lines 694-767).
    A [continue] ends the body. *)
Definition process_winner (w : World) (message : Message)
    (starting_task_num : Z) (i : nat) (winner : User) : M unit :=
  let current_task_num := starting_task_num + Z.of_nat i in
  let ww := w_winner w (u_id winner) in
  winner_member ← (if has_guild message
                   then get_member_safely ww (msg_guild message) (u_id winner)
                   else mret None);
  match winner_member with
  | None =>
      emit (Logger ERROR ("User " +:+ u_name winner +:+ " not found in guild"));;
      announce_send w (Text ("❌ Could not find " +:+ u_mention winner +:+ " in server"))
  | Some winner_member =>
      try_except
        (if has_guild message && ww_in_members ww then
           role ← get_or_create_role ww TASK_ROLE_NAME;
           if negb (ww_manage_roles ww) then
             emit (Logger ERROR "Bot lacks manage_roles permission");;
             announce_send w (Text "❌ Bot needs 'Manage Roles' permission!")
           else if ww_top_role_position ww <=? r_position role then
             emit (Logger ERROR ("Bot role too low to assign " +:+ r_name role));;
             announce_send w (Text ("❌ Bot role must be higher than " +:+ r_name role +:+ "!"))
           else
             emit (AddRoles winner_member role
                     ("TaskBot: Task #" +:+ pretty current_task_num) (ww_add_roles ww));;
             match ww_add_roles ww with
             | Some e => raise e
             | None =>
                 emit (ScheduleRoleRemoval winner_member role);;
                 send_log ("TaskHolder role given to " +:+ m_mention winner_member
                           +:+ " for Task #" +:+ pretty current_task_num);;
                 dm_winner w ww winner_member current_task_num;;
                 write_to_sheet ww current_task_num (u_name winner);;
                 wa ← get_winners_assigned;
                 set_winners_assigned (wa ++ [(winner_member, current_task_num)]);;
                 if ww_role_held ww then mret tt
                 else
                   emit (Logger ERROR ("Role assignment failed for " +:+ m_name winner_member));;
                   announce_send w (Text ("❌ Failed to assign role to "
                                          +:+ m_mention winner_member))
             end
         else
           emit (Logger ERROR ("Could not get member object for user " +:+ u_name winner));;
           announce_send w (Text ("❌ Could not assign role to " +:+ u_mention winner)))
        (λ e,
          if is_Forbidden e then
            emit (Logger ERROR "Bot forbidden from managing roles");;
            announce_send w (Text "❌ Bot lacks permission to manage roles!")
          else if is_HTTPException e then
            emit (Logger ERROR ("HTTP error assigning role: " +:+ e_text e));;
            announce_send w (Text ("❌ Error assigning role: " +:+ e_text e))
          else
            emit (Logger ERROR ("Unexpected error assigning role: " +:+ e_text e));;
            announce_send w (Text ("❌ Unexpected error: " +:+ e_text e)))
  end.

(** [for i, winner in enumerate(winners)], entered at index [i]. *)
Fixpoint process_winners (w : World) (message : Message)
    (starting_task_num : Z) (i : nat) (winners : list User) : M unit :=
  match winners with
  | [] => mret tt
  | winner :: rest =>
      process_winner w message starting_task_num i winner;;
      process_winners w message starting_task_num (S i) rest
  end.

(** ** AllocationRound: [task_allocation_loop_impl] *)

Definition is_upper (c : ascii) : bool :=
  let n := N_of_ascii c in ((65 <=? n) && (n <=? 90))%N.

Definition is_lower (c : ascii) : bool :=
  let n := N_of_ascii c in ((97 <=? n) && (n <=? 122))%N.

Definition to_upper (c : ascii) : ascii :=
  if is_lower c then ascii_of_N (N_of_ascii c - 32) else c.

Definition to_lower (c : ascii) : ascii :=
  if is_upper c then ascii_of_N (N_of_ascii c + 32) else c.

(** [str.title()] on the letters of ASCII: a letter that follows a letter
    is lowered, any other letter is raised.  [prev] tells whether the
    previous character was a letter. *)
Fixpoint title_from (prev : bool) (s : string) : string :=
  match s with
  | EmptyString => EmptyString
  | String c s' =>
      let cased := is_upper c || is_lower c in
      String (if prev then to_lower c else to_upper c) (title_from cased s')
  end.

Definition str_title (s : string) : string := title_from false s.

Definition task_range (starting_task_num tasks_this_round : Z) : string :=
  "#" +:+ pretty starting_task_num +:+ "-#"
      +:+ pretty (starting_task_num + tasks_this_round - 1).

Definition announcement_embed (b : TaskBot) (starting_task_num tasks_this_round : Z) : Embed :=
  let description :=
    if tasks_this_round =? 1 then
      "React with ✅ within " +:+ pretty (reaction_time b)
        +:+ " seconds to claim task #" +:+ pretty starting_task_num +:+ "!"
    else
      "React with ✅ within " +:+ pretty (reaction_time b)
        +:+ " seconds to claim tasks " +:+ task_range starting_task_num tasks_this_round
        +:+ "!" in
  let people_needed := if tasks_this_round =? 1 then "1" else pretty tasks_this_round in
  mkEmbed "🔔 Task Available!" description blue
    [("Task Type", str_title (task_type b), true);
     ("People Needed", people_needed, true)]
    None.

Definition all_complete_embed : Embed :=
  mkEmbed "🎉 All Tasks Complete!" "All tasks have been assigned!" green [] None.

(** The announcement of the result, for a non-empty [winners_assigned]. *)
Definition assigned_embed (winners_assigned : list (Member * Z)) : Embed :=
  match winners_assigned with
  | [(winner_member, task_num)] =>
      mkEmbed "➡️ Task Assigned!"
        ("Task #" +:+ pretty task_num +:+ " goes to " +:+ m_mention winner_member +:+ "!")
        green [] None
  | _ =>
      let winner_list :=
        map (λ a : Member * Z,
               "**Task #" +:+ pretty a.2 +:+ ":** " +:+ m_mention a.1)
            winners_assigned in
      mkEmbed "➡️ Tasks Assigned!" (String.concat NL winner_list) green [] None
  end.

Definition assignment_failed_embed : Embed :=
  mkEmbed "❌ Assignment Failed"
    "No tasks could be assigned due to errors. Retrying in next round." red [] None.

Definition no_claims_embed (b : TaskBot) (starting_task_num tasks_this_round : Z) : Embed :=
  let description :=
    if tasks_this_round =? 1 then
      "No one claimed task #" +:+ pretty starting_task_num +:+ ". Reposting in "
        +:+ pretty (interval_minutes b) +:+ " minutes…"
    else
      "No one claimed tasks " +:+ task_range starting_task_num tasks_this_round
        +:+ ". Reposting in " +:+ pretty (interval_minutes b) +:+ " minutes…" in
  mkEmbed "⚠️ No Claims" description orange [] None.

Definition no_claims_log (starting_task_num tasks_this_round : Z) : string :=
  if tasks_this_round =? 1 then
    "No one claimed Task #" +:+ pretty starting_task_num +:+ ". Reposting soon."
  else
    "No one claimed Tasks " +:+ task_range starting_task_num tasks_this_round
      +:+ ". Reposting soon.".

(** The reaction events of the window, handed to [on_reaction_add] in
    their order of arrival. *)
Definition deliver (events : list (string * Z * User * Z))
    (rt : gmap Z (gmap Z Z)) : gmap Z (gmap Z Z) :=
  fold_left (λ rt ev, let '(emoji, message_id, user, now) := ev in
                      on_reaction_add emoji message_id user now rt)
            events rt.

(** [if message.id in self.reaction_timestamps:
       del self.reaction_timestamps[message.id]]. *)
Definition discard_bucket (message_id : Z) : M unit :=
  b ← get_bot;
  put_bot (set_reaction_timestamps (delete message_id (reaction_timestamps b)) b).

(** The way a round ends: the [return] it takes, or the handler of the
    outer [try]. *)
Inductive round_exit :=
  | NotConfigured
  | AllComplete
  | FetchFailed (e : exn)
  | NoCheckmark
  | Finished
  | Failed (e : exn).

(** The branch [if reactors:] (v2, lines 670-803). *)
Definition dispatch (w : World) (message : Message) (message_id : Z)
    (starting_task_num tasks_this_round : Z) (reactors : list User) : M unit :=
  b ← get_bot;
  let winners := select_winners (reaction_timestamps b) message_id (w_now w)
                   tasks_this_round reactors in
  set_winners winners;;
  set_winners_assigned [];;
  process_winners w message starting_task_num 0 winners;;
  winners_assigned ← get_winners_assigned;
  (match winners_assigned with
   | [] => mret tt
   | _ => b ← get_bot; put_bot (set_current_task (current_task b + 1) b)
   end);;
  match winners_assigned with
  | [] => announce_send w (WithEmbed assignment_failed_embed)
  | _ => announce_send w (WithEmbed (assigned_embed winners_assigned))
  end.

(** The branch [else:] of [if reactors:] (v2, lines 805-821). *)
Definition no_claims (w : World) (starting_task_num tasks_this_round : Z) : M unit :=
  b ← get_bot;
  announce_send w (WithEmbed (no_claims_embed b starting_task_num tasks_this_round));;
  send_log (no_claims_log starting_task_num tasks_this_round).

(** The [try] block of [task_allocation_loop_impl] (v2, lines 582-828). *)
Definition round_body (w : World) : M round_exit :=
  b ← get_bot;
  let starting_task_num := current_task b in
  let tasks_this_round := winners_per_task b in
  announce_send w (WithEmbed (announcement_embed b starting_task_num tasks_this_round));;
  let message_id := w_message_id w in
  put_bot (set_reaction_timestamps (<[message_id := ∅]> (reaction_timestamps b)) b);;
  emit (AddReaction message_id CHECKMARK (w_add_reaction w));;
  match w_add_reaction w with
  | Some e => raise e
  | None => mret tt
  end;;
  match w_ping_role w with
  | Some mention =>
      try_except (announce_send w (RolePing mention))
        (λ ping_error,
          emit (Logger ERROR ("Failed to send role ping: " +:+ e_text ping_error));;
          send_log ("⚠️ Failed to send role ping: " +:+ e_text ping_error))
  | None =>
      emit (Logger WARNING ("Role '" +:+ ping_role_name b +:+ "' not found!"));;
      send_log ("⚠️ Role '" +:+ ping_role_name b +:+ "' not found - no ping sent")
  end;;
  (if tasks_this_round =? 1 then
     send_log ("Task #" +:+ pretty starting_task_num +:+ " created and posted")
   else
     send_log ("Tasks " +:+ task_range starting_task_num tasks_this_round
               +:+ " created and posted"));;
  emit (Sleep (reaction_time b));;
  b ← get_bot;
  put_bot (set_reaction_timestamps (deliver (w_window w) (reaction_timestamps b)) b);;
  emit (FetchMessage message_id);;
  match w_fetch_message w with
  | Raise e =>
      if is_NotFound e then
        emit (Logger ERROR ("Message " +:+ pretty message_id +:+ " not found"));;
        discard_bucket message_id;;
        mret (FetchFailed e)
      else if is_HTTPException e then
        emit (Logger ERROR ("Failed to fetch message: " +:+ e_text e));;
        discard_bucket message_id;;
        mret (FetchFailed e)
      else raise e
  | Ok message =>
      match find (λ reaction, String.eqb (rx_emoji reaction) CHECKMARK)
                 (msg_reactions message) with
      | None => mret NoCheckmark
      | Some checkmark_reaction =>
          users ← lift (rx_users checkmark_reaction);
          let reactors := filter (λ user, u_bot user = false) users in
          set_reactors reactors;;
          match reactors with
          | [] => no_claims w starting_task_num tasks_this_round
          | _ => dispatch w message message_id starting_task_num tasks_this_round reactors
          end;;
          discard_bucket message_id;;
          mret Finished
      end
  end.

(** [task_allocation_loop_impl] (v2).  The first two tests and the branch
    of the exhausted task list stand before the [try]. *)
Definition task_allocation_loop_impl (w : World) : M round_exit :=
  b ← get_bot;
  if negb (configured b) || negb (announce_channel b) then mret NotConfigured
  else if total_tasks b <? current_task b then
    announce_send w (WithEmbed all_complete_embed);;
    send_log "All tasks have been completed!";;
    emit LoopStop;;
    mret AllComplete
  else
    try_except (round_body w)
      (λ e, emit (Logger ERROR ("Task allocation error: " +:+ e_text e));;
            mret (Failed e)).

(** ** Vocabulary of the statements *)

(** [st] with [tr] appended to its trace. *)
Definition add_trace (tr : list event) (st : St) : St :=
  mkSt (st_bot st) (st_trace st ++ tr) (st_reactors st) (st_winners st)
    (st_winners_assigned st).

Definition is_sleep (e : event) : bool :=
  match e with Sleep _ => true | _ => false end.

Definition is_open_by_key (e : event) : bool :=
  match e with OpenByKey _ => true | _ => false end.

Definition is_update_cell (e : event) : bool :=
  match e with UpdateCell _ _ _ _ => true | _ => false end.

Global Instance result_bind : MBind result := λ A B f r,
  match r with
  | Ok a => f a
  | Raise e => Raise e
  end.

(** What the spreadsheet answers to the calls of one attempt: the
    exception one of them raises, or the worksheet and its row count. *)
Definition attempt_rows (ww : WinnerWorld) (attempt : Z) : result (Worksheet * nat) :=
  sheet ← ww_open_by_key ww attempt;
  worksheet ← open_worksheet sheet;
  rows ← ws_all_values worksheet;
  Ok (worksheet, rows).

(** The exception that ends the attempt, if one does: raised while the
    row count is read, or by [update_cell] when the row is there. *)
Definition attempt_failure (ww : WinnerWorld) (task_number : Z) (attempt : Z) : option exn :=
  match attempt_rows ww attempt with
  | Raise e => Some e
  | Ok (worksheet, rows) =>
      if Z.of_nat rows <? task_number + 1 then None else ws_update_cell worksheet
  end.

(** The recorded timestamp of a reactor (0 when there is none). *)
Definition timestamp_of (rt : gmap Z (gmap Z Z)) (message_id : Z) (r : User) : Z :=
  default 0 (recorded rt message_id (u_id r)).

(** [st] with [tr] appended to its trace and [wa] to [winners_assigned]. *)
Definition extend (tr : list event) (wa : list (Member * Z)) (st : St) : St :=
  mkSt (st_bot st) (st_trace st ++ tr) (st_reactors st) (st_winners st)
    (st_winners_assigned st ++ wa).

(** The member [get_member_safely] returns for a winner, if it returns one. *)
Definition resolved_member (ww : WinnerWorld) (message : Message) : option Member :=
  if has_guild message then
    match ww_cached ww with
    | Some member => Some member
    | None =>
        match ww_fetched ww with
        | Ok member => Some member
        | Raise _ => None
        end
    end
  else None.

(** The role [get_or_create_role] returns, or the exception it raises. *)
Definition resolved_role (ww : WinnerWorld) : result Role :=
  match ww_existing_role ww with
  | Some role => Ok role
  | None => ww_created_role ww
  end.

(** The privilege-grant step succeeds: the winner is resolved to a member
    of the guild, the role is there, both tests on the bot's standing pass
    and [add_roles] returns.  The result is the member and the role. *)
Definition granted (ww : WinnerWorld) (message : Message) : option (Member * Role) :=
  match resolved_member ww message with
  | Some member =>
      if ww_in_members ww then
        match resolved_role ww with
        | Ok role =>
            if ww_manage_roles ww && negb (ww_top_role_position ww <=? r_position role)
            then match ww_add_roles ww with
                 | None => Some (member, role)
                 | Some _ => None
                 end
            else None
        | Raise _ => None
        end
      else None
  | None => None
  end.

(** What the loop over [winners], entered at index [i] and not cut short,
    records in [winners_assigned]: each winner whose grant succeeds, as
    the member it was resolved to, with the number of its position. *)
Fixpoint assignments (w : World) (message : Message) (starting_task_num : Z)
    (i : nat) (winners : list User) : list (Member * Z) :=
  match winners with
  | [] => []
  | winner :: rest =>
      match granted (w_winner w (u_id winner)) message with
      | Some (winner_member, _) => [(winner_member, starting_task_num + Z.of_nat i)]
      | None => []
      end ++ assignments w message starting_task_num (S i) rest
  end.

(** The tracker when the window closes: the fresh bucket of the round,
    then the reaction events of the window. *)
Definition resolution_timestamps (w : World) (b : TaskBot) : gmap Z (gmap Z Z) :=
  deliver (w_window w) (<[w_message_id w := ∅]> (reaction_timestamps b)).

(** The message the round fetches after the window and the non-bot users
    of its ✅ reaction, when both reads succeed. *)
Definition observed (w : World) : option (Message * list User) :=
  match w_fetch_message w with
  | Ok message =>
      match find (λ reaction, String.eqb (rx_emoji reaction) CHECKMARK)
                 (msg_reactions message) with
      | Some checkmark_reaction =>
          match rx_users checkmark_reaction with
          | Ok users => Some (message, filter (λ user, u_bot user = false) users)
          | Raise _ => None
          end
      | None => None
      end
  | Raise _ => None
  end.

(** The round passes the tests made before the [try] block, its
    announcement is posted and the bot's own reaction is added. *)
Definition opens_window (w : World) (b : TaskBot) : Prop :=
  configured b = true ∧ announce_channel b = true
  ∧ current_task b ≤ total_tasks b
  ∧ w_post w 0%nat = None ∧ w_add_reaction w = None.

(** ** Example worlds *)

Definition ann : User := mkUser 1 "ann" "<@1>" false.
Definition bob : User := mkUser 2 "bob" "<@2>" false.
Definition the_bot : User := mkUser 9 "TaskBot" "<@9>" true.

Definition member_of (u : User) : Member :=
  mkMember (u_id u) (u_name u) (u_mention u).

Definition task_role : Role := mkRole TASK_ROLE_NAME 1.

(** A sheet with a header row and nine task rows that accepts writes. *)
Definition healthy_sheet : Z → result Spreadsheet :=
  λ _, Ok (mkSpreadsheet (Ok (mkWorksheet (Ok 10%nat) None))
             (Raise (mkExn WorksheetNotFound "Tasks"))).

(** Everything succeeds for [u]. *)
Definition ww_granted (u : User) : WinnerWorld :=
  mkWinnerWorld (Some (member_of u)) (Ok (member_of u)) true (Some task_role)
    (Ok task_role) true 5 None true None healthy_sheet.

(** [u] has left the guild: not cached, and [fetch_member] raises
    [discord.NotFound]. *)
Definition ww_left (u : User) : WinnerWorld :=
  mkWinnerWorld None (Raise (mkExn NotFound "Unknown Member")) false
    (Some task_role) (Ok task_role) true 5 None true None healthy_sheet.

(** The grant succeeds for [u], whose direct messages are closed. *)
Definition ww_dm_closed (u : User) : WinnerWorld :=
  mkWinnerWorld (Some (member_of u)) (Ok (member_of u)) true (Some task_role)
    (Ok task_role) true 5 None true
    (Some (mkExn Forbidden "Cannot send messages to this user")) healthy_sheet.

(** [add_roles] raises [discord.Forbidden] for [u]. *)
Definition ww_forbidden (u : User) : WinnerWorld :=
  mkWinnerWorld (Some (member_of u)) (Ok (member_of u)) true (Some task_role)
    (Ok task_role) true 5 (Some (mkExn Forbidden "Missing Permissions")) false
    None healthy_sheet.

Definition example_bot (winners : Z) : TaskBot :=
  mkTaskBot 3 "https://docs.google.com/spreadsheets/d/abc/edit" 4 true true true
    1 true ∅ 5 12 "VERIFIED" winners "Comment".

(** A round whose announcement has id 100, where every post succeeds and
    the fetched message carries [reactions]. *)
Definition example_world (reactions : list Reaction)
    (window : list (string * Z * User * Z)) (winner : Z → WinnerWorld) : World :=
  mkWorld (λ _, None) 100 None (Some "<@&7>") window
    (Ok (mkMessage (Some "guild") reactions))
    (λ k, 1000 + Z.of_nat k) winner.

Definition checkmark_of (users : list User) : Reaction :=
  mkReaction CHECKMARK (Ok users).

(** Ann claims; she has left the guild when the round resolves. *)
Definition world_ann_left : World :=
  example_world [checkmark_of [the_bot; ann]] [(CHECKMARK, 100, ann, 3)]
    (λ _, ww_left ann).

(** Ann claims; the bot is forbidden to give her the role. *)
Definition world_ann_forbidden : World :=
  example_world [checkmark_of [the_bot; ann]] [(CHECKMARK, 100, ann, 3)]
    (λ _, ww_forbidden ann).

(** Ann claims before Bob; Ann has left the guild, Bob is granted. *)
Definition world_ann_left_bob_granted : World :=
  example_world [checkmark_of [the_bot; ann; bob]]
    [(CHECKMARK, 100, ann, 3); (CHECKMARK, 100, bob, 4)]
    (λ uid, if uid =? 1 then ww_left ann else ww_granted bob).

(** The reactions of the announcement were cleared during the window. *)
Definition world_reactions_cleared : World :=
  example_world [] [(CHECKMARK, 100, ann, 3)] (λ _, ww_granted ann).

(** ** Vocabulary: the claims a sequence of reaction events registers *)

(** The clock reading carried by the first event of [events] that is a ✅
    reaction of the non-bot user [user_id] on the message [message_id]. *)
Fixpoint first_claim (events : list (string * Z * User * Z))
    (message_id user_id : Z) : option Z :=
  match events with
  | [] => None
  | (emoji, mid, user, now) :: rest =>
      if negb (u_bot user) && String.eqb emoji CHECKMARK
         && (mid =? message_id) && (u_id user =? user_id)
      then Some now
      else first_claim rest message_id user_id
  end.

(** ** Vocabulary of the statements on [extract_sheet_id] *)

(** Every character of [s] satisfies [p]. *)
Fixpoint string_forallb (p : ascii → bool) (s : string) : bool :=
  match s with
  | EmptyString => true
  | String c s' => p c && string_forallb p s'
  end.

(** What follows a leading ["/d/"], if [url] begins with one. *)
Definition after_d_slash (url : string) : option string :=
  match url with
  | String "/" (String "d" (String "/" tail)) => Some tail
  | _ => None
  end.

(** ** Vocabulary: the kinds of events *)

Definition is_direct_message (e : event) : bool :=
  match e with DirectMessage _ _ _ => true | _ => false end.

Definition is_add_roles (e : event) : bool :=
  match e with AddRoles _ _ _ _ => true | _ => false end.

Definition is_schedule_role_removal (e : event) : bool :=
  match e with ScheduleRoleRemoval _ _ => true | _ => false end.

(** An [update_cell] that returned. *)
Definition is_written (e : event) : bool :=
  match e with UpdateCell _ _ _ None => true | _ => false end.

(** ** Vocabulary: consecutive rounds *)

(** The bot after the rounds answered by [worlds], run one after the
    other: each call of [task_allocation_loop_impl] starts with the bot
    the previous call left and with fresh local variables. *)
Fixpoint run_rounds (worlds : list World) (b : TaskBot) : TaskBot :=
  match worlds with
  | [] => b
  | w :: rest => run_rounds rest (st_bot (task_allocation_loop_impl w (init_st b)).2)
  end.

(** The settings of the bot: every attribute but the task cursor and the
    claim tracker. *)
Definition settings (b : TaskBot)
    : Z * string * Z * bool * bool * bool * bool * Z * Z * string * Z * string :=
  (total_tasks b, sheet_url b, interval_minutes b, configured b,
   announce_channel b, logs_channel b, gc b, reaction_time b,
   role_removal_hours b, ping_role_name b, winners_per_task b, task_type b).

(** ** The slash commands: [configure_settings], [create_task], [stop_tasks] *)

(** What a text channel answers to [mention] and to [permissions_for]. *)
Record Channel := mkChannel {
  ch_mention : string;
  ch_send_messages : bool;
  ch_manage_messages : bool;
  ch_add_reactions : bool
}.

(** What the spreadsheet answers to the calls of [validate_sheet_access]:
    [open_by_key], then [get_worksheet(0)] of the sheet, then
    [row_values(1)] of the worksheet. *)
Record SheetProbe := mkSheetProbe {
  probe_open_by_key : string → result Spreadsheet;
  probe_row_values : Worksheet → option exn
}.

(** What the platform answers during one command.  [in_followup k]
    answers the [k]-th call of [interaction.followup.send];
    [in_loop_running] is [task_allocation_loop.is_running()];
    the two mentions are those of the channels the bot holds. *)
Record Interaction := mkInteraction {
  in_guild : bool;
  in_user_mention : string;
  in_user_name : string;
  in_defer : option exn;
  in_followup : nat → option exn;
  in_loop_running : bool;
  in_probe : SheetProbe;
  in_announce_mention : string;
  in_logs_mention : string
}.

(** The actions of a command, in the order it attempts them.  [BotLog]
    carries an action of [send_log]. *)
Inductive cmd_event :=
  | Defer (failure : option exn)
  | Followup (c : content) (ephemeral : bool) (failure : option exn)
  | BotLog (e : event)
  | CmdLogger (l : level) (msg : string)
  | LoopCancel
  | LoopSleep
  | LoopCreate (minutes : Z)
  | LoopStart
  | LoopStopped.

(** The bot and the trace of the command. *)
Record CSt := mkCSt {
  c_bot : TaskBot;
  c_out : list cmd_event
}.

Definition C (A : Type) : Type := CSt → result A * CSt.

Global Instance C_ret : MRet C := λ A a st, (Ok a, st).

Global Instance C_bind : MBind C := λ A B f m st,
  match m st with
  | (Ok a, st') => f a st'
  | (Raise e, st') => (Raise e, st')
  end.

Definition c_try_except {A} (body : C A) (handler : exn → C A) : C A := λ st,
  match body st with
  | (Ok a, st') => (Ok a, st')
  | (Raise e, st') => handler e st'
  end.

Definition c_get_bot : C TaskBot := λ st, (Ok (c_bot st), st).

Definition c_put_bot (b : TaskBot) : C unit := λ st, (Ok tt, mkCSt b (c_out st)).

Definition c_emit (e : cmd_event) : C unit := λ st,
  (Ok tt, mkCSt (c_bot st) (c_out st ++ [e])).

Definition is_followup (e : cmd_event) : bool :=
  match e with Followup _ _ _ => true | _ => false end.

(** An action on [task_allocation_loop]. *)
Definition is_loop_event (e : cmd_event) : bool :=
  match e with
  | LoopCancel | LoopSleep | LoopCreate _ | LoopStart | LoopStopped => true
  | _ => false
  end.

(** [await interaction.response.defer()]. *)
Definition defer (i : Interaction) : C unit := λ st,
  (match in_defer i with Some e => Raise e | None => Ok tt end,
   mkCSt (c_bot st) (c_out st ++ [Defer (in_defer i)])).

(** [await interaction.followup.send(...)]. *)
Definition followup_send (i : Interaction) (c : content) (ephemeral : bool) : C unit :=
  λ st,
  let failure := in_followup i (length (filter is_followup (c_out st))) in
  (match failure with Some e => Raise e | None => Ok tt end,
   mkCSt (c_bot st) (c_out st ++ [Followup c ephemeral failure])).

(** [await bot.send_log(message)] inside a command. *)
Definition c_send_log (message : string) : C unit := λ st,
  (Ok tt,
   mkCSt (c_bot st)
     (c_out st ++ (BotLog <$> st_trace (send_log message (init_st (c_bot st))).2))).

(** Python's truth value of a [str]. *)
Definition str_truthy (s : string) : bool := negb (String.eqb s "").

(** [validate_sheet_access(sheet_url)]. *)
Definition validate_sheet_access (b : TaskBot) (p : SheetProbe) (url : string)
    : bool * string :=
  if negb (gc b) then (false, "Google Sheets API not initialized")
  else
    match extract_sheet_id url with
    | None => (false, "Invalid Google Sheets URL")
    | Some sheet_id =>
        if negb (str_truthy sheet_id) then (false, "Invalid Google Sheets URL")
        else
          match (sheet ← probe_open_by_key p sheet_id;
                 worksheet ← sp_first sheet;
                 match probe_row_values p worksheet with
                 | Some e => Raise e
                 | None => Ok tt
                 end) with
          | Ok _ => (true, "Sheet access verified")
          | Raise e => (false, "Sheet access failed: " +:+ e_text e)
          end
    end.

(** [restart_task_loop]. *)
Definition restart_task_loop (i : Interaction) : C unit :=
  (if in_loop_running i then c_emit LoopCancel else mret tt);;
  c_emit LoopSleep;;
  b ← c_get_bot;
  c_emit (LoopCreate (interval_minutes b));;
  if configured b && announce_channel b then c_emit LoopStart else mret tt.

(** The bot after the assignments of [create_task]. *)
Definition task_settings (tasks : Z) (task_type : string) (winners_per_task : Z)
    (b : TaskBot) : TaskBot :=
  mkTaskBot tasks (sheet_url b) (interval_minutes b) true
    (announce_channel b) (logs_channel b) 1 (gc b) (reaction_timestamps b)
    (reaction_time b) (role_removal_hours b) (ping_role_name b)
    winners_per_task task_type.

Definition task_created_embed (i : Interaction) (b : TaskBot) (tasks : Z)
    (task_type : string) (winners_per_task : Z) : Embed :=
  mkEmbed "✅ Task Creation Started!" "" green
    [("Total Tasks", pretty tasks, true);
     ("Task Type", str_title task_type, true);
     ("Winners Per Task", pretty winners_per_task, true);
     ("Announce Channel", in_announce_mention i, true);
     ("Logs Channel", if logs_channel b then in_logs_mention i else "Not set", true);
     ("Interval", pretty (interval_minutes b) +:+ " minutes", true);
     ("Sheet", "✅ Verified", true)]
    None.

(** The body of [create_task], once the check [admin_only] has passed.
    An embed without description has the empty one. *)
Definition create_task (i : Interaction) (tasks : Z) (task_type : string)
    (winners_per_task : Z) : C unit :=
  defer i;;
  c_try_except
    (b ← c_get_bot;
     if negb (announce_channel b) then
       followup_send i
         (Text "❌ **Settings not configured!** Use `/configure_settings` first.") true
     else if negb (str_truthy (sheet_url b)) then
       followup_send i
         (Text "❌ **Google Sheets URL not configured!** Use `/configure_settings` with `sheets_url` parameter.")
         true
     else if tasks <=? 0 then
       followup_send i (Text "❌ Tasks must be > 0") true
     else if (winners_per_task <=? 0) || (20 <? winners_per_task) then
       followup_send i (Text "❌ Winners per task must be between 1-20") true
     else if negb (in_guild i) then
       followup_send i (Text "❌ Server only command") true
     else
       let '(sheet_valid, message) := validate_sheet_access b (in_probe i) (sheet_url b) in
       if negb sheet_valid then
         followup_send i (Text ("❌ Sheet validation failed: " +:+ message)) true
       else
         c_put_bot (task_settings tasks task_type winners_per_task b);;
         b ← c_get_bot;
         let remaining_tasks := tasks in
         let tasks_this_round := Z.min winners_per_task remaining_tasks in
         followup_send i
           (WithEmbed (task_created_embed i b tasks task_type winners_per_task)) false;;
         (if tasks_this_round =? 1 then
            c_send_log ("Task #" +:+ pretty (current_task b) +:+ " created and posted")
          else
            c_send_log ("Tasks #" +:+ pretty (current_task b) +:+ "-#"
                        +:+ pretty (current_task b + tasks_this_round - 1)
                        +:+ " created and posted (" +:+ pretty tasks_this_round
                        +:+ " people needed)"));;
         restart_task_loop i)
    (λ e,
      c_emit (CmdLogger ERROR ("Create task error: " +:+ e_text e));;
      followup_send i (Text ("❌ Task creation failed: " +:+ e_text e)) true).

(** The bot after the assignments of [configure_settings]. *)
Definition configured_settings (interval_minutes reaction_time role_removal_hours : Z)
    (ping_role_name : string) (sheets_url : option string) (b : TaskBot) : TaskBot :=
  mkTaskBot (total_tasks b)
    (match sheets_url with
     | Some url => if str_truthy url then url else sheet_url b
     | None => sheet_url b
     end)
    interval_minutes (configured b) true true (current_task b) (gc b)
    (reaction_timestamps b) reaction_time role_removal_hours ping_role_name
    (winners_per_task b) (task_type b).

Definition settings_embed (interval_minutes : Z) (announce_channel logs_channel : Channel)
    (reaction_time role_removal_hours : Z) (ping_role_name : string)
    (sheets_url : option string) : Embed :=
  mkEmbed "✅ Settings Configured!" "" green
    [("Interval", pretty interval_minutes +:+ " minutes", true);
     ("Reaction Time", pretty reaction_time +:+ " seconds", true);
     ("Role Removal", pretty role_removal_hours +:+ " hours", true);
     ("Announce Channel", ch_mention announce_channel, true);
     ("Logs Channel", ch_mention logs_channel, true);
     ("Ping Role", ping_role_name, true);
     ("Sheets URL",
      match sheets_url with
      | Some url => if str_truthy url then "✅ Set" else "Not provided"
      | None => "Not provided"
      end, true)]
    None.

(** The test of a sheet URL that [configure_settings] makes when one is
    given: the message of the rejection, if it is rejected. *)
Definition check_sheets_url (b : TaskBot) (i : Interaction) (sheets_url : option string)
    : option string :=
  match sheets_url with
  | Some url =>
      if str_truthy url then
        match extract_sheet_id url with
        | None => Some "❌ Invalid Google Sheets URL"
        | Some sheet_id =>
            if negb (str_truthy sheet_id) then Some "❌ Invalid Google Sheets URL"
            else
              let '(sheet_valid, message) := validate_sheet_access b (in_probe i) url in
              if negb sheet_valid then Some ("❌ Sheet validation failed: " +:+ message)
              else None
        end
      else None
  | None => None
  end.

(** The body of [configure_settings], once the check [admin_only] has
    passed. *)
Definition configure_settings (i : Interaction) (interval_minutes : Z)
    (announce_channel logs_channel : Channel) (reaction_time role_removal_hours : Z)
    (ping_role_name : string) (sheets_url : option string) : C unit :=
  defer i;;
  c_try_except
    (if interval_minutes <? 1 then
       followup_send i (Text "❌ Interval must be at least 1 minute") true
     else if (reaction_time <? 1) || (60 <? reaction_time) then
       followup_send i (Text "❌ Reaction time must be between 1-60 seconds") true
     else if (role_removal_hours <? 1) || (168 <? role_removal_hours) then
       followup_send i
         (Text "❌ Role removal hours must be between 1-168 hours (1 week)") true
     else if negb (in_guild i) then
       followup_send i (Text "❌ Server only command") true
     else if negb (ch_send_messages announce_channel
                   && ch_manage_messages announce_channel
                   && ch_add_reactions announce_channel) then
       followup_send i
         (Text ("❌ Missing bot permissions in " +:+ ch_mention announce_channel)) true
     else if negb (ch_send_messages logs_channel) then
       followup_send i
         (Text ("❌ Missing send messages permission in " +:+ ch_mention logs_channel))
         true
     else
       b ← c_get_bot;
       match check_sheets_url b i sheets_url with
       | Some rejection => followup_send i (Text rejection) true
       | None =>
           c_put_bot (configured_settings interval_minutes reaction_time
                        role_removal_hours ping_role_name sheets_url b);;
           followup_send i
             (WithEmbed (settings_embed interval_minutes announce_channel logs_channel
                           reaction_time role_removal_hours ping_role_name sheets_url))
             false;;
           c_send_log ("Bot settings configured by " +:+ in_user_mention i)
       end)
    (λ e,
      c_emit (CmdLogger ERROR ("Configure settings error: " +:+ e_text e));;
      followup_send i (Text ("❌ Configuration failed: " +:+ e_text e)) true).

(** The bot after the assignment of [stop_tasks]. *)
Definition set_configured (c : bool) (b : TaskBot) : TaskBot :=
  mkTaskBot (total_tasks b) (sheet_url b) (interval_minutes b) c
    (announce_channel b) (logs_channel b) (current_task b) (gc b)
    (reaction_timestamps b) (reaction_time b) (role_removal_hours b)
    (ping_role_name b) (winners_per_task b) (task_type b).

Definition stopped_embed (i : Interaction) (b : TaskBot) : Embed :=
  mkEmbed "🛑 Task Execution Stopped!"
    ("Task allocation has been stopped at Task #" +:+ pretty (current_task b)) red
    [("Current Task", pretty (current_task b), true);
     ("Total Tasks", pretty (total_tasks b), true);
     ("Stopped By", in_user_mention i, true)]
    None.

(** The body of [stop_tasks], once the check [admin_only] has passed. *)
Definition stop_tasks (i : Interaction) : C unit :=
  defer i;;
  c_try_except
    (if negb (in_loop_running i) then
       followup_send i (Text "❌ Task allocation is not currently running") true
     else
       c_emit LoopStopped;;
       b ← c_get_bot;
       c_put_bot (set_configured false b);;
       followup_send i (WithEmbed (stopped_embed i b)) false;;
       c_send_log ("Task allocation stopped by " +:+ in_user_mention i
                   +:+ " at Task #" +:+ pretty (current_task b)))
    (λ e,
      c_emit (CmdLogger ERROR ("Stop tasks error: " +:+ e_text e));;
      followup_send i (Text ("❌ Failed to stop tasks: " +:+ e_text e)) true).

(** ** Vocabulary: the life of the bot *)

(** The bot [__init__] builds; [gc] is set by [setup_google_sheets] when
    the credentials are there. *)
Definition initial_bot (gc : bool) : TaskBot :=
  mkTaskBot 0 "" 4 false false false 1 gc ∅ 5 12 "✅・VERIFIED" 1 "Comment".

(** What happens to the bot: a command, a round of the loop, a reaction. *)
Inductive action :=
  | ConfigureSettings (i : Interaction) (interval_minutes : Z)
      (announce_channel logs_channel : Channel) (reaction_time role_removal_hours : Z)
      (ping_role_name : string) (sheets_url : option string)
  | CreateTask (i : Interaction) (tasks : Z) (task_type : string) (winners_per_task : Z)
  | StopTasks (i : Interaction)
  | LoopRound (w : World)
  | ReactionAdd (emoji : string) (message_id : Z) (user : User) (now : Z).

Definition perform (a : action) (b : TaskBot) : TaskBot :=
  match a with
  | ConfigureSettings i interval_minutes announce_channel logs_channel reaction_time
      role_removal_hours ping_role_name sheets_url =>
      c_bot (configure_settings i interval_minutes announce_channel logs_channel
               reaction_time role_removal_hours ping_role_name sheets_url
               (mkCSt b [])).2
  | CreateTask i tasks task_type winners_per_task =>
      c_bot (create_task i tasks task_type winners_per_task (mkCSt b [])).2
  | StopTasks i => c_bot (stop_tasks i (mkCSt b [])).2
  | LoopRound w => st_bot (task_allocation_loop_impl w (init_st b)).2
  | ReactionAdd emoji message_id user now =>
      set_reaction_timestamps
        (on_reaction_add emoji message_id user now (reaction_timestamps b)) b
  end.

Definition perform_all (actions : list action) (b : TaskBot) : TaskBot :=
  fold_left (λ b a, perform a b) actions b.

(** The ranges the commands accept, and what a configured bot holds. *)
Definition well_formed (b : TaskBot) : Prop :=
  1 ≤ interval_minutes b
  ∧ 1 ≤ reaction_time b ≤ 60
  ∧ 1 ≤ role_removal_hours b ≤ 168
  ∧ 1 ≤ winners_per_task b ≤ 20
  ∧ 1 ≤ current_task b
  ∧ (configured b = true →
     announce_channel b = true
     ∧ gc b = true
     ∧ is_Some (extract_sheet_id (sheet_url b))
     ∧ 0 < total_tasks b).

(** The tests of [create_task] all pass. *)
Definition create_task_accepts (b : TaskBot) (i : Interaction) (tasks : Z)
    (winners_per_task : Z) : bool :=
  announce_channel b && str_truthy (sheet_url b) && (0 <? tasks)
  && (1 <=? winners_per_task) && (winners_per_task <=? 20) && in_guild i
  && (validate_sheet_access b (in_probe i) (sheet_url b)).1.

(** A spreadsheet that answers every call of [validate_sheet_access]. *)
Definition reachable_sheet : SheetProbe :=
  mkSheetProbe
    (λ _, Ok (mkSpreadsheet (Ok (mkWorksheet (Ok 10%nat) None))
                (Ok (mkWorksheet (Ok 10%nat) None))))
    (λ _, None).

(** * Theorems *)

(** ** Theorems: ClaimTracker *)

Lemma on_reaction_add_recorded emoji mid user now rt :
  u_bot user = false → emoji = CHECKMARK →
  recorded (on_reaction_add emoji mid user now rt) mid (u_id user)
  = Some (default now (recorded rt mid (u_id user))).
Proof.
  intros Hb ->. unfold on_reaction_add, recorded. rewrite Hb. simpl.
  destruct (rt !! mid) as [bucket|] eqn:Hm.
  - rewrite Hm. destruct (bucket !! u_id user) as [t|] eqn:Hu.
    + by rewrite Hm, Hu.
    + by rewrite lookup_insert_eq, lookup_insert_eq.
  - rewrite lookup_insert_eq, lookup_empty.
    by rewrite lookup_insert_eq, lookup_insert_eq.
Qed.

Lemma on_reaction_add_known emoji mid user now rt t :
  recorded rt mid (u_id user) = Some t →
  on_reaction_add emoji mid user now rt = rt.
Proof.
  unfold recorded, on_reaction_add. intros H.
  destruct (u_bot user || negb (emoji =? CHECKMARK)%string); [done|].
  destruct (rt !! mid) as [bucket|] eqn:Hm; [|done].
  by rewrite Hm, H.
Qed.

(** C6. Within one round, registering the same participant twice is
    idempotent: after the first registration at [t1] of a participant not
    yet in the round's bucket, a second registration at [t2] leaves the
    tracker unchanged, the participant's entry still bears [t1], and the
    bucket has grown by exactly that one entry. *)
Theorem on_reaction_add_idempotent (rt : gmap Z (gmap Z Z)) (mid : Z)
    (user : User) (t1 t2 : Z) :
  u_bot user = false →
  recorded rt mid (u_id user) = None →
  let rt1 := on_reaction_add CHECKMARK mid user t1 rt in
  let rt2 := on_reaction_add CHECKMARK mid user t2 rt1 in
  rt2 = rt1
  ∧ recorded rt2 mid (u_id user) = Some t1
  ∧ (∀ bucket2, rt2 !! mid = Some bucket2 →
       size bucket2 = S (size (default ∅ (rt !! mid)))).
Proof.
  intros Hb Hnone rt1 rt2.
  assert (H1 : recorded rt1 mid (u_id user) = Some t1).
  { unfold rt1. rewrite on_reaction_add_recorded by done. by rewrite Hnone. }
  assert (H2 : rt2 = rt1).
  { unfold rt2. by apply on_reaction_add_known with t1. }
  split; [done|]. split; [by rewrite H2|].
  rewrite H2. unfold rt1, on_reaction_add. rewrite Hb. simpl.
  unfold recorded in Hnone.
  destruct (rt !! mid) as [bucket|] eqn:Hm.
  - rewrite Hm, Hnone. rewrite lookup_insert_eq. intros ? [= <-]. simpl.
    by apply map_size_insert_None.
  - rewrite lookup_insert_eq, lookup_empty, lookup_insert_eq.
    intros ? [= <-]. simpl. by rewrite map_size_insert_None.
Qed.

Lemma on_reaction_add_idempotent_witness :
  let u := mkUser 7 "ann" "<@7>" false in
  let rt1 := on_reaction_add CHECKMARK 100 u 5 ∅ in
  let rt2 := on_reaction_add CHECKMARK 100 u 9 rt1 in
  rt2 = rt1
  ∧ recorded rt2 100 (u_id u) = Some 5
  ∧ (∀ bucket2, rt2 !! 100 = Some bucket2 →
       size bucket2 = S (size (default (∅ : gmap Z Z) ((∅ : gmap Z (gmap Z Z)) !! 100)))).
Proof.
  apply (on_reaction_add_idempotent ∅ 100 (mkUser 7 "ann" "<@7>" false) 5 9).
  - reflexivity.
  - reflexivity.
Defined.

(** ** Theorems: WinnerSelector *)

Section sorting.
Implicit Types (x y : User * Z) (l : list (User * Z)).

Lemma insert_by_timestamp_perm x l : insert_by_timestamp x l ≡ₚ x :: l.
Proof.
  induction l as [|y l IH]; simpl; [done|].
  destruct (x.2 <=? y.2); [done|].
  rewrite IH. apply Permutation_swap.
Qed.

Lemma sort_by_timestamp_perm l : sort_by_timestamp l ≡ₚ l.
Proof.
  induction l as [|x l IH]; simpl; [done|].
  rewrite insert_by_timestamp_perm. by rewrite IH.
Qed.

Lemma insert_by_timestamp_sorted x l :
  StronglySorted (λ a b, a.2 ≤ b.2) l →
  StronglySorted (λ a b, a.2 ≤ b.2) (insert_by_timestamp x l).
Proof.
  induction l as [|y l IH]; simpl; intros Hs.
  - repeat constructor.
  - apply StronglySorted_inv in Hs as [Hs Hy].
    destruct (Z.leb_spec (x.2) (y.2)) as [Hle|Hlt].
    + constructor; [by constructor|].
      constructor; [done|]. eapply Forall_impl; [exact Hy|]. simpl. lia.
    + constructor; [by apply IH|].
      rewrite insert_by_timestamp_perm. constructor; [lia|done].
Qed.

Lemma sort_by_timestamp_sorted l :
  StronglySorted (λ a b, a.2 ≤ b.2) (sort_by_timestamp l).
Proof.
  induction l as [|x l IH]; simpl; [constructor|].
  by apply insert_by_timestamp_sorted.
Qed.
End sorting.

Lemma StronglySorted_strict_unique {A} (key : A → Z) (l1 l2 : list A) :
  l1 ≡ₚ l2 →
  StronglySorted (λ a b, key a < key b) l1 →
  StronglySorted (λ a b, key a < key b) l2 →
  l1 = l2.
Proof.
  revert l2. induction l1 as [|a l1 IH]; intros l2 Hp H1 H2.
  - by apply Permutation_nil in Hp.
  - destruct l2 as [|b l2]; [by apply Permutation_sym, Permutation_nil in Hp|].
    apply StronglySorted_inv in H1 as [H1 Ha].
    apply StronglySorted_inv in H2 as [H2 Hb].
    assert (a = b) as ->.
    { assert (Hin1 : a ∈ b :: l2) by (rewrite <- Hp; left).
      assert (Hin2 : b ∈ a :: l1) by (rewrite Hp; left).
      apply elem_of_cons in Hin1 as [?|Hin1]; [done|].
      apply elem_of_cons in Hin2 as [?|Hin2]; [done|].
      rewrite Forall_forall in Ha, Hb.
      specialize (Ha b Hin2). specialize (Hb a Hin1). lia. }
    f_equal. apply IH; [by apply Permutation_cons_inv in Hp|done..].
Qed.

Lemma stamp_reactors_recorded rt mid now k (reactors : list User) :
  (∀ r, r ∈ reactors → is_Some (recorded rt mid (u_id r))) →
  stamp_reactors rt mid now k reactors
  = (λ r, (r, timestamp_of rt mid r)) <$> reactors.
Proof.
  induction reactors as [|r rs IH]; intros Hrec; simpl; [done|].
  destruct (Hrec r) as [t Ht]; [left|].
  unfold timestamp_of at 1. rewrite Ht. simpl. f_equal.
  apply IH. intros r' Hr'. apply Hrec. by right.
Qed.

Lemma StronglySorted_le_NoDup_lt {A} (key : A → Z) (l : list A) :
  StronglySorted (λ a b, key a ≤ key b) l →
  NoDup (key <$> l) →
  StronglySorted (λ a b, key a < key b) l.
Proof.
  induction l as [|a l IH]; intros Hs Hnd; [constructor|].
  apply StronglySorted_inv in Hs as [Hs Ha].
  rewrite fmap_cons in Hnd. apply NoDup_cons in Hnd as [Hnotin Hnd].
  constructor; [by apply IH|].
  rewrite Forall_forall in Ha |- *. intros b Hb.
  specialize (Ha b Hb).
  assert (key a ≠ key b).
  { intros Heq. apply Hnotin. rewrite Heq. by apply list_elem_of_fmap_2. }
  lia.
Qed.

Lemma StronglySorted_fmap {A B} (f : A → B) (R : B → B → Prop) (l : list A) :
  StronglySorted (λ a b, R (f a) (f b)) l → StronglySorted R (f <$> l).
Proof.
  induction 1 as [|a l Hs IH Ha]; simpl; constructor; [done|].
  by apply Forall_fmap.
Qed.

Lemma slice_to_nonneg {A} (k : Z) (l : list A) :
  0 ≤ k → slice_to k l = take (Z.to_nat (Z.min k (Z.of_nat (length l)))) l.
Proof.
  intros Hk. unfold slice_to.
  destruct (Z.leb_spec 0 k); [|lia].
  destruct (Z.le_ge_cases k (Z.of_nat (length l))).
  - by rewrite Z.min_l.
  - rewrite Z.min_r by done. rewrite Nat2Z.id.
    rewrite !firstn_all2; [done|lia|lia].
Qed.

Lemma valid_winners_per_task_range (w : Z) :
  valid_winners_per_task w = true ↔ 1 ≤ w ≤ 20.
Proof.
  unfold valid_winners_per_task.
  destruct (Z.leb_spec w 0), (Z.ltb_spec 20 w); simpl; split; (done || lia).
Qed.

(** The winners of [select_winners] when every reactor has a recorded
    timestamp and no two of them coincide. *)
Lemma select_winners_recorded rt mid now (w : Z) (reactors : list User) :
  0 ≤ w →
  (∀ r, r ∈ reactors → is_Some (recorded rt mid (u_id r))) →
  NoDup (timestamp_of rt mid <$> reactors) →
  ∃ ordered,
    ordered ≡ₚ reactors
    ∧ StronglySorted (λ a b, timestamp_of rt mid a < timestamp_of rt mid b) ordered
    ∧ select_winners rt mid now w reactors
      = take (Z.to_nat (Z.min w (Z.of_nat (length reactors)))) ordered.
Proof.
  intros Hw Hrec Hnd. unfold select_winners.
  rewrite stamp_reactors_recorded by done.
  set (stamped := (λ r, (r, timestamp_of rt mid r)) <$> reactors).
  set (sorted := sort_by_timestamp stamped).
  assert (Hperm : sorted ≡ₚ stamped) by apply sort_by_timestamp_perm.
  assert (Hkey : Forall (λ x, x.2 = timestamp_of rt mid x.1) sorted).
  { rewrite Hperm. unfold stamped. apply Forall_fmap, Forall_true. done. }
  assert (Hfst : sorted.*1 ≡ₚ reactors).
  { rewrite Hperm. unfold stamped. rewrite <- list_fmap_compose.
    by rewrite list_fmap_id. }
  exists (sorted.*1). split; [done|]. split.
  - apply StronglySorted_fmap.
    apply (StronglySorted_le_NoDup_lt (λ x, timestamp_of rt mid x.1)).
    + generalize (sort_by_timestamp_sorted stamped). fold sorted.
      revert Hkey. clear. induction 2 as [|a l Hs IH Ha]; [constructor|].
      apply Forall_cons in Hkey as [Hka Hkl].
      constructor; [by apply IH|].
      rewrite Forall_forall in Ha, Hkl |- *. intros b Hb.
      rewrite <- Hka, <- (Hkl b Hb). by apply Ha.
    + assert (Heq : (λ x : User * Z, timestamp_of rt mid x.1) <$> sorted
                    = timestamp_of rt mid <$> sorted.*1)
        by (by rewrite <- list_fmap_compose).
      rewrite Heq. by rewrite Hfst.
  - rewrite slice_to_nonneg by done.
    rewrite fmap_take. f_equal. f_equal. f_equal.
    rewrite <- (length_fmap fst sorted). by rewrite Hfst.
Qed.

(** ** Theorems: LedgerClient *)

Lemma add_trace_nil st : add_trace [] st = st.
Proof. destruct st. unfold add_trace. simpl. by rewrite app_nil_r. Qed.

Lemma add_trace_app tr1 tr2 st :
  add_trace tr2 (add_trace tr1 st) = add_trace (tr1 ++ tr2) st.
Proof. unfold add_trace. simpl. by rewrite app_assoc. Qed.

Lemma emit_eq e st : emit e st = (Ok tt, add_trace [e] st).
Proof. done. Qed.

Ltac st_eq :=
  unfold add_trace, mret, M_ret, raise; simpl; rewrite <- ?app_assoc; simpl;
  try done.

Lemma write_attempt_eq ww n name k st id :
  extract_sheet_id (sheet_url (st_bot st)) = Some id →
  write_attempt ww n name k st =
    match attempt_rows ww k with
    | Raise e => (Raise e, add_trace [OpenByKey id] st)
    | Ok (worksheet, rows) =>
        if Z.of_nat rows <? n + 1 then
          (Ok Returned,
           add_trace [OpenByKey id;
                      Logger ERROR ("Task " +:+ pretty n +:+ " row doesn't exist in sheet")] st)
        else
          (match ws_update_cell worksheet with
           | Some e => Raise e
           | None => Ok Returned
           end,
           add_trace [OpenByKey id; UpdateCell (n + 1) 4 name (ws_update_cell worksheet)] st)
    end.
Proof.
  intros Hid. unfold write_attempt, attempt_rows.
  unfold mbind, M_bind, result_bind, get_bot. rewrite Hid. rewrite emit_eq.
  destruct (ww_open_by_key ww k) as [sheet|e]; simpl; [|done].
  destruct (open_worksheet sheet) as [worksheet|e]; simpl; [|done].
  destruct (ws_all_values worksheet) as [rows|e]; simpl; [|done].
  destruct (Z.of_nat rows <? n + 1); simpl; [st_eq|].
  destruct (ws_update_cell worksheet); st_eq.
Qed.

Lemma write_attempt_no_id ww n name k st :
  extract_sheet_id (sheet_url (st_bot st)) = None →
  write_attempt ww n name k st = (Ok Returned, st).
Proof.
  intros Hid. unfold write_attempt, mbind, M_bind, get_bot. by rewrite Hid.
Qed.

(** One iteration of the retry loop, for the attempts [0], [1] and [2]. *)
Ltac step_attempt k :=
  let r := fresh "r" in let ws := fresh "ws" in let rows := fresh "rows" in
  let e := fresh "e" in let Hr := fresh "Hr" in let Hlt := fresh "Hlt" in
  let Hu := fresh "Hu" in
  erewrite write_attempt_eq by (simpl; eassumption);
  destruct (attempt_rows _ k) as [[ws rows]|e] eqn:Hr; simpl;
  [ destruct (Z.of_nat rows <? _ + 1) eqn:Hlt; simpl;
    [ | destruct (ws_update_cell ws) as [e|] eqn:Hu; simpl ] | ].

Lemma write_to_sheet_frame ww n name st :
  ∃ tr, write_to_sheet ww n name st = (Ok tt, add_trace tr st)
        ∧ filter is_post tr = []
        ∧ (length (filter is_open_by_key tr) ≤ 3)%nat
        ∧ filter is_sleep tr `prefix_of` [Sleep 1; Sleep 2].
Proof.
  unfold write_to_sheet, mbind, M_bind, get_bot.
  destruct (negb (gc (st_bot st)) || (sheet_url (st_bot st) =? "")%string).
  { eexists. rewrite emit_eq. split; [done|]. simpl.
    split; [done|]. split; [lia|]. apply prefix_nil. }
  destruct (extract_sheet_id (sheet_url (st_bot st))) as [id|] eqn:Hid.
  2:{ exists []. unfold range3, write_attempts, try_except, mbind, M_bind.
      rewrite write_attempt_no_id by done. rewrite add_trace_nil.
      split; [done|]. split; [done|]. split; [simpl; lia|]. apply prefix_nil. }
  unfold range3, write_attempts, try_except, mbind, M_bind.
  step_attempt 0.
  1,3: (eexists; split; [st_eq|]; simpl; repeat split; [lia|apply prefix_nil]).
  all: rewrite ?emit_eq; simpl; rewrite ?emit_eq; simpl.
  all: step_attempt 1.
  1,3,5,7: (eexists; split; [st_eq|]; simpl; repeat split; [lia|by exists [Sleep 2]]).
  all: rewrite ?emit_eq; simpl; rewrite ?emit_eq; simpl.
  all: step_attempt 2.
  all: rewrite ?emit_eq; simpl; rewrite ?emit_eq; simpl.
  all: (eexists; split; [st_eq|]; simpl; repeat split; [lia|done]).
Qed.

Lemma extract_sheet_id_nonempty url :
  is_Some (extract_sheet_id url) → (url =? "")%string = false.
Proof. destruct url; [by intros [? ?]|done]. Qed.

(** C7. A ledger write never raises, leaves the bot (and so the task
    cursor) and the round's variables as they were, opens the spreadsheet at
    most 3 times and sleeps at most 1s and then 2s; when each of the three
    attempts fails, it makes exactly 3 attempts, sleeps exactly 1s and then
    2s between them, and returns after logging the final failure. *)
Theorem write_to_sheet_gives_up (ww : WinnerWorld) (task_number : Z)
    (winner_name : string) (st : St) :
  ∃ tr, write_to_sheet ww task_number winner_name st = (Ok tt, add_trace tr st)
    ∧ current_task (st_bot (add_trace tr st)) = current_task (st_bot st)
    ∧ (length (filter is_open_by_key tr) ≤ 3)%nat
    ∧ filter is_sleep tr `prefix_of` [Sleep 1; Sleep 2]
    ∧ (gc (st_bot st) = true →
       is_Some (extract_sheet_id (sheet_url (st_bot st))) →
       (∀ attempt, attempt ∈ range3 →
          is_Some (attempt_failure ww task_number attempt)) →
       length (filter is_open_by_key tr) = 3%nat
       ∧ filter is_sleep tr = [Sleep 1; Sleep 2]
       ∧ last tr = Some (Logger ERROR "Failed to write to sheet after 3 attempts")).
Proof.
  destruct (write_to_sheet_frame ww task_number winner_name st)
    as (tr & Heq & _ & Hopen & Hsleep).
  exists tr. split; [done|]. split; [done|]. split; [done|]. split; [done|].
  intros Hgc [id Hid] Hfail.
  assert (H0 : is_Some (attempt_failure ww task_number 0))
    by (apply Hfail; unfold range3; set_solver).
  assert (H1 : is_Some (attempt_failure ww task_number 1))
    by (apply Hfail; unfold range3; set_solver).
  assert (H2 : is_Some (attempt_failure ww task_number 2))
    by (apply Hfail; unfold range3; set_solver).
  clear Hfail Hopen Hsleep. revert Heq.
  unfold write_to_sheet, mbind, M_bind, get_bot. rewrite Hgc.
  rewrite extract_sheet_id_nonempty by (by rewrite Hid). simpl.
  unfold range3, write_attempts, try_except, mbind, M_bind.
  unfold attempt_failure in H0, H1, H2.
  step_attempt 0; rewrite ?Hr, ?Hlt, ?Hu in H0; try by destruct H0.
  all: step_attempt 1; rewrite ?Hr0, ?Hlt0, ?Hu0 in H1; try by destruct H1.
  all: step_attempt 2; rewrite ?Hr1, ?Hlt1, ?Hu1 in H2; try by destruct H2.
  all: unfold add_trace, mret, M_ret; simpl; rewrite <- ?app_assoc; simpl.
  all: intros [= Htr%app_inv_head]; subst tr; done.
Qed.

Lemma write_to_sheet_gives_up_witness :
  let ww := mkWinnerWorld None (Raise (mkExn NotFound "gone")) false None
              (Raise (mkExn Forbidden "no")) false 0 None false None
              (λ _, Raise (mkExn OtherException "quota exceeded")) in
  let b := mkTaskBot 3 "https://docs.google.com/spreadsheets/d/abc/edit" 4 true true
             true 1 true ∅ 5 12 "V" 1 "Comment" in
  ∃ tr, write_to_sheet ww 1 "ann" (init_st b) = (Ok tt, add_trace tr (init_st b))
    ∧ length (filter is_open_by_key tr) = 3%nat
    ∧ filter is_sleep tr = [Sleep 1; Sleep 2]
    ∧ last tr = Some (Logger ERROR "Failed to write to sheet after 3 attempts").
Proof.
  intros ww b.
  destruct (write_to_sheet_gives_up ww 1 "ann" (init_st b))
    as (tr & Heq & _ & _ & _ & Hall).
  exists tr. split; [exact Heq|].
  apply Hall.
  - reflexivity.
  - vm_compute. eexists. reflexivity.
  - intros attempt _. vm_compute. eexists. reflexivity.
Defined.

Ltac row_read_contradiction Hm :=
  match goal with
  | H1 : attempt_rows _ _ = Ok (_, ?rows),
    H2 : (Z.of_nat ?rows <? _) = false |- _ =>
      rewrite (Hm _ _ _ H1) in H2; discriminate
  end.

(** C8. When the row count read by the first attempt shows that row
    [task_number + 1] is not there, [write_to_sheet] returns right after
    the error is logged: the spreadsheet is opened once, no cell is written
    and no retry is made.  More generally, as long as every attempt that
    reads the row count finds the row missing, no cell is ever written. *)
Theorem write_to_sheet_missing_row (ww : WinnerWorld) (task_number : Z)
    (winner_name : string) (st : St) (sheet_id : string) :
  gc (st_bot st) = true →
  extract_sheet_id (sheet_url (st_bot st)) = Some sheet_id →
  (∀ worksheet rows,
     attempt_rows ww 0 = Ok (worksheet, rows) →
     Z.of_nat rows < task_number + 1 →
     write_to_sheet ww task_number winner_name st
     = (Ok tt,
        add_trace [OpenByKey sheet_id;
                   Logger ERROR ("Task " +:+ pretty task_number
                                 +:+ " row doesn't exist in sheet")] st))
  ∧ ((∀ attempt worksheet rows,
        attempt_rows ww attempt = Ok (worksheet, rows) →
        Z.of_nat rows < task_number + 1) →
     ∃ tr, write_to_sheet ww task_number winner_name st = (Ok tt, add_trace tr st)
           ∧ filter is_update_cell tr = []).
Proof.
  intros Hgc Hid.
  assert (Hurl : (sheet_url (st_bot st) =? "")%string = false)
    by (apply extract_sheet_id_nonempty; by rewrite Hid).
  unfold write_to_sheet, mbind, M_bind, get_bot. rewrite Hgc, Hurl. simpl.
  unfold range3, write_attempts, try_except, mbind, M_bind.
  split.
  - intros worksheet rows Hrows Hlt.
    erewrite write_attempt_eq by eassumption. rewrite Hrows.
    by apply Z.ltb_lt in Hlt as ->.
  - intros Hmiss.
    assert (Hm : ∀ attempt worksheet rows,
               attempt_rows ww attempt = Ok (worksheet, rows) →
               (Z.of_nat rows <? task_number + 1) = true).
    { intros. apply Z.ltb_lt. eauto. }
    clear Hmiss.
    step_attempt 0; try row_read_contradiction Hm.
    1: (eexists; split; [st_eq|reflexivity]).
    step_attempt 1; try row_read_contradiction Hm.
    1: (eexists; split; [st_eq|reflexivity]).
    step_attempt 2; try row_read_contradiction Hm.
    all: (eexists; split; [st_eq|reflexivity]).
Qed.

Lemma write_to_sheet_missing_row_witness :
  let ws := mkWorksheet (Ok 4%nat) None in
  let ww := mkWinnerWorld None (Raise (mkExn NotFound "gone")) false None
              (Raise (mkExn Forbidden "no")) false 0 None false None
              (λ _, Ok (mkSpreadsheet (Ok ws) (Ok ws))) in
  let b := mkTaskBot 9 "https://docs.google.com/spreadsheets/d/abc/edit" 4 true true
             true 7 true ∅ 5 12 "V" 1 "Comment" in
  write_to_sheet ww 7 "ann" (init_st b)
  = (Ok tt, add_trace [OpenByKey "abc";
                       Logger ERROR "Task 7 row doesn't exist in sheet"] (init_st b)).
Proof.
  intros ws ww b.
  apply (proj1 (write_to_sheet_missing_row ww 7 "ann" (init_st b) "abc"
                  eq_refl eq_refl) ws 4%nat).
  - reflexivity.
  - simpl. lia.
Defined.

(** ** Theorems: EffectPipeline *)

Lemma send_log_eq msg st :
  send_log msg st
  = (Ok tt, add_trace (if logs_channel (st_bot st) then [LogSent msg] else []) st).
Proof.
  unfold send_log, mbind, M_bind, get_bot.
  destruct (logs_channel (st_bot st)); [done|]. by rewrite add_trace_nil.
Qed.

Lemma announce_send_eq w c st :
  announce_send w c st
  = let failure := w_post w (length (filter is_post (st_trace st))) in
    (match failure with None => Ok tt | Some e => Raise e end,
     add_trace [Post c failure] st).
Proof.
  unfold announce_send. rewrite emit_eq. simpl.
  by destruct (w_post w (length (filter is_post (st_trace st)))).
Qed.

Ltac count_events :=
  simpl; rewrite ?filter_app; simpl;
  repeat match goal with
         | |- context [if ?b then _ else _] => destruct b; simpl
         end;
  try done; try lia.

Lemma dm_winner_frame w ww m n st :
  ∃ sent tr, dm_winner w ww m n st = (Ok sent, add_trace tr st)
    ∧ (length (filter is_post tr) ≤ 1)%nat.
Proof.
  unfold dm_winner, try_except, mbind, M_bind, get_bot. rewrite emit_eq.
  destruct (ww_dm ww) as [e|]; simpl.
  - destruct (is_HTTPException e); simpl.
    + destruct (announce_channel (st_bot st)); simpl.
      * rewrite announce_send_eq. simpl.
        destruct (w_post w _); simpl.
        -- do 2 eexists. split; [st_eq|count_events].
        -- rewrite send_log_eq. simpl.
           do 2 eexists. split; [st_eq|count_events].
      * rewrite send_log_eq. simpl.
        do 2 eexists. split; [st_eq|count_events].
    + do 2 eexists. split; [st_eq|count_events].
  - rewrite send_log_eq. simpl.
    do 2 eexists. split; [st_eq|count_events].
Qed.
Ltac in_list :=
  simpl; rewrite ?elem_of_app, ?elem_of_cons; auto 12.

(** C9 (as the code has it).  [dm_winner] attempts the direct message
    first and returns whether it was delivered.  A direct message that
    fails with [discord.Forbidden] or another [discord.HTTPException],
    with the announcement channel set, is followed by exactly one send to
    the announcement channel, which is not retried if it raises: the
    embed with the notice that the DMs are inaccessible, whose fields are
    the assigned task number followed by every field of the failed embed,
    the sheet link and the task number among them.  A direct message that
    is delivered, or that fails with an exception of another class, is
    followed by no send to the announcement channel. *)
Theorem dm_winner_fallback (w : World) (ww : WinnerWorld) (winner_member : Member)
    (task_number : Z) (st : St) :
  let b := st_bot st in
  let dm := dm_embed b task_number in
  let fallback := channel_embed b winner_member task_number in
  let posts_before := length (filter is_post (st_trace st)) in
  ∃ tr,
    dm_winner w ww winner_member task_number st
    = (Ok (match ww_dm ww with None => true | Some _ => false end),
       add_trace (DirectMessage winner_member dm (ww_dm ww) :: tr) st)
    ∧ filter is_post tr
      = match ww_dm ww with
        | Some e =>
            if is_HTTPException e && announce_channel b
            then [Post (WithEmbed fallback) (w_post w posts_before)]
            else []
        | None => []
        end
    ∧ description dm
      = "You have been assigned **Task #" +:+ pretty task_number +:+ "**!"
    ∧ ("📋 Google Sheets Link",
       "[Click here to access the task sheet](" +:+ sheet_url b +:+ ")", false)
        ∈ fields dm
    ∧ ("⏰ Task Details",
       "Task Number: **" +:+ pretty task_number +:+ "**" +:+ NL +:+ "Role: **"
         +:+ TASK_ROLE_NAME +:+ "** (will be removed in "
         +:+ pretty (role_removal_hours b) +:+ " hours)", false)
        ∈ fields dm
    ∧ title fallback = "🚫 Inaccessible DM's"
    ∧ description fallback
      = m_mention winner_member
          +:+ " - Your DMs are inaccessible, so here's your task information:"
    ∧ fields fallback
      = ("🎉 Task Assigned",
         "You have been assigned **Task #" +:+ pretty task_number +:+ "**!", false)
        :: fields dm
    ∧ ("📋 Google Sheets Link",
       "[Click here to access the task sheet](" +:+ sheet_url b +:+ ")", false)
        ∈ fields fallback.
Proof.
  intros b dm fallback posts_before.
  assert (Hcontent :
    description dm
      = "You have been assigned **Task #" +:+ pretty task_number +:+ "**!"
    ∧ ("📋 Google Sheets Link",
       "[Click here to access the task sheet](" +:+ sheet_url b +:+ ")", false)
        ∈ fields dm
    ∧ ("⏰ Task Details",
       "Task Number: **" +:+ pretty task_number +:+ "**" +:+ NL +:+ "Role: **"
         +:+ TASK_ROLE_NAME +:+ "** (will be removed in "
         +:+ pretty (role_removal_hours b) +:+ " hours)", false)
        ∈ fields dm
    ∧ title fallback = "🚫 Inaccessible DM's"
    ∧ description fallback
      = m_mention winner_member
          +:+ " - Your DMs are inaccessible, so here's your task information:"
    ∧ fields fallback
      = ("🎉 Task Assigned",
         "You have been assigned **Task #" +:+ pretty task_number +:+ "**!", false)
        :: fields dm
    ∧ ("📋 Google Sheets Link",
       "[Click here to access the task sheet](" +:+ sheet_url b +:+ ")", false)
        ∈ fields fallback).
  { split; [reflexivity|]. split; [in_list|]. split; [in_list|].
    split; [reflexivity|]. split; [reflexivity|]. split; [reflexivity|].
    in_list. }
  assert (Hbefore : ∀ l : list event, filter is_post l = [] →
            length (filter is_post (st_trace st ++ l)) = posts_before).
  { intros l Hl. rewrite filter_app, Hl, app_nil_r. done. }
  subst b.
  unfold dm_winner, try_except, mbind, M_bind, get_bot. rewrite emit_eq.
  fold dm fallback.
  destruct (ww_dm ww) as [e|] eqn:Hdm; simpl.
  - destruct (is_HTTPException e); simpl.
    + destruct (announce_channel (st_bot st)); simpl.
      * rewrite announce_send_eq. simpl. rewrite <- app_assoc.
        rewrite Hbefore by reflexivity.
        destruct (w_post w posts_before) as [e'|]; simpl.
        -- eexists. split; [st_eq|]. split; [|exact Hcontent]. reflexivity.
        -- rewrite send_log_eq. simpl.
           eexists. split; [st_eq|]. split; [|exact Hcontent].
           simpl. rewrite ?filter_app. simpl.
           by destruct (logs_channel (st_bot st)).
      * rewrite send_log_eq. simpl.
        eexists. split; [st_eq|]. split; [|exact Hcontent].
        simpl. rewrite ?filter_app. simpl. by destruct (logs_channel (st_bot st)).
    + eexists. split; [st_eq|]. split; [|exact Hcontent]. reflexivity.
  - rewrite send_log_eq. simpl.
    eexists. split; [st_eq|]. split; [|exact Hcontent].
    simpl. rewrite ?filter_app. simpl. by destruct (logs_channel (st_bot st)).
Qed.

Lemma dm_winner_fallback_witness :
  let b := mkTaskBot 9 "https://docs.google.com/spreadsheets/d/abc/edit" 4 true true
             true 7 true ∅ 5 12 "V" 1 "Comment" in
  let ww := mkWinnerWorld None (Raise (mkExn NotFound "gone")) false None
              (Raise (mkExn Forbidden "no")) false 0 None false
              (Some (mkExn Forbidden "Cannot send messages to this user"))
              (λ _, Raise (mkExn OtherException "down")) in
  let w := mkWorld (λ _, None) 100 None None [] (Raise (mkExn NotFound "gone"))
             (λ _, 0) (λ _, ww) in
  let m := mkMember 7 "ann" "<@7>" in
  ∃ tr,
    dm_winner w ww m 7 (init_st b)
    = (Ok false,
       add_trace (DirectMessage m (dm_embed b 7) (ww_dm ww) :: tr) (init_st b))
    ∧ filter is_post tr = [Post (WithEmbed (channel_embed b m 7)) None]
    ∧ ("📋 Google Sheets Link",
       "[Click here to access the task sheet](https://docs.google.com/spreadsheets/d/abc/edit)",
       false) ∈ fields (channel_embed b m 7).
Proof.
  intros b ww w m.
  destruct (dm_winner_fallback w ww m 7 (init_st b))
    as (tr & Heq & Hposts & _ & _ & _ & _ & _ & _ & Hlink).
  exists tr. split; [exact Heq|]. split; [exact Hposts|exact Hlink].
Defined.

(** C9, counterexample.  The direct message to Ann fails with an
    exception that is neither [discord.Forbidden] nor another
    [discord.HTTPException] (a timeout of the connection); the
    announcement channel is set and accepts every send.  [dm_winner] logs
    the error and returns [False]: nothing is sent to the announcement
    channel. *)
Lemma dm_failure_without_fallback :
  let b := mkTaskBot 9 "https://docs.google.com/spreadsheets/d/abc/edit" 4 true true
             true 7 true ∅ 5 12 "V" 1 "Comment" in
  let timeout := mkExn OtherException "TimeoutError" in
  let ww := mkWinnerWorld (Some (member_of ann)) (Ok (member_of ann)) true
              (Some task_role) (Ok task_role) true 5 None true
              (Some timeout) healthy_sheet in
  let w := mkWorld (λ _, None) 100 None None [] (Raise (mkExn NotFound "gone"))
             (λ _, 0) (λ _, ww) in
  let out := dm_winner w ww (member_of ann) 7 (init_st b) in
  announce_channel b = true
  ∧ out.1 = Ok false
  ∧ st_trace out.2
    = [DirectMessage (member_of ann) (dm_embed b 7) (Some timeout);
       Logger ERROR "Error in dm_winner: TimeoutError"]
  ∧ filter is_post (st_trace out.2) = [].
Proof. intros b timeout ww w out. by vm_compute. Qed.

(** A direct message that fails with an exception of another class is
    caught by the outer handler of [dm_winner]: it is logged and nothing is
    posted. *)
Lemma dm_winner_unclassified w ww m n st e :
  ww_dm ww = Some e → is_HTTPException e = false →
  dm_winner w ww m n st
  = (Ok false,
     add_trace [DirectMessage m (dm_embed (st_bot st) n) (Some e);
                Logger ERROR ("Error in dm_winner: " +:+ e_text e)] st).
Proof.
  intros Hdm Hcls. unfold dm_winner, try_except, mbind, M_bind, get_bot.
  rewrite emit_eq, Hdm. simpl. rewrite Hcls. st_eq.
Qed.

(** ** Theorems: one winner *)

Ltac unfold_m :=
  unfold try_except, mbind, M_bind, mret, M_ret, raise, lift,
    get_winners_assigned, set_winners_assigned, set_winners, set_reactors,
    get_bot, put_bot, emit.

(** One step of symbolic execution: a call of [dm_winner] or
    [write_to_sheet] is replaced by what its frame lemma says, any other
    scrutinee is split. *)
Ltac exec_step :=
  match goal with
  | |- context [dm_winner ?w ?ww ?m ?n ?st] =>
      let sent := fresh "sent" in
      let tr := fresh "tr_dm" in
      let H := fresh "Hdm" in
      let Hp := fresh "Hdm_posts" in
      destruct (dm_winner_frame w ww m n st) as (sent & tr & H & Hp);
      rewrite H
  | |- context [write_to_sheet ?ww ?n ?name ?st] =>
      let tr := fresh "tr_sheet" in
      let H := fresh "Hsheet" in
      let Hp := fresh "Hsheet_posts" in
      destruct (write_to_sheet_frame ww n name st) as (tr & H & Hp & _);
      rewrite H
  | |- context [match ?x with _ => _ end] =>
      lazymatch x with
      | context [dm_winner] => fail
      | context [write_to_sheet] => fail
      | context [match _ with _ => _ end] => fail
      | _ => destruct x eqn:?
      end
  end; simpl.

Ltac exec := simpl; repeat exec_step.

Lemma process_winner_frame w message start i winner st :
  ∃ r tr wa,
    process_winner w message start i winner st = (r, extend tr wa st)
    ∧ (wa = [] ∨ ∃ m, wa = [(m, start + Z.of_nat i)]).
Proof.
  unfold process_winner, get_member_safely, get_or_create_role,
    announce_send, send_log.
  unfold_m. exec.
  all: unfold extend, add_trace; simpl; rewrite <- ?app_assoc; simpl.
  all: first
    [ by (do 2 eexists; exists []; rewrite (app_nil_r (st_winners_assigned st));
          split; [reflexivity|by left])
    | by (do 3 eexists; split; [reflexivity|right; by eexists]) ].
Qed.

(** Which of the cases of a symbolic execution agree with what is known
    of [granted]. *)
Ltac use_granted Hg :=
  unfold granted, resolved_member, resolved_role in Hg;
  rewrite ?negb_true_iff, ?negb_false_iff in *;
  repeat match goal with
         | H : ?x = _ |- _ =>
             tryif constr_eq H Hg then fail else rewrite H in Hg
         end;
  simpl in Hg; try discriminate Hg;
  try match goal with
      | H1 : has_guild ?m = true, H2 : msg_guild ?m = None |- _ =>
          unfold has_guild in H1; rewrite H2 in H1; discriminate H1
      end.

Lemma process_winner_granted w message start i winner st m role :
  let ww := w_winner w (u_id winner) in
  let n := start + Z.of_nat i in
  granted ww message = Some (m, role) →
  ∃ pre sent tr_dm tr_sheet post r,
    dm_winner w ww m n (add_trace pre st) = (Ok sent, add_trace (pre ++ tr_dm) st)
    ∧ write_to_sheet ww n (u_name winner) (add_trace (pre ++ tr_dm) st)
      = (Ok tt, add_trace (pre ++ tr_dm ++ tr_sheet) st)
    ∧ process_winner w message start i winner st
      = (r, extend (pre ++ tr_dm ++ tr_sheet ++ post) [(m, n)] st)
    ∧ filter is_update_cell pre = []
    ∧ filter is_open_by_key pre = [].
Proof.
  intros ww n Hg. subst ww n.
  unfold process_winner, get_member_safely, get_or_create_role,
    announce_send, send_log.
  unfold_m. exec.
  all: use_granted Hg.
  all: simplify_eq.
  all: unfold extend, add_trace in *; simpl in *; rewrite <- ?app_assoc in *; simpl in *.
  all: do 6 eexists.
  all: (split; [match goal with H : dm_winner _ _ _ _ _ = _ |- _ => exact H end|]).
  all: (split; [match goal with H : write_to_sheet _ _ _ _ = _ |- _ => exact H end|]).
  all: (split; [|done]); simpl.
  all: first [ reflexivity
             | rewrite <- (app_nil_r tr_sheet) at 1; reflexivity ].
Qed.

Lemma process_winner_not_granted w message start i winner st :
  granted (w_winner w (u_id winner)) message = None →
  ∃ r tr,
    process_winner w message start i winner st = (r, add_trace tr st)
    ∧ filter is_open_by_key tr = []
    ∧ filter is_update_cell tr = [].
Proof.
  intros Hg.
  unfold process_winner, get_member_safely, get_or_create_role,
    announce_send, send_log.
  unfold_m. exec.
  all: use_granted Hg.
  all: unfold add_trace; simpl; rewrite <- ?app_assoc; simpl.
  all: by (do 2 eexists; split; [reflexivity|]).
Qed.

(** ** Theorems: the loop over the winners *)

Lemma extend_nil st : extend [] [] st = st.
Proof. destruct st. unfold extend. simpl. by rewrite !app_nil_r. Qed.

Lemma extend_extend tr1 wa1 tr2 wa2 st :
  extend tr2 wa2 (extend tr1 wa1 st) = extend (tr1 ++ tr2) (wa1 ++ wa2) st.
Proof. unfold extend. simpl. by rewrite !app_assoc. Qed.

Lemma extend_add_trace tr st : extend tr [] st = add_trace tr st.
Proof. unfold extend, add_trace. by rewrite app_nil_r. Qed.

Lemma extend_inj tr1 wa1 tr2 wa2 st :
  extend tr1 wa1 st = extend tr2 wa2 st → tr1 = tr2 ∧ wa1 = wa2.
Proof.
  unfold extend. intros [= H1 H2]. split; by eapply app_inv_head.
Qed.

Lemma seqZ_cons_nat (m : Z) (n : nat) :
  seqZ m (Z.of_nat (S n)) = m :: seqZ (m + 1) (Z.of_nat n).
Proof.
  rewrite seqZ_cons by lia. f_equal. f_equal; lia.
Qed.

Lemma process_winners_frame w message start i winners st :
  ∃ r tr wa,
    process_winners w message start i winners st = (r, extend tr wa st)
    ∧ wa.*2 `sublist_of` seqZ (start + Z.of_nat i) (Z.of_nat (length winners))
    ∧ (r = Ok tt →
       (∀ winner, winner ∈ winners →
          is_Some (granted (w_winner w (u_id winner)) message)) →
       wa.*2 = seqZ (start + Z.of_nat i) (Z.of_nat (length winners))
       ∧ Forall2 (λ winner a, ∃ role,
                    granted (w_winner w (u_id winner)) message = Some (a.1, role))
           winners wa).
Proof.
  revert i st. induction winners as [|winner rest IH]; intros i st.
  - exists (Ok tt), [], []. rewrite extend_nil. split; [done|].
    split; [done|]. intros _ _. split; [done|constructor].
  - simpl process_winners. unfold mbind, M_bind.
    destruct (process_winner_frame w message start i winner st)
      as (r1 & tr1 & wa1 & Heq1 & Hwa1).
    rewrite Heq1.
    change (length (winner :: rest)) with (S (length rest)).
    rewrite seqZ_cons_nat.
    assert (Hsub1 : ∀ l, l `sublist_of` seqZ (start + Z.of_nat i + 1) (Z.of_nat (length rest)) →
              wa1.*2 ++ l `sublist_of`
                (start + Z.of_nat i) :: seqZ (start + Z.of_nat i + 1) (Z.of_nat (length rest))).
    { intros l Hl. destruct Hwa1 as [->|[m ->]]; simpl.
      - by apply sublist_cons.
      - by apply sublist_skip. }
    destruct r1 as [[]|e].
    + destruct (IH (S i) (extend tr1 wa1 st)) as (r2 & tr2 & wa2 & Heq2 & Hsub2 & Hall2).
      rewrite Heq2, extend_extend.
      replace (start + Z.of_nat (S i)) with (start + Z.of_nat i + 1) in * by lia.
      exists r2, (tr1 ++ tr2), (wa1 ++ wa2). split; [done|].
      rewrite fmap_app. split; [by apply Hsub1|].
      intros Hr Hgr.
      destruct (Hgr winner) as [[m role] Hg]; [left|].
      destruct (process_winner_granted w message start i winner st m role Hg)
        as (pre & sent & tr_dm & tr_sheet & post & r' & _ & _ & Heq' & _).
      rewrite Heq1 in Heq'.
      assert (Hst : extend tr1 wa1 st
                    = extend (pre ++ tr_dm ++ tr_sheet ++ post)
                        [(m, start + Z.of_nat i)] st) by congruence.
      apply extend_inj in Hst as [_ ->].
      destruct (Hall2 Hr) as [Hnum Hmem]; [intros; apply Hgr; by right|].
      simpl. rewrite Hnum. split; [done|].
      constructor; [by exists role|done].
    + exists (Raise e), tr1, wa1. split; [done|]. split; [|done].
      rewrite <- (app_nil_r wa1.*2). apply Hsub1, sublist_nil_l.
Qed.

(** ** Theorems: the round *)

Lemma dispatch_spec w message mid start k reactors st :
  let winners := select_winners (reaction_timestamps (st_bot st)) mid (w_now w) k
                   reactors in
  ∃ r r1 tr wa,
    dispatch w message mid start k reactors st
    = (r, mkSt (match r1, wa with
                | Ok _, _ :: _ =>
                    set_current_task (current_task (st_bot st) + 1) (st_bot st)
                | _, _ => st_bot st
                end)
               (st_trace st ++ tr) (st_reactors st) winners wa)
    ∧ (∀ e, r1 = Raise e → r = Raise e)
    ∧ wa.*2 `sublist_of` seqZ start (Z.of_nat (length winners))
    ∧ (r1 = Ok tt →
       (∀ winner, winner ∈ winners →
          is_Some (granted (w_winner w (u_id winner)) message)) →
       wa.*2 = seqZ start (Z.of_nat (length winners))
       ∧ Forall2 (λ winner a, ∃ role,
                    granted (w_winner w (u_id winner)) message = Some (a.1, role))
           winners wa).
Proof.
  intros winners. unfold dispatch. fold winners. unfold_m. simpl.
  fold winners.
  destruct (process_winners_frame w message start 0 winners
              (mkSt (st_bot st) (st_trace st) (st_reactors st) winners []))
    as (r1 & tr & wa & Heq & Hsub & Hall).
  rewrite Z.add_0_r in Hsub, Hall.
  rewrite Heq. unfold extend. simpl.
  destruct r1 as [[]|e]; simpl.
  - destruct wa as [|a wa]; rewrite announce_send_eq; simpl;
      destruct (w_post w _) as [e|]; unfold add_trace; simpl;
      rewrite <- app_assoc.
    + by exists (Raise e), (Ok tt),
        (tr ++ [Post (WithEmbed assignment_failed_embed) (Some e)]), [].
    + by exists (Ok tt), (Ok tt),
        (tr ++ [Post (WithEmbed assignment_failed_embed) None]), [].
    + by exists (Raise e), (Ok tt),
        (tr ++ [Post (WithEmbed (assigned_embed (a :: wa))) (Some e)]), (a :: wa).
    + by exists (Ok tt), (Ok tt),
        (tr ++ [Post (WithEmbed (assigned_embed (a :: wa))) None]), (a :: wa).
  - by exists (Raise e), (Raise e), tr, wa.
Qed.

Ltac exec_round_step :=
  match goal with
  | |- context [dispatch ?w ?message ?mid ?start ?k ?reactors ?st] =>
      let r := fresh "r" in
      let r1 := fresh "r1" in
      let tr := fresh "tr" in
      let wa := fresh "wa" in
      let H := fresh "Hdispatch" in
      let Hr := fresh "Hraise" in
      let Hsub := fresh "Hsub" in
      let Hall := fresh "Hall" in
      destruct (dispatch_spec w message mid start k reactors st)
        as (r & r1 & tr & wa & H & Hr & Hsub & Hall);
      rewrite H; clear H; simpl in Hsub, Hall
  | |- context [match ?x with _ => _ end] =>
      lazymatch x with
      | context [dispatch] => fail
      | context [match _ with _ => _ end] => fail
      | _ => destruct x eqn:?
      end
  end; simpl.

(** The equations of a symbolic execution contradict the assumption that
    the round reached the resolution of a non-empty list of reactors. *)
Ltac refute_reach :=
  let Hc := fresh in let Ha := fresh in let Hle := fresh in
  let Hp := fresh in let Hr := fresh in let Hobs := fresh in
  let Hne := fresh in
  intros [(Hc & Ha & Hle & Hp & Hr) (? & ? & Hobs & Hne)];
  unfold observed in Hobs; simpl in *;
  repeat match goal with
         | H : ?x = _ |- _ =>
             tryif constr_eq H Hobs then fail else rewrite H in Hobs
         end;
  simpl in Hobs; simplify_eq/=; try congruence; try lia.

Lemma round_spec w b :
  ∃ r st',
    task_allocation_loop_impl w (init_st b) = (r, st')
    ∧ match r with
      | Ok Finished | Ok (FetchFailed _) =>
          reaction_timestamps (st_bot st')
          = delete (w_message_id w) (resolution_timestamps w b)
      | Ok NoCheckmark =>
          reaction_timestamps (st_bot st') = resolution_timestamps w b
      | _ => True
      end
    ∧ ((st_reactors st' = [] ∧ st_winners st' = [] ∧ st_winners_assigned st' = []
        ∧ current_task (st_bot st') = current_task b
        ∧ ¬ (opens_window w b
             ∧ ∃ message reactors,
                 observed w = Some (message, reactors) ∧ reactors ≠ []))
       ∨ (∃ message reactors,
            observed w = Some (message, reactors)
            ∧ reactors ≠ []
            ∧ st_reactors st' = reactors
            ∧ st_winners st'
              = select_winners (resolution_timestamps w b) (w_message_id w)
                  (w_now w) (winners_per_task b) reactors
            ∧ (current_task (st_bot st') = current_task b
               ∨ current_task (st_bot st') = current_task b + 1
                 ∧ st_winners_assigned st' ≠ [])
            ∧ (r = Ok Finished →
               current_task (st_bot st')
               = match st_winners_assigned st' with
                 | [] => current_task b
                 | _ :: _ => current_task b + 1
                 end)
            ∧ (st_winners_assigned st').*2
                `sublist_of` seqZ (current_task b) (Z.of_nat (length (st_winners st')))
            ∧ (r = Ok Finished →
               (∀ winner, winner ∈ st_winners st' →
                  is_Some (granted (w_winner w (u_id winner)) message)) →
               (st_winners_assigned st').*2
               = seqZ (current_task b) (Z.of_nat (length (st_winners st')))
               ∧ Forall2 (λ winner a, ∃ role,
                            granted (w_winner w (u_id winner)) message
                            = Some (a.1, role))
                   (st_winners st') (st_winners_assigned st')))).
Proof.
  destruct b as [tot url iv conf ann logs cur g rt rtime hours ping wpt ttype].
  unfold task_allocation_loop_impl, round_body, no_claims, discard_bucket,
    announce_send, send_log, init_st.
  unfold_m. simpl.
  repeat exec_round_step.
  all: try match goal with
           | H : ∀ e, Raise ?e0 = Raise e → _ |- _ =>
               specialize (H _ eq_refl); try discriminate H
           end.
  all: eexists _, _; (split; [reflexivity|]); simpl.
  all: (split; [first [done | reflexivity]|]).
  all: try (left; split_and!; [done..|refute_reach]; fail).
  all: repeat match goal with u : () |- _ => destruct u end.
  all: right; eexists _, _.
  all: (split;
        [unfold observed;
         repeat match goal with
                | H : ?x = _ |- context [?x] => rewrite H
                end; reflexivity|]).
  all: (split; [done|]); (split; [done|]); (split; [reflexivity|]).
  all: (split; [first [by left | by right]|]).
  all: (split; [first [by intros [=] | by intros _]|]).
  all: (split; [match goal with H : _ `sublist_of` _ |- _ => exact H end|]).
  all: first [ by intros [=]
             | intros _ Hg;
               match goal with
               | H : _ = _ → _ → _ ∧ Forall2 _ _ _ |- _ => by apply H
               end ].
Qed.

(** C2 (as the code has it).  When the round observes no claim, the
    task cursor is unchanged when the round ends.  When claims are observed,
    the cursor advances only if [winners_assigned] is not empty: a round
    that runs to its end with at least one winner assigned advances it by
    exactly 1, however many winners were selected or assigned, and a round
    that assigns no winner leaves it unchanged.  In every case the cursor
    moves by 0 or by 1. *)
Theorem round_cursor (w : World) (b : TaskBot) :
  ∃ r st',
    task_allocation_loop_impl w (init_st b) = (r, st')
    ∧ (∀ message, observed w = Some (message, []) →
         current_task (st_bot st') = current_task b)
    ∧ (r = Ok Finished → st_winners_assigned st' ≠ [] →
         current_task (st_bot st') = current_task b + 1)
    ∧ (st_winners_assigned st' = [] →
         current_task (st_bot st') = current_task b)
    ∧ (current_task (st_bot st') = current_task b
       ∨ current_task (st_bot st') = current_task b + 1).
Proof.
  destruct (round_spec w b) as (r & st' & Heq & _ & Hcases).
  exists r, st'. split; [done|].
  destruct Hcases as [(_ & _ & Hwa & Hcur & _)
                     |(message & reactors & Hobs & Hne & _ & _ & Hcur & Hfin & _)].
  - split; [done|]. split; [by rewrite Hwa|]. split; [done|by left].
  - split; [intros message' Hobs'; congruence|].
    split.
    { intros Hr Hwa. rewrite (Hfin Hr).
      by destruct (st_winners_assigned st'). }
    split.
    { intros Hwa. destruct Hcur as [?|[_ ?]]; done. }
    destruct Hcur as [?|[? _]]; [by left|by right].
Qed.

Lemma round_cursor_witness :
  let w := example_world [checkmark_of [the_bot; ann]] [(CHECKMARK, 100, ann, 3)]
             (λ _, ww_granted ann) in
  let out := task_allocation_loop_impl w (init_st (example_bot 1)) in
  out.1 = Ok Finished
  ∧ st_winners_assigned out.2 = [(member_of ann, 1)]
  ∧ current_task (st_bot out.2) = 2.
Proof.
  intros w out.
  destruct (round_cursor w (example_bot 1)) as (r & st' & Heq & _ & Hadv & _).
  assert (Hout : out = (r, st')) by exact Heq.
  assert (H1 : out.1 = Ok Finished) by (vm_compute; reflexivity).
  assert (H2 : st_winners_assigned out.2 = [(member_of ann, 1)])
    by (vm_compute; reflexivity).
  split; [exact H1|]. split; [exact H2|].
  rewrite Hout in H1, H2 |- *. simpl in H1, H2 |- *.
  rewrite Hadv; [reflexivity|exact H1|by rewrite H2].
Defined.

(** C2, counterexample.  Ann claims the task, so one claim is observed,
    but she has left the guild when the round resolves: the round runs to
    its end and the cursor stays at 1. *)
Lemma claim_without_advance :
  let out := task_allocation_loop_impl world_ann_left (init_st (example_bot 1)) in
  (∃ message, observed world_ann_left = Some (message, [ann]))
  ∧ out.1 = Ok Finished
  ∧ st_reactors out.2 = [ann]
  ∧ current_task (st_bot out.2) = current_task (example_bot 1)
  ∧ current_task (st_bot out.2) ≠ current_task (example_bot 1) + 1.
Proof.
  split; [eexists; reflexivity|].
  vm_compute. repeat split; discriminate.
Qed.

Lemma sublist_seqZ_NoDup (l : list Z) (m n : Z) :
  l `sublist_of` seqZ m n → NoDup l.
Proof.
  intros Hsub. eapply sublist_NoDup; [apply NoDup_seqZ|exact Hsub].
Qed.

Lemma elem_of_assignments w message start i winners m n :
  (m, n) ∈ assignments w message start i winners
  ↔ ∃ j winner role,
      winners !! j = Some winner
      ∧ n = start + Z.of_nat (i + j)
      ∧ granted (w_winner w (u_id winner)) message = Some (m, role).
Proof.
  revert i. induction winners as [|winner rest IH]; intros i; simpl.
  - split; [by intros ?%elem_of_nil|]. by intros (j & ? & ? & ? & _).
  - rewrite elem_of_app, IH. split.
    + intros [Hhere|(j & winner' & role & Hj & -> & Hg)].
      * destruct (granted (w_winner w (u_id winner)) message) as [[m' role]|] eqn:Hg;
          [|by apply elem_of_nil in Hhere].
        apply list_elem_of_singleton in Hhere. simplify_eq.
        exists 0%nat, winner, role. split; [done|]. split; [f_equal; lia|done].
      * exists (S j), winner', role. split; [done|]. split; [f_equal; lia|done].
    + intros ([|j] & winner' & role & Hj & -> & Hg); simpl in Hj.
      * simplify_eq. left. rewrite Hg. apply list_elem_of_singleton.
        do 2 f_equal. lia.
      * right. exists j, winner', role. split; [done|]. split; [f_equal; lia|done].
Qed.

Lemma process_winner_assigned w message start i winner st :
  ∃ r tr,
    process_winner w message start i winner st
    = (r, extend tr
            match granted (w_winner w (u_id winner)) message with
            | Some (m, _) => [(m, start + Z.of_nat i)]
            | None => []
            end st).
Proof.
  destruct (granted (w_winner w (u_id winner)) message) as [[m role]|] eqn:Hg.
  - destruct (process_winner_granted w message start i winner st m role Hg)
      as (pre & sent & tr_dm & tr_sheet & post & r & _ & _ & Heq & _).
    by exists r, (pre ++ tr_dm ++ tr_sheet ++ post).
  - destruct (process_winner_not_granted w message start i winner st Hg)
      as (r & tr & Heq & _).
    exists r, tr. by rewrite extend_add_trace.
Qed.

Lemma process_winners_assignments w message start i winners st :
  ∃ r tr wa,
    process_winners w message start i winners st = (r, extend tr wa st)
    ∧ wa `prefix_of` assignments w message start i winners
    ∧ (r = Ok tt → wa = assignments w message start i winners).
Proof.
  revert i st. induction winners as [|winner rest IH]; intros i st.
  - exists (Ok tt), [], []. by rewrite extend_nil.
  - simpl process_winners. unfold mbind, M_bind.
    destruct (process_winner_assigned w message start i winner st)
      as (r1 & tr1 & Heq1).
    rewrite Heq1. simpl assignments.
    set (wa1 := match granted (w_winner w (u_id winner)) message with
                | Some (m, _) => [(m, start + Z.of_nat i)]
                | None => []
                end).
    destruct r1 as [[]|e].
    + destruct (IH (S i) (extend tr1 wa1 st)) as (r2 & tr2 & wa2 & Heq2 & Hpre & Hall).
      rewrite Heq2, extend_extend.
      exists r2, (tr1 ++ tr2), (wa1 ++ wa2). split; [done|].
      split; [by apply prefix_app|]. intros Hr. by rewrite Hall.
    + exists (Raise e), tr1, wa1. split; [done|].
      split; [by eexists|done].
Qed.

Lemma dispatch_assignments w message mid start k reactors st :
  let winners := select_winners (reaction_timestamps (st_bot st)) mid (w_now w) k
                   reactors in
  ∃ r b' tr wa,
    dispatch w message mid start k reactors st
    = (r, mkSt b' (st_trace st ++ tr) (st_reactors st) winners wa)
    ∧ wa `prefix_of` assignments w message start 0 winners
    ∧ (r = Ok tt → wa = assignments w message start 0 winners).
Proof.
  intros winners. unfold dispatch. fold winners. unfold_m. simpl.
  fold winners.
  destruct (process_winners_assignments w message start 0 winners
              (mkSt (st_bot st) (st_trace st) (st_reactors st) winners []))
    as (r1 & tr & wa & Heq & Hpre & Hall).
  rewrite Heq. unfold extend. simpl.
  destruct r1 as [[]|e]; simpl.
  - specialize (Hall eq_refl).
    destruct wa as [|a wa]; rewrite announce_send_eq; simpl;
      destruct (w_post w _) as [e|]; unfold add_trace; simpl;
      rewrite <- app_assoc; by eexists _, _, _, _.
  - by eexists _, _, _, _.
Qed.

Ltac exec_assignments_step :=
  match goal with
  | |- context [dispatch ?w ?message ?mid ?start ?k ?reactors ?st] =>
      let r := fresh "r" in
      let b' := fresh "b'" in
      let tr := fresh "tr" in
      let wa := fresh "wa" in
      let H := fresh "Hdispatch" in
      let Hpre := fresh "Hpre" in
      let Hall := fresh "Hall" in
      destruct (dispatch_assignments w message mid start k reactors st)
        as (r & b' & tr & wa & H & Hpre & Hall);
      rewrite H; clear H; simpl in Hpre, Hall
  | |- context [match ?x with _ => _ end] =>
      lazymatch x with
      | context [dispatch] => fail
      | context [match _ with _ => _ end] => fail
      | _ => destruct x eqn:?
      end
  end; simpl.

Lemma round_assignments w b :
  ∃ r st',
    task_allocation_loop_impl w (init_st b) = (r, st')
    ∧ ((st_winners st' = [] ∧ st_winners_assigned st' = [])
       ∨ ∃ message reactors,
           observed w = Some (message, reactors)
           ∧ st_winners_assigned st'
               `prefix_of` assignments w message (current_task b) 0 (st_winners st')
           ∧ (r = Ok Finished →
              st_winners_assigned st'
              = assignments w message (current_task b) 0 (st_winners st'))).
Proof.
  destruct b as [tot url iv conf ann logs cur g rt rtime hours ping wpt ttype].
  unfold task_allocation_loop_impl, round_body, no_claims, discard_bucket,
    announce_send, send_log, init_st.
  unfold_m. simpl.
  repeat exec_assignments_step.
  all: eexists _, _; (split; [reflexivity|]); simpl.
  all: try (by left).
  all: repeat match goal with u : () |- _ => destruct u end.
  all: right; eexists _, _.
  all: (split;
        [unfold observed;
         repeat match goal with
                | H : ?x = _ |- context [?x] => rewrite H
                end; reflexivity|]).
  all: (split; [match goal with H : _ `prefix_of` _ |- _ => exact H end|]).
  all: first [ by intros [=]
             | intros _;
               match goal with
               | H : Ok () = Ok () → _ |- _ => exact (H eq_refl)
               end ].
Qed.

(** C4 (as the code has it).  The winner at position [i] of the claim
    order is given the number [starting_task + i]: every pair [(m, n)] of
    [winners_assigned] is the member that the winner at position
    [n - starting_task] was resolved to, the grant having succeeded for
    that winner, and when the round runs to its end [winners_assigned] is
    exactly the list of the winners whose grant succeeded, in claim order,
    each with the number of its position (a round cut short holds a
    prefix of that list).  So the numbers actually assigned, in the order
    of [winners_assigned], are a sub-sequence of
    [starting_task .. starting_task + winnerCount - 1] without repeats,
    and they are the whole range, member by member in claim order, when
    the round runs to its end and the grant succeeds for every winner. *)
Theorem round_task_numbers (w : World) (b : TaskBot) :
  ∃ r st',
    task_allocation_loop_impl w (init_st b) = (r, st')
    ∧ (observed w = None → st_winners_assigned st' = [])
    ∧ (∀ message reactors,
         observed w = Some (message, reactors) →
         (∀ m n, (m, n) ∈ st_winners_assigned st' →
            ∃ i winner role,
              st_winners st' !! i = Some winner
              ∧ n = current_task b + Z.of_nat i
              ∧ granted (w_winner w (u_id winner)) message = Some (m, role))
         ∧ (r = Ok Finished →
            ∀ i winner m role,
              st_winners st' !! i = Some winner →
              granted (w_winner w (u_id winner)) message = Some (m, role) →
              (m, current_task b + Z.of_nat i) ∈ st_winners_assigned st')
         ∧ st_winners_assigned st'
             `prefix_of` assignments w message (current_task b) 0 (st_winners st')
         ∧ (r = Ok Finished →
            st_winners_assigned st'
            = assignments w message (current_task b) 0 (st_winners st')))
    ∧ (st_winners_assigned st').*2
        `sublist_of` seqZ (current_task b) (Z.of_nat (length (st_winners st')))
    ∧ NoDup (st_winners_assigned st').*2
    ∧ (∀ message reactors,
         r = Ok Finished →
         observed w = Some (message, reactors) →
         (∀ winner, winner ∈ st_winners st' →
            is_Some (granted (w_winner w (u_id winner)) message)) →
         (st_winners_assigned st').*2
         = seqZ (current_task b) (Z.of_nat (length (st_winners st')))
         ∧ Forall2 (λ winner a, ∃ role,
                      granted (w_winner w (u_id winner)) message = Some (a.1, role))
             (st_winners st') (st_winners_assigned st')).
Proof.
  destruct (round_spec w b) as (r & st' & Heq & _ & Hcases).
  destruct (round_assignments w b) as (r' & st'' & Heq' & Hassigned).
  rewrite Heq in Heq'. simplify_eq.
  exists r', st''. split; [done|].
  assert (Hpos : ∀ message reactors,
            observed w = Some (message, reactors) →
            st_winners_assigned st''
              `prefix_of` assignments w message (current_task b) 0 (st_winners st'')
            ∧ (r' = Ok Finished →
               st_winners_assigned st''
               = assignments w message (current_task b) 0 (st_winners st''))).
  { intros message reactors Hobs.
    destruct Hassigned as [[Hw Hwa]|(message' & reactors' & Hobs' & Hpre & Hall)].
    - rewrite Hw, Hwa. split; [done|]. by intros _.
    - rewrite Hobs in Hobs'. by simplify_eq. }
  split.
  { intros Hnone.
    destruct Hassigned as [[_ Hwa]|(message' & reactors' & Hobs' & _)]; [done|].
    by rewrite Hnone in Hobs'. }
  split.
  { intros message reactors Hobs.
    destruct (Hpos message reactors Hobs) as [Hpre Hall].
    split.
    { intros m n Hin.
      assert (Hin' : (m, n) ∈ assignments w message (current_task b) 0
                                 (st_winners st'')).
      { destruct Hpre as [rest ->]. apply elem_of_app. by left. }
      apply elem_of_assignments in Hin' as (j & winner & role & Hj & -> & Hg).
      by exists j, winner, role. }
    split; [|done].
    intros Hr i winner m role Hi Hg. rewrite (Hall Hr).
    apply elem_of_assignments. by exists i, winner, role. }
  destruct Hcases as [(_ & Hw & Hwa & _)
                     |(message & reactors & Hobs & _ & _ & _ & _ & _ & Hsub & Hall)].
  - rewrite Hw, Hwa. simpl. split; [done|]. split; [constructor|].
    intros ? ? _ _ _. split; [done|constructor].
  - split; [done|]. split; [by eapply sublist_seqZ_NoDup|].
    intros message' reactors' Hr Hobs' Hgr.
    rewrite Hobs in Hobs'. simplify_eq. by apply Hall.
Qed.

Lemma round_task_numbers_witness :
  let out := task_allocation_loop_impl world_ann_left_bob_granted
               (init_st (example_bot 2)) in
  (member_of bob, 2) ∈ st_winners_assigned out.2.
Proof.
  intros out.
  destruct (round_task_numbers world_ann_left_bob_granted (example_bot 2))
    as (r & st' & Heq & _ & Hpos & _).
  assert (Hr : (r, st').1 = Ok Finished)
    by (rewrite <- Heq; vm_compute; reflexivity).
  assert (Hw : st_winners (r, st').2 = [ann; bob])
    by (rewrite <- Heq; vm_compute; reflexivity).
  assert (Hout : out.2 = st') by (unfold out; by rewrite Heq).
  simpl in Hr, Hw. rewrite Hout.
  destruct (Hpos (mkMessage (Some "guild") [checkmark_of [the_bot; ann; bob]])
              [ann; bob]) as (_ & Hall & _); [reflexivity|].
  apply (Hall Hr 1%nat bob (member_of bob) task_role).
  - rewrite Hw. reflexivity.
  - reflexivity.
Defined.

(** C4, counterexample.  Ann and Bob claim in this order and two winners
    are wanted; Ann has left the guild, so only Bob is assigned, with the
    number 2: the numbers assigned in the round, [[2]], are not a range
    that starts at the starting task 1. *)
Lemma gap_in_task_numbers :
  let out := task_allocation_loop_impl world_ann_left_bob_granted
               (init_st (example_bot 2)) in
  out.1 = Ok Finished
  ∧ st_winners out.2 = [ann; bob]
  ∧ st_winners_assigned out.2 = [(member_of bob, 2)]
  ∧ ∀ n, (st_winners_assigned out.2).*2 ≠ seqZ (current_task (example_bot 2)) n.
Proof.
  intros out.
  assert (H : out = (Ok Finished,
                     mkSt (st_bot out.2) (st_trace out.2) (st_reactors out.2)
                       [ann; bob] [(member_of bob, 2)]))
    by (vm_compute; reflexivity).
  rewrite H. simpl. repeat split.
  intros n Hn. destruct (decide (0 < n)) as [Hpos|Hneg].
  - rewrite seqZ_cons in Hn by done. discriminate Hn.
  - rewrite seqZ_nil in Hn by lia. discriminate Hn.
Qed.

Lemma write_to_sheet_success ww n name st id worksheet rows :
  gc (st_bot st) = true →
  extract_sheet_id (sheet_url (st_bot st)) = Some id →
  attempt_rows ww 0 = Ok (worksheet, rows) →
  n + 1 ≤ Z.of_nat rows →
  ws_update_cell worksheet = None →
  write_to_sheet ww n name st
  = (Ok tt, add_trace [OpenByKey id; UpdateCell (n + 1) 4 name None] st).
Proof.
  intros Hgc Hid Hrows Hle Hup.
  assert (Hurl : (sheet_url (st_bot st) =? "")%string = false)
    by (apply extract_sheet_id_nonempty; by rewrite Hid).
  unfold write_to_sheet, mbind, M_bind, get_bot. rewrite Hgc, Hurl. simpl.
  unfold range3, write_attempts, try_except, mbind, M_bind.
  erewrite write_attempt_eq by eassumption. rewrite Hrows.
  destruct (Z.ltb_spec (Z.of_nat rows) (n + 1)); [lia|].
  by rewrite Hup.
Qed.

(** C3 (as the code has it).  For a winner whose privilege grant
    succeeds, the loop body runs [dm_winner] and then, from whatever state
    and with whatever result [dm_winner] ends, [write_to_sheet] with the
    winner's task number and name, and records the winner as assigned; with
    a sheet that has the row and accepts the write, the cell of the winner
    is written.  For a winner whose grant does not succeed (member not
    resolved, a failed check on the bot's standing, [add_roles] raising),
    the loop body opens no spreadsheet and writes no cell. *)
Theorem ledger_write_follows_grant (w : World) (message : Message)
    (starting_task_num : Z) (i : nat) (winner : User) (st : St) :
  let ww := w_winner w (u_id winner) in
  let n := starting_task_num + Z.of_nat i in
  (∀ m role,
     granted ww message = Some (m, role) →
     ∃ pre sent tr_dm tr_sheet post r,
       dm_winner w ww m n (add_trace pre st) = (Ok sent, add_trace (pre ++ tr_dm) st)
       ∧ write_to_sheet ww n (u_name winner) (add_trace (pre ++ tr_dm) st)
         = (Ok tt, add_trace (pre ++ tr_dm ++ tr_sheet) st)
       ∧ process_winner w message starting_task_num i winner st
         = (r, extend (pre ++ tr_dm ++ tr_sheet ++ post) [(m, n)] st)
       ∧ (∀ id worksheet rows,
            gc (st_bot st) = true →
            extract_sheet_id (sheet_url (st_bot st)) = Some id →
            attempt_rows ww 0 = Ok (worksheet, rows) →
            n + 1 ≤ Z.of_nat rows →
            ws_update_cell worksheet = None →
            UpdateCell (n + 1) 4 (u_name winner) None ∈ tr_sheet))
  ∧ (granted ww message = None →
     ∃ r tr,
       process_winner w message starting_task_num i winner st = (r, add_trace tr st)
       ∧ filter is_open_by_key tr = []
       ∧ filter is_update_cell tr = []).
Proof.
  intros ww n. split.
  - intros m role Hg.
    destruct (process_winner_granted w message starting_task_num i winner st m role Hg)
      as (pre & sent & tr_dm & tr_sheet & post & r & Hdm & Hsheet & Hpw & _).
    exists pre, sent, tr_dm, tr_sheet, post, r.
    split; [done|]. split; [done|]. split; [done|].
    intros id worksheet rows Hgc Hid Hrows Hle Hup.
    fold ww n in Hsheet.
    rewrite (write_to_sheet_success ww n (u_name winner) _ id worksheet rows)
      in Hsheet by done.
    rewrite add_trace_app in Hsheet.
    injection Hsheet as Htr. apply app_inv_head in Htr.
    rewrite <- app_assoc in Htr. apply app_inv_head in Htr. apply app_inv_head in Htr.
    rewrite <- Htr. in_list.
  - apply process_winner_not_granted.
Qed.

Lemma ledger_write_follows_grant_witness :
  let w := example_world [checkmark_of [ann]] [] (λ _, ww_dm_closed ann) in
  let message := mkMessage (Some "guild") [] in
  let st := init_st (example_bot 1) in
  ∃ tr_sheet,
    UpdateCell 2 4 "ann" None ∈ tr_sheet
    ∧ ∃ pre tr_dm post r,
        process_winner w message 1 0 ann st
        = (r, extend (pre ++ tr_dm ++ tr_sheet ++ post) [(member_of ann, 1)] st).
Proof.
  intros w message st.
  destruct (proj1 (ledger_write_follows_grant w message 1 0 ann st)
              (member_of ann) task_role eq_refl)
    as (pre & sent & tr_dm & tr_sheet & post & r & _ & _ & Hpw & Hcell).
  exists tr_sheet. split.
  - apply (Hcell "abc" (mkWorksheet (Ok 10%nat) None) 10%nat); try reflexivity.
    simpl. lia.
  - by exists pre, tr_dm, post, r.
Defined.

(** C3, counterexample.  Ann is the winner of the round and [add_roles]
    raises [discord.Forbidden] for her: the round runs to its end without
    opening the spreadsheet or writing a cell, although the sheet has her
    row and accepts a write. *)
Lemma winner_without_ledger_write :
  let out := task_allocation_loop_impl world_ann_forbidden (init_st (example_bot 1)) in
  out.1 = Ok Finished
  ∧ st_winners out.2 = [ann]
  ∧ filter is_open_by_key (st_trace out.2) = []
  ∧ filter is_update_cell (st_trace out.2) = []
  ∧ write_to_sheet (ww_forbidden ann) 1 (u_name ann) (init_st (example_bot 1))
    = (Ok tt, add_trace [OpenByKey "abc"; UpdateCell 2 4 "ann" None]
                (init_st (example_bot 1))).
Proof. vm_compute. repeat split. Qed.

(** ** Theorems: the claim bucket of the round *)

Lemma on_reaction_add_keeps_bucket emoji mid user now rt m :
  is_Some (rt !! m) → is_Some (on_reaction_add emoji mid user now rt !! m).
Proof.
  intros Hm. unfold on_reaction_add.
  destruct (u_bot user || negb (emoji =? CHECKMARK)%string); [done|].
  assert (H1 : is_Some (match rt !! mid with
                        | Some _ => rt
                        | None => <[mid:=∅]> rt
                        end !! m)).
  { destruct (rt !! mid); [done|]. rewrite lookup_insert. by case_decide. }
  revert H1. generalize (match rt !! mid with
                         | Some _ => rt
                         | None => <[mid:=∅]> rt
                         end). intros rt1 H1.
  destruct (rt1 !! mid) as [bucket|]; [|done].
  destruct (bucket !! u_id user); [done|].
  rewrite lookup_insert. by case_decide.
Qed.

Lemma deliver_keeps_bucket events rt m :
  is_Some (rt !! m) → is_Some (deliver events rt !! m).
Proof.
  unfold deliver. revert rt.
  induction events as [|[[[emoji mid] user] now] events IH]; intros rt Hm; [done|].
  simpl. by apply IH, on_reaction_add_keeps_bucket.
Qed.

(** C5.  A round that ends at the tail of its [try] block or in one of
    the two handlers of a failed fetch has discarded its claim bucket; a
    round that ends at the [return] taken when the fetched message carries
    no ✅ reaction has not: the bucket, with the claims registered during
    the window, is still in the tracker. *)
Theorem round_bucket (w : World) (b : TaskBot) :
  ∃ r st',
    task_allocation_loop_impl w (init_st b) = (r, st')
    ∧ (r = Ok Finished ∨ (∃ e, r = Ok (FetchFailed e)) →
       reaction_timestamps (st_bot st') !! w_message_id w = None)
    ∧ (r = Ok NoCheckmark →
       reaction_timestamps (st_bot st') = resolution_timestamps w b
       ∧ is_Some (reaction_timestamps (st_bot st') !! w_message_id w)).
Proof.
  destruct (round_spec w b) as (r & st' & Heq & Hrt & _).
  exists r, st'. split; [done|]. split.
  - intros [->|[e ->]]; rewrite Hrt; apply lookup_delete_eq.
  - intros ->. split; [done|]. rewrite Hrt.
    apply deliver_keeps_bucket. rewrite lookup_insert_eq. by eexists.
Qed.

Lemma round_bucket_witness :
  let out := task_allocation_loop_impl world_reactions_cleared
               (init_st (example_bot 1)) in
  out.1 = Ok NoCheckmark
  ∧ is_Some (reaction_timestamps (st_bot out.2) !! 100)
  ∧ recorded (reaction_timestamps (st_bot out.2)) 100 (u_id ann) = Some 3.
Proof.
  intros out.
  destruct (round_bucket world_reactions_cleared (example_bot 1))
    as (r & st' & Heq & _ & Hkept).
  assert (Hr : out.1 = Ok NoCheckmark) by (vm_compute; reflexivity).
  split; [exact Hr|].
  assert (Hout : out = (r, st')) by exact Heq.
  rewrite Hout in Hr |- *. simpl in Hr |- *.
  destruct (Hkept Hr) as [Hrt Hsome].
  split; [exact Hsome|].
  rewrite Hrt. vm_compute. reflexivity.
Defined.

(** ** Theorems: reactors without a recorded timestamp *)

Lemma stamp_reactors_fst rt mid now k (reactors : list User) :
  (stamp_reactors rt mid now k reactors).*1 = reactors.
Proof.
  revert k. induction reactors as [|r rs IH]; intros k; simpl; [done|].
  destruct (recorded rt mid (u_id r)); simpl; by rewrite IH.
Qed.

Lemma stamp_reactors_stamps rt mid now k (reactors : list User) :
  Forall (λ x : User * Z,
            recorded rt mid (u_id x.1) = Some x.2
            ∨ recorded rt mid (u_id x.1) = None ∧ ∃ j, x.2 = now j)
    (stamp_reactors rt mid now k reactors).
Proof.
  revert k. induction reactors as [|r rs IH]; intros k; simpl; [constructor|].
  destruct (recorded rt mid (u_id r)) as [t|] eqn:Hr; constructor; simpl; eauto.
Qed.

Lemma stamp_reactors_unrecorded rt mid now k (reactors : list User) r :
  r ∈ reactors → recorded rt mid (u_id r) = None →
  ∃ j, (r, now j) ∈ stamp_reactors rt mid now k reactors.
Proof.
  revert k. induction reactors as [|r' rs IH]; intros k Hin Hnone.
  - by apply elem_of_nil in Hin.
  - simpl. apply elem_of_cons in Hin as [<-|Hin].
    + rewrite Hnone. exists k. left.
    + destruct (recorded rt mid (u_id r')).
      * destruct (IH k Hin Hnone) as [j Hj]. exists j. by right.
      * destruct (IH (S k) Hin Hnone) as [j Hj]. exists j. by right.
Qed.

Lemma filter_none {A} (P : A → Prop) `{!∀ x, Decision (P x)} (l : list A) :
  (∀ x, x ∈ l → ¬ P x) → filter P l = [].
Proof.
  induction l as [|a l IH]; intros Hl; [done|].
  rewrite filter_cons. rewrite decide_False by (apply Hl; left).
  apply IH. intros x Hx. apply Hl. by right.
Qed.

(** A list sorted by a key, of which the elements that satisfy [P] have
    smaller keys than the others, lists the elements that satisfy [P]
    first. *)
Lemma sorted_partition {A} (key : A → Z) (P : A → Prop) `{!∀ x, Decision (P x)}
    (l : list A) :
  StronglySorted (λ a b, key a ≤ key b) l →
  (∀ x y, x ∈ l → y ∈ l → P x → ¬ P y → key x < key y) →
  l = filter P l ++ filter (λ x, ¬ P x) l.
Proof.
  induction l as [|a l IH]; intros Hs Hlt; [done|].
  apply StronglySorted_inv in Hs as [Hs Ha].
  assert (IH' : l = filter P l ++ filter (λ x, ¬ P x) l).
  { apply IH; [done|]. intros x y Hx Hy. apply Hlt; by right. }
  rewrite !filter_cons. destruct (decide (P a)) as [HP|HnP].
  - rewrite decide_False by tauto. simpl. by rewrite <- IH'.
  - rewrite decide_True by done.
    assert (Hnone : filter P l = []).
    { apply filter_none. rewrite Forall_forall in Ha.
      intros x Hx HPx.
      assert (key x < key a) by (apply Hlt; [by right|left|done..]).
      specialize (Ha x Hx). lia. }
    rewrite Hnone. simpl. f_equal.
    rewrite Hnone in IH'. exact IH'.
Qed.

Lemma slice_to_fmap {A B} (f : A → B) (k : Z) (l : list A) :
  f <$> slice_to k l = slice_to k (f <$> l).
Proof.
  unfold slice_to. rewrite length_fmap. destruct (0 <=? k); by rewrite fmap_take.
Qed.

Lemma select_winner_v1_unrecorded rt mid (reactors : list User) :
  (∀ r, r ∈ reactors → recorded rt mid (u_id r) = None) →
  select_winner_v1 rt mid reactors = head reactors.
Proof.
  intros Hnone. destruct reactors as [|first rest]; [done|].
  unfold select_winner_v1. simpl head. f_equal.
  assert (Hfold : ∀ l, (∀ r, r ∈ l → recorded rt mid (u_id r) = None) →
            fold_left (select_winner_step rt mid first) l (first, None)
            = (first, None)).
  { induction l as [|r l IH]; intros Hl; [done|].
    simpl. rewrite (Hl r) by left. apply IH. intros r' Hr'. apply Hl. by right. }
  by rewrite Hfold.
Qed.

(** C10.  When the winners are sorted, a reactor without a recorded
    timestamp is paired with a reading of the clock made at that moment.
    Recorded timestamps being earlier than these readings, the sorted order
    lists every reactor with a recorded timestamp before every reactor
    without one, and the winners are the slice of that order.  In the
    single-winner version, when no reactor has a recorded timestamp the
    winner is the first reactor of the enumeration. *)
Theorem unrecorded_reactors_sort_last (rt : gmap Z (gmap Z Z)) (mid : Z)
    (now : nat → Z) (k : Z) (reactors : list User) :
  (∀ r t j, r ∈ reactors → recorded rt mid (u_id r) = Some t → t < now j) →
  let stamped := stamp_reactors rt mid now 0 reactors in
  (∀ r, r ∈ reactors → recorded rt mid (u_id r) = None →
        ∃ j, (r, now j) ∈ stamped)
  ∧ (∃ rec unrec,
       (sort_by_timestamp stamped).*1 = rec ++ unrec
       ∧ Forall (λ r, is_Some (recorded rt mid (u_id r))) rec
       ∧ Forall (λ r, recorded rt mid (u_id r) = None) unrec
       ∧ select_winners rt mid now k reactors = slice_to k (rec ++ unrec))
  ∧ ((∀ r, r ∈ reactors → recorded rt mid (u_id r) = None) →
     select_winner_v1 rt mid reactors = head reactors).
Proof.
  intros Hearlier stamped.
  split; [intros r; apply stamp_reactors_unrecorded|].
  split; [|apply select_winner_v1_unrecorded].
  set (sorted := sort_by_timestamp stamped).
  set (P := λ x : User * Z, is_Some (recorded rt mid (u_id x.1))).
  assert (Hperm : sorted ≡ₚ stamped) by apply sort_by_timestamp_perm.
  assert (Hinv : Forall (λ x : User * Z,
                   recorded rt mid (u_id x.1) = Some x.2
                   ∨ recorded rt mid (u_id x.1) = None ∧ ∃ j, x.2 = now j) sorted).
  { rewrite Hperm. apply stamp_reactors_stamps. }
  assert (Hin : ∀ x, x ∈ sorted → x.1 ∈ reactors).
  { intros x Hx. rewrite Hperm in Hx.
    rewrite <- (stamp_reactors_fst rt mid now 0 reactors).
    by apply list_elem_of_fmap_2. }
  assert (Hsplit : sorted = filter P sorted ++ filter (λ x, ¬ P x) sorted).
  { apply (sorted_partition snd P); [apply sort_by_timestamp_sorted|].
    intros x y Hx Hy HPx HnPy. rewrite Forall_forall in Hinv.
    destruct (Hinv x Hx) as [Hrx|[Hnx _]];
      [|unfold P in HPx; rewrite Hnx in HPx; by destruct HPx].
    destruct (Hinv y Hy) as [Hry|[_ [j Hj]]];
      [exfalso; apply HnPy; unfold P; by rewrite Hry|].
    simpl. rewrite Hj. apply (Hearlier x.1 x.2 j); [by apply Hin|done]. }
  exists (filter P sorted).*1, (filter (λ x, ¬ P x) sorted).*1.
  rewrite <- fmap_app, <- Hsplit. split; [done|].
  split; [|split].
  - apply Forall_fmap, Forall_forall. intros x Hx.
    by apply list_elem_of_filter in Hx as [HP _].
  - apply Forall_fmap, Forall_forall. intros x Hx.
    apply list_elem_of_filter in Hx as [HnP _]. simpl.
    destruct (recorded rt mid (u_id x.1)) eqn:Hr; [|done].
    exfalso. apply HnP. unfold P. by rewrite Hr.
  - unfold select_winners. apply slice_to_fmap.
Qed.

Lemma unrecorded_reactors_sort_last_witness :
  let rt : gmap Z (gmap Z Z) := {[100 := {[1 := 3]}]} in
  let now := λ j : nat, 1000 + Z.of_nat j in
  select_winners rt 100 now 1 [bob; ann] = [ann]
  ∧ ∃ rec unrec,
      (sort_by_timestamp (stamp_reactors rt 100 now 0 [bob; ann])).*1 = rec ++ unrec
      ∧ Forall (λ r, is_Some (recorded rt 100 (u_id r))) rec
      ∧ Forall (λ r, recorded rt 100 (u_id r) = None) unrec.
Proof.
  intros rt now.
  assert (Hearlier : ∀ (r : User) (t : Z) (j : nat), r ∈ [bob; ann] →
            recorded rt 100 (u_id r) = Some t → t < now j).
  { intros r t j Hr Ht. unfold now.
    apply elem_of_cons in Hr as [->|Hr]; [vm_compute in Ht; discriminate|].
    apply list_elem_of_singleton in Hr as ->.
    vm_compute in Ht. injection Ht as <-. lia. }
  destruct (unrecorded_reactors_sort_last rt 100 now 1 [bob; ann] Hearlier)
    as (_ & (rec & unrec & Hsorted & Hrec & Hunrec & _) & _).
  split; [vm_compute; reflexivity|].
  by exists rec, unrec.
Defined.

(** ** Theorems: the winners of a round *)

(** A leaf of the symbolic execution that contradicts what is assumed of
    the world: the window opens, the reads after it succeed and every post
    is accepted. *)
Ltac prune Hopen Hobs Hposts :=
  try (exfalso;
       destruct Hopen as (? & ? & ? & ? & ?); simpl in *;
       unfold observed in Hobs;
       repeat match goal with
              | H : w_post _ _ = Some _ |- _ =>
                  rewrite Hposts in H; discriminate H
              | H : ?x = _ |- _ =>
                  tryif constr_eq H Hobs then fail else rewrite H in Hobs
              end;
       simpl in Hobs; simplify_eq/=; (congruence || lia)).

Lemma round_no_claims w b message :
  opens_window w b →
  observed w = Some (message, []) →
  (∀ k, w_post w k = None) →
  ∃ st',
    task_allocation_loop_impl w (init_st b) = (Ok Finished, st')
    ∧ Post (WithEmbed (no_claims_embed b (current_task b) (winners_per_task b))) None
        ∈ st_trace st'.
Proof.
  intros Hopen Hobs Hposts.
  destruct b as [tot url iv conf ann logs cur g rt rtime hours ping wpt ttype].
  unfold task_allocation_loop_impl, round_body, no_claims, discard_bucket,
    announce_send, send_log, init_st.
  unfold_m. simpl.
  repeat exec_round_step.
  all: prune Hopen Hobs Hposts.
  all: eexists; (split; [reflexivity|]).
  all: unfold no_claims_embed; simpl; in_list.
Qed.

(** C1.  In a round that reaches the resolution of its reactors, with a
    configured number [w] of winners per round: when the reactors are not
    empty, each has a recorded timestamp and no two timestamps coincide,
    the winners are the first [min w n] of the [n] reactors put in
    strictly increasing order of recorded timestamp, an order that is
    unique; when there is no
    reactor, there is no winner, and the round ends normally with the
    announcement that no one claimed the task. *)
Theorem round_selects_earliest (w : World) (b : TaskBot) (message : Message)
    (reactors : list User) :
  opens_window w b →
  observed w = Some (message, reactors) →
  valid_winners_per_task (winners_per_task b) = true →
  let rt := resolution_timestamps w b in
  let mid := w_message_id w in
  ∃ r st',
    task_allocation_loop_impl w (init_st b) = (r, st')
    ∧ st_reactors st' = reactors
    ∧ (reactors ≠ [] →
       (∀ u, u ∈ reactors → is_Some (recorded rt mid (u_id u))) →
       NoDup (timestamp_of rt mid <$> reactors) →
       ∃ ordered,
         ordered ≡ₚ reactors
         ∧ StronglySorted
             (λ a c, timestamp_of rt mid a < timestamp_of rt mid c) ordered
         ∧ st_winners st'
           = take (Z.to_nat (Z.min (winners_per_task b) (Z.of_nat (length reactors))))
               ordered
         ∧ (∀ ordered',
              ordered' ≡ₚ reactors →
              StronglySorted
                (λ a c, timestamp_of rt mid a < timestamp_of rt mid c) ordered' →
              ordered' = ordered))
    ∧ (reactors = [] →
       st_winners st' = [] ∧ st_winners_assigned st' = []
       ∧ ((∀ k, w_post w k = None) →
          r = Ok Finished
          ∧ Post (WithEmbed (no_claims_embed b (current_task b) (winners_per_task b)))
              None ∈ st_trace st')).
Proof.
  intros Hopen Hobs Hvalid rt mid.
  apply valid_winners_per_task_range in Hvalid.
  destruct (round_spec w b) as (r & st' & Heq & _ & Hcases).
  exists r, st'. split; [done|].
  destruct Hcases as [(Hre & Hw & Hwa & _ & Hnot)
                     |(message' & reactors' & Hobs' & Hne & Hre & Hw & _)].
  - assert (Hnil : reactors = []).
    { destruct reactors as [|u l]; [done|]. exfalso. apply Hnot.
      split; [done|]. by exists message, (u :: l). }
    split; [by rewrite Hnil|]. split; [done|].
    intros _. split; [done|]. split; [done|].
    intros Hposts. subst reactors.
    destruct (round_no_claims w b message Hopen Hobs Hposts) as (st'' & Heq' & Hpost).
    rewrite Heq in Heq'. by simplify_eq.
  - rewrite Hobs in Hobs'. simplify_eq.
    split; [done|]. split; [|done].
    intros _ Hrec Hnd. rewrite Hw.
    edestruct (select_winners_recorded rt mid (w_now w) (winners_per_task b))
      as (ordered & Hperm & Hsorted & Hsel); [lia|exact Hrec|exact Hnd|].
    exists ordered. split; [done|]. split; [done|]. split; [done|].
    intros ordered' Hperm' Hsorted'.
    apply (StronglySorted_strict_unique (timestamp_of rt mid)); [|done..].
    by rewrite Hperm, Hperm'.
Qed.

Lemma round_selects_earliest_witness :
  let w := example_world [checkmark_of [the_bot; ann; bob]]
             [(CHECKMARK, 100, bob, 3); (CHECKMARK, 100, ann, 4)]
             (λ uid, if uid =? 1 then ww_granted ann else ww_granted bob) in
  let out := task_allocation_loop_impl w (init_st (example_bot 1)) in
  ∃ ordered,
    ordered ≡ₚ [ann; bob]
    ∧ StronglySorted
        (λ a c, timestamp_of (resolution_timestamps w (example_bot 1)) 100 a
                < timestamp_of (resolution_timestamps w (example_bot 1)) 100 c)
        ordered
    ∧ st_winners out.2 = take 1 ordered.
Proof.
  intros w out.
  destruct (round_selects_earliest w (example_bot 1)
              (mkMessage (Some "guild") [checkmark_of [the_bot; ann; bob]])
              [ann; bob])
    as (r & st' & Heq & _ & Hsel & _).
  - unfold opens_window. simpl. repeat split. lia.
  - vm_compute. reflexivity.
  - reflexivity.
  - assert (Hout : out = (r, st')) by exact Heq.
    rewrite Hout. simpl.
    destruct Hsel as (ordered & Hperm & Hsorted & Hwin & _);
      [| | |exists ordered; split; [exact Hperm|split; [exact Hsorted|exact Hwin]]].
    + discriminate.
    + intros u Hu. apply elem_of_cons in Hu as [->|Hu];
        [vm_compute; by eexists|].
      apply list_elem_of_singleton in Hu as ->. vm_compute. by eexists.
    + vm_compute.
      apply NoDup_cons. split; [|apply NoDup_singleton].
      intros Hin. apply list_elem_of_singleton in Hin. discriminate Hin.
Defined.

(** * Further theorems *)

(** ** Further theorems: ClaimTracker *)

Lemma on_reaction_add_recorded_any emoji mid user now rt message_id user_id :
  recorded (on_reaction_add emoji mid user now rt) message_id user_id
  = match recorded rt message_id user_id with
    | Some t => Some t
    | None =>
        if negb (u_bot user) && String.eqb emoji CHECKMARK
           && (mid =? message_id) && (u_id user =? user_id)
        then Some now else None
    end.
Proof.
  unfold on_reaction_add.
  destruct (u_bot user); simpl; [by destruct (recorded rt message_id user_id)|].
  destruct (String.eqb emoji CHECKMARK); simpl;
    [|by destruct (recorded rt message_id user_id)].
  unfold recorded.
  destruct (Z.eqb_spec mid message_id) as [->|Hmid]; simpl.
  - destruct (rt !! message_id) as [bucket|] eqn:Hm.
    + rewrite Hm. destruct (Z.eqb_spec (u_id user) user_id) as [->|Huid].
      * destruct (bucket !! user_id) as [t|] eqn:Hu.
        -- by rewrite Hm, Hu.
        -- by rewrite lookup_insert_eq, lookup_insert_eq.
      * destruct (bucket !! u_id user) as [t|] eqn:Hu.
        -- rewrite Hm. by destruct (bucket !! user_id).
        -- rewrite lookup_insert_eq, lookup_insert_ne by done.
           by destruct (bucket !! user_id).
    + rewrite lookup_insert_eq, lookup_empty, lookup_insert_eq.
      destruct (Z.eqb_spec (u_id user) user_id) as [->|Huid].
      * by rewrite lookup_insert_eq.
      * by rewrite lookup_insert_ne, lookup_empty by done.
  - destruct (rt !! mid) as [bucket|] eqn:Hm.
    + rewrite Hm. destruct (bucket !! u_id user).
      * by destruct (rt !! message_id) as [b'|]; [destruct (b' !! user_id)|].
      * rewrite lookup_insert_ne by done.
        by destruct (rt !! message_id) as [b'|]; [destruct (b' !! user_id)|].
    + rewrite lookup_insert_eq, lookup_empty.
      rewrite !lookup_insert_ne by done.
      by destruct (rt !! message_id) as [b'|]; [destruct (b' !! user_id)|].
Qed.

(** X1.  After any sequence of reaction events, the timestamp the
    tracker holds for a user on a message is the one it held before, if
    any, and otherwise the clock reading of the first ✅ reaction of that
    user on that message: later reactions of the user, reactions of bots,
    other emojis, other users and other messages do not change it. *)
Theorem deliver_first_claim (events : list (string * Z * User * Z))
    (rt : gmap Z (gmap Z Z)) (message_id user_id : Z) :
  recorded (deliver events rt) message_id user_id
  = match recorded rt message_id user_id with
    | Some t => Some t
    | None => first_claim events message_id user_id
    end.
Proof.
  unfold deliver. revert rt.
  induction events as [|[[[emoji mid] user] now] events IH]; intros rt; simpl.
  - by destruct (recorded rt message_id user_id).
  - rewrite IH, on_reaction_add_recorded_any.
    destruct (recorded rt message_id user_id); [done|].
    by destruct (negb (u_bot user) && String.eqb emoji CHECKMARK
                 && (mid =? message_id) && (u_id user =? user_id)).
Qed.



(** ** Further theorems: WinnerSelector *)

Lemma slice_to_sublist {A} (k : Z) (l : list A) : slice_to k l `sublist_of` l.
Proof. unfold slice_to. destruct (0 <=? k); apply sublist_take. Qed.

(** X3.  The winners are reactors, each reactor at most once when the
    enumeration has no repeats, and for a count [w >= 0] there are exactly
    [min w n] of them, [n] being the number of reactors. *)
Theorem select_winners_count (rt : gmap Z (gmap Z Z)) (mid : Z) (now : nat → Z)
    (w : Z) (reactors : list User) :
  (∀ winner, winner ∈ select_winners rt mid now w reactors → winner ∈ reactors)
  ∧ (NoDup reactors → NoDup (select_winners rt mid now w reactors))
  ∧ (0 ≤ w →
     length (select_winners rt mid now w reactors)
     = Z.to_nat (Z.min w (Z.of_nat (length reactors)))).
Proof.
  unfold select_winners.
  set (stamped := stamp_reactors rt mid now 0 reactors).
  assert (Hperm : (sort_by_timestamp stamped).*1 ≡ₚ reactors).
  { rewrite sort_by_timestamp_perm. unfold stamped. by rewrite stamp_reactors_fst. }
  assert (Hsub : (slice_to w (sort_by_timestamp stamped)).*1
                 `sublist_of` (sort_by_timestamp stamped).*1).
  { apply fmap_sublist, slice_to_sublist. }
  split; [|split].
  - intros winner Hin. rewrite <- Hperm. eapply elem_of_sublist; eauto.
  - intros Hnd. eapply sublist_NoDup; [|exact Hsub]. by rewrite Hperm.
  - intros Hw. rewrite slice_to_nonneg by done.
    rewrite length_fmap, length_take.
    assert (Hlen : length (sort_by_timestamp stamped) = length reactors).
    { rewrite <- (length_fmap fst). by rewrite Hperm. }
    rewrite Hlen. lia.
Qed.

Lemma select_winners_count_witness :
  length (select_winners ∅ 100 (λ j, 1000 + Z.of_nat j) 2 [ann; bob; the_bot])
  = Z.to_nat (Z.min 2 (Z.of_nat (length [ann; bob; the_bot]))).
Proof.
  apply (select_winners_count ∅ 100 (λ j, 1000 + Z.of_nat j) 2 [ann; bob; the_bot]).
  lia.
Defined.

Lemma insert_by_timestamp_filter (t : Z) (x : User * Z) (l : list (User * Z)) :
  filter (λ y : User * Z, y.2 = t) (insert_by_timestamp x l)
  = filter (λ y : User * Z, y.2 = t) (x :: l).
Proof.
  induction l as [|y l IH]; simpl; [done|].
  destruct (Z.leb_spec (x.2) (y.2)) as [Hle|Hlt]; [done|].
  rewrite (filter_cons _ y), IH, !filter_cons.
  destruct (decide (y.2 = t)) as [Hy|Hy], (decide (x.2 = t)) as [Hx|Hx]; try done.
  lia.
Qed.

(** X4.  Sorting the reactors by timestamp is stable: the reactors that
    bear one and the same timestamp come out in the order of the
    enumeration of the reaction's users. *)
Theorem sort_by_timestamp_stable (t : Z) (l : list (User * Z)) :
  filter (λ y : User * Z, y.2 = t) (sort_by_timestamp l)
  = filter (λ y : User * Z, y.2 = t) l.
Proof.
  induction l as [|x l IH]; simpl; [done|].
  rewrite insert_by_timestamp_filter, !filter_cons. by rewrite IH.
Qed.

(** ** Further theorems: LedgerClient *)

Lemma string_app_assoc (a b c : string) : (a +:+ b) +:+ c = a +:+ b +:+ c.
Proof.
  induction a as [|x a IH]; [done|].
  change (String x ((a +:+ b) +:+ c) = String x (a +:+ b +:+ c)).
  by rewrite IH.
Qed.

Lemma after_d_slash_Some url tail :
  after_d_slash url = Some tail → url = "/d/" +:+ tail.
Proof.
  destruct url as [|c1 url]; [done|].
  destruct c1 as [[] [] [] [] [] [] [] []]; try done.
  destruct url as [|c2 url]; [done|].
  destruct c2 as [[] [] [] [] [] [] [] []]; try done.
  destruct url as [|c3 url]; [done|].
  destruct c3 as [[] [] [] [] [] [] [] []]; try done.
  by intros [= ->].
Qed.

Lemma extract_sheet_id_step c rest :
  extract_sheet_id (String c rest)
  = match after_d_slash (String c rest) with
    | Some tail =>
        match sheet_id_prefix tail with
        | EmptyString => extract_sheet_id rest
        | id => Some id
        end
    | None => extract_sheet_id rest
    end.
Proof.
  destruct c as [[] [] [] [] [] [] [] []]; try done.
  destruct rest as [|c2 rest]; [done|].
  destruct c2 as [[] [] [] [] [] [] [] []]; try done.
  destruct rest as [|c3 rest]; [done|].
  destruct c3 as [[] [] [] [] [] [] [] []]; done.
Qed.

Lemma sheet_id_prefix_split s :
  ∃ post, s = sheet_id_prefix s +:+ post
          ∧ string_forallb is_sheet_id_char (sheet_id_prefix s) = true
          ∧ sheet_id_prefix post = "".
Proof.
  induction s as [|c s (post & Heq & Hall & Hpost)]; [by exists ""|].
  cbn [sheet_id_prefix]. destruct (is_sheet_id_char c) eqn:Hc.
  - exists post. split; [|split; [|done]].
    + change (String c s = String c (sheet_id_prefix s +:+ post)).
      by rewrite <- Heq.
    + cbn [string_forallb]. by rewrite Hc, Hall.
  - exists (String c s). split; [done|]. split; [done|].
    cbn [sheet_id_prefix]. by rewrite Hc.
Qed.

Lemma sheet_id_prefix_app id post :
  string_forallb is_sheet_id_char id = true → sheet_id_prefix post = "" →
  sheet_id_prefix (id +:+ post) = id.
Proof.
  intros Hall Hpost. induction id as [|c id IH]; [done|].
  cbn [string_forallb] in Hall. apply andb_true_iff in Hall as [Hc Hall].
  change (sheet_id_prefix (String c (id +:+ post)) = String c id).
  cbn [sheet_id_prefix]. by rewrite Hc, IH.
Qed.

Lemma sheet_id_prefix_app_empty a b :
  sheet_id_prefix (a +:+ b) = "" → sheet_id_prefix a = "".
Proof.
  destruct a as [|c a]; [done|].
  change (sheet_id_prefix (String c (a +:+ b)) = "" → sheet_id_prefix (String c a) = "").
  cbn [sheet_id_prefix]. by destruct (is_sheet_id_char c).
Qed.

(** No match of the pattern begins at the head of [url]. *)
Lemma no_match_here_prefix c pre more :
  match after_d_slash (String c (pre +:+ "/d/" +:+ more)) with
  | Some tail => sheet_id_prefix tail = ""
  | None => True
  end →
  match after_d_slash (String c (pre +:+ "/d/")) with
  | Some tail => sheet_id_prefix tail = ""
  | None => True
  end.
Proof.
  destruct (after_d_slash (String c (pre +:+ "/d/"))) as [tail'|] eqn:Ha; [|done].
  apply after_d_slash_Some in Ha.
  replace (String c (pre +:+ "/d/" +:+ more))
    with ("/d/" +:+ tail' +:+ more).
  2:{ change (String c (pre +:+ "/d/" +:+ more))
        with (String c pre +:+ "/d/" +:+ more).
      rewrite <- (string_app_assoc (String c pre) "/d/" more).
      change (String c pre +:+ "/d/") with (String c (pre +:+ "/d/")).
      rewrite Ha. by rewrite !string_app_assoc. }
  change (after_d_slash ("/d/" +:+ tail' +:+ more)) with (Some (tail' +:+ more)).
  apply sheet_id_prefix_app_empty.
Qed.

(** X5.  The id [extract_sheet_id] returns is never empty and is made of
    letters, digits, [-] and [_] only; it stands in the URL right after a
    ["/d/"], it is the longest run of such characters there, and no
    earlier ["/d/"] of the URL is followed by such a character. *)
Theorem extract_sheet_id_sound (url id : string) :
  extract_sheet_id url = Some id →
  id ≠ "" ∧ string_forallb is_sheet_id_char id = true
  ∧ ∃ pre post, url = pre +:+ "/d/" +:+ id +:+ post
      ∧ sheet_id_prefix post = ""
      ∧ extract_sheet_id (pre +:+ "/d/") = None.
Proof.
  induction url as [|c rest IH]; [done|].
  rewrite extract_sheet_id_step.
  assert (Hrest : extract_sheet_id rest = Some id →
            match after_d_slash (String c rest) with
            | Some tail => sheet_id_prefix tail = ""
            | None => True
            end →
            id ≠ "" ∧ string_forallb is_sheet_id_char id = true
            ∧ ∃ pre post, String c rest = pre +:+ "/d/" +:+ id +:+ post
                ∧ sheet_id_prefix post = ""
                ∧ extract_sheet_id (pre +:+ "/d/") = None).
  { intros Hid Hhere.
    destruct (IH Hid) as (Hne & Hall & pre & post & -> & Hpost & Hleft).
    split; [done|]. split; [done|].
    exists (String c pre), post. split; [done|]. split; [done|].
    change (String c pre +:+ "/d/") with (String c (pre +:+ "/d/")).
    rewrite extract_sheet_id_step, Hleft.
    apply no_match_here_prefix in Hhere.
    destruct (after_d_slash (String c (pre +:+ "/d/"))) as [tail'|]; [|done].
    by rewrite Hhere. }
  destruct (after_d_slash (String c rest)) as [tail|] eqn:Ha.
  - destruct (sheet_id_prefix tail) as [|c' id'] eqn:Hp.
    + intros Hid. by apply Hrest.
    + intros [= <-]. apply after_d_slash_Some in Ha.
      destruct (sheet_id_prefix_split tail) as (post & Heq & Hall & Hpost).
      rewrite Hp in Heq, Hall.
      split; [done|]. split; [done|].
      exists "", post. split; [by rewrite Ha, Heq|]. done.
  - intros Hid. by apply Hrest.
Qed.

Lemma extract_sheet_id_sound_witness :
  let url := "https://docs.google.com/spreadsheets/d/1aB-c_9/edit#gid=0" in
  extract_sheet_id url = Some "1aB-c_9"
  ∧ ∃ pre post, url = pre +:+ "/d/" +:+ "1aB-c_9" +:+ post
      ∧ sheet_id_prefix post = ""
      ∧ extract_sheet_id (pre +:+ "/d/") = None.
Proof.
  split; [reflexivity|].
  apply (extract_sheet_id_sound
           "https://docs.google.com/spreadsheets/d/1aB-c_9/edit#gid=0" "1aB-c_9").
  reflexivity.
Defined.

(** X6.  Conversely, a URL that has an id after its first ["/d/"] that is
    followed by a character of an id yields that id: with no match in
    [pre], a non-empty [id] of letters, digits, [-] and [_], and a rest
    that does not go on with such a character,
    [extract_sheet_id (pre ++ "/d/" ++ id ++ post)] is [id]. *)
Theorem extract_sheet_id_complete (pre id post : string) :
  extract_sheet_id (pre +:+ "/d/") = None →
  id ≠ "" →
  string_forallb is_sheet_id_char id = true →
  sheet_id_prefix post = "" →
  extract_sheet_id (pre +:+ "/d/" +:+ id +:+ post) = Some id.
Proof.
  intros Hleft Hne Hall Hpost.
  assert (Hp : sheet_id_prefix (id +:+ post) = id) by by apply sheet_id_prefix_app.
  induction pre as [|c pre IH].
  - change ("" +:+ "/d/" +:+ id +:+ post) with (String "/" ("d/" +:+ id +:+ post)).
    rewrite extract_sheet_id_step.
    change (after_d_slash (String "/" ("d/" +:+ id +:+ post)))
      with (Some (id +:+ post)).
    cbv beta iota. rewrite Hp. by destruct id.
  - change (String c pre +:+ "/d/") with (String c (pre +:+ "/d/")) in Hleft.
    rewrite extract_sheet_id_step in Hleft.
    change (String c pre +:+ "/d/" +:+ id +:+ post)
      with (String c (pre +:+ "/d/" +:+ id +:+ post)).
    rewrite extract_sheet_id_step.
    revert Hleft.
    destruct (after_d_slash (String c (pre +:+ "/d/"))) as [tail'|] eqn:Ha.
    + apply after_d_slash_Some in Ha.
      replace (String c (pre +:+ "/d/" +:+ id +:+ post))
        with ("/d/" +:+ tail' +:+ id +:+ post).
      2:{ change (String c (pre +:+ "/d/" +:+ id +:+ post))
            with (String c pre +:+ "/d/" +:+ id +:+ post).
          rewrite <- (string_app_assoc (String c pre) "/d/" (id +:+ post)).
          change (String c pre +:+ "/d/") with (String c (pre +:+ "/d/")).
          rewrite Ha. by rewrite !string_app_assoc. }
      change (after_d_slash ("/d/" +:+ tail' +:+ id +:+ post))
        with (Some (tail' +:+ id +:+ post)).
      destruct tail' as [|c' tail'].
      * intros _. change ("" +:+ id +:+ post) with (id +:+ post).
        cbv beta iota. rewrite Hp. by destruct id.
      * change (String c' tail' +:+ id +:+ post)
          with (String c' (tail' +:+ id +:+ post)).
        cbv beta iota. cbn [sheet_id_prefix].
        destruct (is_sheet_id_char c'); [done|]. apply IH.
    + (* no ["/d/"] at the head of [pre ++ "/d/"], so none at the head of
         the whole URL either *)
      intros Hleft.
      destruct (after_d_slash (String c (pre +:+ "/d/" +:+ id +:+ post)))
        as [tail|] eqn:Hb; [|by apply IH].
      exfalso. apply after_d_slash_Some in Hb.
      destruct pre as [|c1 [|c2 [|c3 pre]]].
      all: change ("/d/" +:+ tail) with (String "/" (String "d" (String "/" tail))) in Hb.
      all: cbn [String.append] in Hb, Ha.
      all: simplify_eq.
Qed.

Lemma extract_sheet_id_complete_witness :
  extract_sheet_id ("https://docs.google.com/spreadsheets" +:+ "/d/" +:+ "1aB-c_9"
                    +:+ "/edit#gid=0") = Some "1aB-c_9".
Proof.
  apply (extract_sheet_id_complete "https://docs.google.com/spreadsheets"
           "1aB-c_9" "/edit#gid=0"); [reflexivity|done|reflexivity|reflexivity].
Defined.

(** Membership in an explicit list of events. *)
Ltac each_event :=
  let e := fresh "e" in let He := fresh "He" in
  intros e He; simpl in He;
  repeat (apply elem_of_cons in He as [->|He]);
  try (by apply elem_of_nil in He); simpl; try done; eauto.

Lemma written_last (tr : list event) :
  forallb (λ e, negb (is_written e)) (removelast tr) = true →
  ∀ i row col value,
    tr !! i = Some (UpdateCell row col value None) → S i = length tr.
Proof.
  induction tr as [|e tr IH]; intros Hall i row col value Hi; [done|].
  destruct tr as [|e' tr].
  - destruct i; [done|]. by destruct i.
  - cbn [removelast forallb] in Hall. apply andb_true_iff in Hall as [He Hall].
    destruct i as [|i]; simpl in Hi.
    + by simplify_eq.
    + simpl. f_equal. by eapply IH.
Qed.

(** X7.  A ledger write touches one cell only: every [update_cell] it
    makes goes to row [task_number + 1], column 4, with the winner's name;
    every [open_by_key] uses the id of the bot's sheet URL; a write that
    succeeds is its last action, so at most one write succeeds; and it
    makes no call at all on the spreadsheet when the client is not set or
    the URL holds no id. *)
Theorem write_to_sheet_one_cell (ww : WinnerWorld) (task_number : Z)
    (winner_name : string) (st : St) :
  ∃ tr, write_to_sheet ww task_number winner_name st = (Ok tt, add_trace tr st)
    ∧ (∀ e, e ∈ tr → is_update_cell e = true →
         ∃ failure, e = UpdateCell (task_number + 1) 4 winner_name failure)
    ∧ (∀ e, e ∈ tr → is_open_by_key e = true →
         ∃ id, extract_sheet_id (sheet_url (st_bot st)) = Some id ∧ e = OpenByKey id)
    ∧ (∀ i row col value,
         tr !! i = Some (UpdateCell row col value None) → S i = length tr)
    ∧ (gc (st_bot st) = false ∨ extract_sheet_id (sheet_url (st_bot st)) = None →
       filter is_open_by_key tr = [] ∧ filter is_update_cell tr = []).
Proof.
  unfold write_to_sheet, mbind, M_bind, get_bot.
  destruct (gc (st_bot st)) eqn:Hgc; simpl.
  2:{ eexists. rewrite emit_eq. split; [done|].
      split; [each_event|]. split; [each_event|].
      split; [by apply written_last|done]. }
  destruct (extract_sheet_id (sheet_url (st_bot st))) as [id|] eqn:Hid.
  2:{ destruct (sheet_url (st_bot st) =? "")%string eqn:Hurl.
      - eexists. rewrite emit_eq. split; [done|].
        split; [each_event|]. split; [each_event|].
        split; [by apply written_last|done].
      - exists []. unfold range3, write_attempts, try_except, mbind, M_bind.
        rewrite write_attempt_no_id by done. rewrite add_trace_nil.
        split; [done|]. split; [each_event|]. split; [each_event|].
        split; [by apply written_last|done]. }
  assert (Hurl : (sheet_url (st_bot st) =? "")%string = false)
    by (apply extract_sheet_id_nonempty; by rewrite Hid).
  rewrite Hurl.
  unfold range3, write_attempts, try_except, mbind, M_bind.
  step_attempt 0.
  all: rewrite ?emit_eq; simpl; rewrite ?emit_eq; simpl.
  all: try step_attempt 1.
  all: rewrite ?emit_eq; simpl; rewrite ?emit_eq; simpl.
  all: try step_attempt 2.
  all: rewrite ?emit_eq; simpl; rewrite ?emit_eq; simpl.
  all: (eexists; split; [st_eq|]).
  all: (split; [each_event|]); (split; [each_event|]).
  all: (split; [by apply written_last|]).
  all: by intros [?|?].
Qed.

(** ** Further theorems: one winner *)

Lemma dm_winner_kinds w ww m n st :
  ∃ sent tr, dm_winner w ww m n st = (Ok sent, add_trace tr st)
    ∧ length (filter is_direct_message tr) = 1%nat
    ∧ filter is_add_roles tr = []
    ∧ filter is_schedule_role_removal tr = [].
Proof.
  unfold dm_winner, try_except, mbind, M_bind, get_bot. rewrite emit_eq.
  destruct (ww_dm ww) as [e|]; simpl.
  - destruct (is_HTTPException e); simpl.
    + destruct (announce_channel (st_bot st)); simpl.
      * rewrite announce_send_eq. simpl.
        destruct (w_post w _); simpl.
        -- do 2 eexists. split; [st_eq|]. split_and!; count_events.
        -- rewrite send_log_eq. simpl.
           do 2 eexists. split; [st_eq|]. split_and!; count_events.
      * rewrite send_log_eq. simpl.
        do 2 eexists. split; [st_eq|]. split_and!; count_events.
    + do 2 eexists. split; [st_eq|]. split_and!; count_events.
  - rewrite send_log_eq. simpl.
    do 2 eexists. split; [st_eq|]. split_and!; count_events.
Qed.

Lemma write_to_sheet_kinds ww n name st :
  ∃ tr, write_to_sheet ww n name st = (Ok tt, add_trace tr st)
    ∧ filter is_direct_message tr = []
    ∧ filter is_add_roles tr = []
    ∧ filter is_schedule_role_removal tr = [].
Proof.
  unfold write_to_sheet, mbind, M_bind, get_bot.
  destruct (negb (gc (st_bot st)) || (sheet_url (st_bot st) =? "")%string).
  { eexists. rewrite emit_eq. by split. }
  destruct (extract_sheet_id (sheet_url (st_bot st))) as [id|] eqn:Hid.
  2:{ exists []. unfold range3, write_attempts, try_except, mbind, M_bind.
      rewrite write_attempt_no_id by done. by rewrite add_trace_nil. }
  unfold range3, write_attempts, try_except, mbind, M_bind.
  step_attempt 0.
  all: rewrite ?emit_eq; simpl; rewrite ?emit_eq; simpl.
  all: try step_attempt 1.
  all: rewrite ?emit_eq; simpl; rewrite ?emit_eq; simpl.
  all: try step_attempt 2.
  all: rewrite ?emit_eq; simpl; rewrite ?emit_eq; simpl.
  all: (eexists; split; [st_eq|]); by simpl.
Qed.

(** Symbolic execution that keeps, of [dm_winner] and [write_to_sheet],
    the kinds of the actions they perform. *)
Ltac exec_kinds_step :=
  match goal with
  | |- context [dm_winner ?w ?ww ?m ?n ?st] =>
      let sent := fresh "sent" in
      let tr := fresh "tr_dm" in
      let H := fresh "Hdm" in
      let H1 := fresh "Hdm_dm" in
      let H2 := fresh "Hdm_add" in
      let H3 := fresh "Hdm_sched" in
      destruct (dm_winner_kinds w ww m n st) as (sent & tr & H & H1 & H2 & H3);
      rewrite H
  | |- context [write_to_sheet ?ww ?n ?name ?st] =>
      let tr := fresh "tr_sheet" in
      let H := fresh "Hsheet" in
      let H1 := fresh "Hsheet_dm" in
      let H2 := fresh "Hsheet_add" in
      let H3 := fresh "Hsheet_sched" in
      destruct (write_to_sheet_kinds ww n name st) as (tr & H & H1 & H2 & H3);
      rewrite H
  | |- context [match ?x with _ => _ end] =>
      lazymatch x with
      | context [dm_winner] => fail
      | context [write_to_sheet] => fail
      | context [match _ with _ => _ end] => fail
      | _ => destruct x eqn:?
      end
  end; simpl.

Lemma filter_cons_true (p : event → bool) (x : event) (l : list event) :
  p x = true → filter p (x :: l) = x :: filter p l.
Proof.
  intros Hx. rewrite filter_cons.
  destruct (decide (p x)) as [H|H]; [done|]. by rewrite Hx in H.
Qed.

Lemma filter_cons_false (p : event → bool) (x : event) (l : list event) :
  p x = false → filter p (x :: l) = filter p l.
Proof.
  intros Hx. rewrite filter_cons.
  destruct (decide (p x)) as [H|H]; [by rewrite Hx in H|done].
Qed.

(** The events of one kind in a trace whose unknown parts are covered by
    hypotheses. *)
Ltac filters :=
  repeat first
    [ rewrite filter_app
    | rewrite filter_nil
    | rewrite filter_cons_true by reflexivity
    | rewrite filter_cons_false by reflexivity
    | match goal with H : filter _ _ = [] |- _ => rewrite H end ];
  rewrite ?app_nil_r, ?app_nil_l; rewrite ?length_app; cbn [length app];
  repeat match goal with
         | H : length (filter _ _) = _ |- _ => rewrite H
         end;
  try reflexivity.

(** X8.  What the loop body does for one winner follows from the grant
    alone.  When the privilege grant succeeds, [add_roles] is called once,
    with the member, the role and the task number of the winner, the
    removal of the role is scheduled once, one direct message is attempted,
    and the winner is recorded as assigned, with task number
    [starting_task_num + i].  When it does not succeed, no removal is
    scheduled, no direct message is attempted, nobody is recorded, and
    [add_roles] is called at most once and raised if it was called. *)
Theorem process_winner_effects (w : World) (message : Message)
    (starting_task_num : Z) (i : nat) (winner : User) (st : St) :
  let ww := w_winner w (u_id winner) in
  let n := starting_task_num + Z.of_nat i in
  ∃ r tr wa,
    process_winner w message starting_task_num i winner st = (r, extend tr wa st)
    ∧ match granted ww message with
      | Some (m, role) =>
          wa = [(m, n)]
          ∧ filter is_add_roles tr
            = [AddRoles m role ("TaskBot: Task #" +:+ pretty n) None]
          ∧ filter is_schedule_role_removal tr = [ScheduleRoleRemoval m role]
          ∧ length (filter is_direct_message tr) = 1%nat
      | None =>
          wa = []
          ∧ (filter is_add_roles tr = []
             ∨ ∃ m role reason e,
                 filter is_add_roles tr = [AddRoles m role reason (Some e)])
          ∧ filter is_schedule_role_removal tr = []
          ∧ filter is_direct_message tr = []
      end.
Proof.
  intros ww n. subst ww n.
  destruct (granted (w_winner w (u_id winner)) message) as [[m role]|] eqn:Hg.
  all: unfold process_winner, get_member_safely, get_or_create_role,
         announce_send, send_log.
  all: unfold_m; simpl; repeat exec_kinds_step.
  all: use_granted Hg.
  all: simplify_eq.
  all: unfold extend, add_trace; simpl; rewrite <- ?app_assoc; simpl.
  all: first
    [ by (do 3 eexists; split; [reflexivity|]; split; [reflexivity|];
          split_and!; filters)
    | by (do 2 eexists; exists []; rewrite (app_nil_r (st_winners_assigned st));
          split; [reflexivity|]; split; [reflexivity|];
          split; [first [by left; filters | right; do 4 eexists; by filters]|];
          split; filters) ].
Qed.

(** ** Further theorems: the round *)

(** X9.  With a wanted count [winners_per_task >= 0], a round selects at
    most [winners_per_task] winners, records at most as many members as
    it selected winners, and every task number it assigns lies in
    [starting_task .. starting_task + winners_per_task - 1]. *)
Theorem round_numbers_bounded (w : World) (b : TaskBot) :
  0 ≤ winners_per_task b →
  ∃ r st',
    task_allocation_loop_impl w (init_st b) = (r, st')
    ∧ (length (st_winners st') ≤ Z.to_nat (winners_per_task b))%nat
    ∧ (length (st_winners_assigned st') ≤ length (st_winners st'))%nat
    ∧ ∀ m n, (m, n) ∈ st_winners_assigned st' →
        current_task b ≤ n < current_task b + winners_per_task b.
Proof.
  intros Hk.
  destruct (round_spec w b) as (r & st' & Heq & _ & Hcases).
  exists r, st'. split; [done|].
  destruct Hcases as [(_ & Hw & Hwa & _)
                     |(message & reactors & _ & _ & _ & Hw & _ & _ & Hsub & _)].
  - rewrite Hw, Hwa. simpl. split; [lia|]. split; [lia|].
    by intros m n ?%elem_of_nil.
  - assert (Hlen : (length (st_winners st') ≤ Z.to_nat (winners_per_task b))%nat).
    { rewrite Hw. unfold select_winners.
      rewrite length_fmap, slice_to_nonneg, length_take by done. lia. }
    split; [done|]. split.
    + apply sublist_length in Hsub. rewrite length_fmap, length_seqZ in Hsub. lia.
    + intros m n Hin.
      assert (Hn : n ∈ (st_winners_assigned st').*2).
      { apply list_elem_of_fmap. by exists (m, n). }
      eapply elem_of_sublist in Hn; [|exact Hsub].
      apply elem_of_seqZ in Hn. lia.
Qed.

Lemma round_numbers_bounded_witness :
  let out := task_allocation_loop_impl world_ann_left_bob_granted
               (init_st (example_bot 2)) in
  (length (st_winners out.2) ≤ 2)%nat
  ∧ (length (st_winners_assigned out.2) ≤ length (st_winners out.2))%nat.
Proof.
  intros out.
  destruct (round_numbers_bounded world_ann_left_bob_granted (example_bot 2))
    as (r & st' & Heq & Hw & Hwa & _); [simpl; lia|].
  assert (Hout : out.2 = st') by (unfold out; by rewrite Heq).
  rewrite Hout. split; [exact Hw|exact Hwa].
Defined.



(** X11.  The cursor advances by one per round, the numbers by one per
    winner: when a round runs to its end with at least two winners, all
    granted, and the next round runs to its end with at least one winner,
    all granted, the task number [starting_task + 1] of the first round
    is assigned in both rounds. *)
Theorem consecutive_rounds_share_a_number (w1 w2 : World) (b : TaskBot)
    (st1 st2 : St) (message1 message2 : Message) (reactors1 reactors2 : list User) :
  task_allocation_loop_impl w1 (init_st b) = (Ok Finished, st1) →
  observed w1 = Some (message1, reactors1) →
  (∀ winner, winner ∈ st_winners st1 →
     is_Some (granted (w_winner w1 (u_id winner)) message1)) →
  (2 ≤ length (st_winners st1))%nat →
  task_allocation_loop_impl w2 (init_st (st_bot st1)) = (Ok Finished, st2) →
  observed w2 = Some (message2, reactors2) →
  (∀ winner, winner ∈ st_winners st2 →
     is_Some (granted (w_winner w2 (u_id winner)) message2)) →
  (1 ≤ length (st_winners st2))%nat →
  current_task (st_bot st1) = current_task b + 1
  ∧ ∃ m1 m2,
      (m1, current_task b + 1) ∈ st_winners_assigned st1
      ∧ (m2, current_task b + 1) ∈ st_winners_assigned st2.
Proof.
  intros Heq1 Hobs1 Hg1 Hlen1 Heq2 Hobs2 Hg2 Hlen2.
  destruct (round_spec w1 b) as (r & st' & Heq & _ & Hcases).
  rewrite Heq1 in Heq. simplify_eq.
  destruct Hcases as [(_ & Hw & _)
                     |(m & rs & Hobs & _ & _ & _ & _ & Hfin & _ & Hall)].
  { rewrite Hw in Hlen1. simpl in Hlen1. lia. }
  rewrite Hobs1 in Hobs. simplify_eq.
  destruct (Hall eq_refl Hg1) as [Hnum1 _].
  assert (Hin1 : current_task b + 1 ∈ (st_winners_assigned st').*2).
  { rewrite Hnum1. apply elem_of_seqZ. lia. }
  apply list_elem_of_fmap in Hin1 as ([m1 n1] & Hn1 & Hin1). simpl in Hn1. subst n1.
  assert (Hcur : current_task (st_bot st') = current_task b + 1).
  { rewrite (Hfin eq_refl). destruct (st_winners_assigned st'); [|done].
    by apply elem_of_nil in Hin1. }
  split; [done|].
  destruct (round_spec w2 (st_bot st')) as (r2 & st2' & Heq' & _ & Hcases2).
  rewrite Heq2 in Heq'. simplify_eq.
  destruct Hcases2 as [(_ & Hw & _)
                      |(m' & rs' & Hobs & _ & _ & _ & _ & _ & _ & Hall2)].
  { rewrite Hw in Hlen2. simpl in Hlen2. lia. }
  rewrite Hobs2 in Hobs. simplify_eq.
  destruct (Hall2 eq_refl Hg2) as [Hnum2 _].
  assert (Hin2 : current_task b + 1 ∈ (st_winners_assigned st2').*2).
  { rewrite Hnum2, Hcur. apply elem_of_seqZ. lia. }
  apply list_elem_of_fmap in Hin2 as ([m2 n2] & Hn2 & Hin2). simpl in Hn2. subst n2.
  by exists m1, m2.
Qed.

Lemma consecutive_rounds_share_a_number_witness :
  let w := example_world [checkmark_of [the_bot; ann; bob]]
             [(CHECKMARK, 100, ann, 3); (CHECKMARK, 100, bob, 4)]
             (λ uid, if uid =? 1 then ww_granted ann else ww_granted bob) in
  let out1 := task_allocation_loop_impl w (init_st (example_bot 2)) in
  let out2 := task_allocation_loop_impl w (init_st (st_bot out1.2)) in
  current_task (st_bot out1.2) = 2
  ∧ ∃ m1 m2,
      (m1, 2) ∈ st_winners_assigned out1.2 ∧ (m2, 2) ∈ st_winners_assigned out2.2.
Proof.
  intros w out1 out2.
  assert (Hr1 : out1.1 = Ok Finished) by (vm_compute; reflexivity).
  assert (Hr2 : out2.1 = Ok Finished) by (vm_compute; reflexivity).
  assert (H1 : out1 = (Ok Finished, out1.2)).
  { rewrite <- Hr1. apply surjective_pairing. }
  assert (H2 : out2 = (Ok Finished, out2.2)).
  { rewrite <- Hr2. apply surjective_pairing. }
  assert (Hw1 : st_winners out1.2 = [ann; bob]) by (vm_compute; reflexivity).
  assert (Hw2 : st_winners out2.2 = [ann; bob]) by (vm_compute; reflexivity).
  assert (Hg : ∀ winner, winner ∈ [ann; bob] →
            is_Some (granted (w_winner w (u_id winner))
                       (mkMessage (Some "guild") [checkmark_of [the_bot; ann; bob]]))).
  { intros winner Hin.
    apply elem_of_cons in Hin as [->|Hin]; [by eexists|].
    apply list_elem_of_singleton in Hin as ->. by eexists. }
  apply (consecutive_rounds_share_a_number w w (example_bot 2) out1.2 out2.2
           (mkMessage (Some "guild") [checkmark_of [the_bot; ann; bob]])
           (mkMessage (Some "guild") [checkmark_of [the_bot; ann; bob]])
           [ann; bob] [ann; bob]).
  - exact H1.
  - reflexivity.
  - rewrite Hw1. exact Hg.
  - rewrite Hw1. simpl. lia.
  - exact H2.
  - reflexivity.
  - rewrite Hw2. exact Hg.
  - rewrite Hw2. simpl. lia.
Defined.

Lemma round_frame w b :
  ∃ r st',
    task_allocation_loop_impl w (init_st b) = (r, st')
    ∧ settings (st_bot st') = settings b.
Proof.
  destruct b as [tot url iv conf ann logs cur g rt rtime hours ping wpt ttype].
  unfold task_allocation_loop_impl, round_body, no_claims, discard_bucket,
    announce_send, send_log, init_st.
  unfold_m. simpl.
  repeat exec_round_step.
  all: eexists _, _; (split; [reflexivity|]); simpl.
  all: repeat match goal with
              | |- context [match ?x with _ => _ end] => destruct x
              end.
  all: reflexivity.
Qed.

(** X12.  Rounds never touch the settings, and the task cursor never
    goes back: after any number of consecutive rounds every attribute of
    the bot other than the cursor and the claim tracker is as it was, and
    the cursor has advanced by at least 0 and at most the number of
    rounds. *)
Theorem rounds_keep_settings (worlds : list World) (b : TaskBot) :
  settings (run_rounds worlds b) = settings b
  ∧ current_task b ≤ current_task (run_rounds worlds b)
    ≤ current_task b + Z.of_nat (length worlds).
Proof.
  revert b. induction worlds as [|w rest IH]; intros b; simpl run_rounds.
  - split; [done|]. simpl. lia.
  - destruct (round_frame w b) as (r & st' & Heq & Hset).
    destruct (round_spec w b) as (r' & st'' & Heq' & _ & Hcases).
    rewrite Heq in Heq'. injection Heq' as Hr Hst. subst r' st''.
    rewrite Heq. simpl.
    destruct (IH (st_bot st')) as [IHset IHcur].
    split; [rewrite IHset; exact Hset|].
    assert (Hstep : current_task (st_bot st') = current_task b
                    ∨ current_task (st_bot st') = current_task b + 1).
    { destruct Hcases as [(_ & _ & _ & Hcur & _)
                         |(_ & _ & _ & _ & _ & _ & [Hcur|[Hcur _]] & _)]; auto. }
    change (length (w :: rest)) with (S (length rest)). lia.
Qed.

(** ** Further theorems: the slash commands *)

Ltac unfold_c :=
  unfold restart_task_loop;
  unfold c_try_except, mbind, C_bind, mret, C_ret, c_get_bot, c_put_bot,
    c_emit, defer, followup_send, c_send_log.

(** One step of the symbolic execution of a command. *)
Ltac exec_c_step :=
  match goal with
  | |- context [match ?x with _ => _ end] =>
      lazymatch x with
      | context [match _ with _ => _ end] => fail
      | _ => destruct x eqn:?
      end
  end; simpl.

Ltac split_followup :=
  match goal with
  | |- context [in_followup ?i ?k] => destruct (in_followup i k); simpl
  end.

(** The tests a command made, as facts of arithmetic. *)
Ltac tests :=
  rewrite ?orb_false_iff, ?negb_false_iff, ?negb_true_iff, ?andb_true_iff,
    ?Z.leb_gt, ?Z.ltb_ge, ?Z.leb_le, ?Z.ltb_lt in *.

Lemma validate_sheet_access_true b p url message :
  validate_sheet_access b p url = (true, message) →
  gc b = true ∧ is_Some (extract_sheet_id url).
Proof.
  unfold validate_sheet_access.
  destruct (gc b); simpl; [|done].
  destruct (extract_sheet_id url) as [id|]; [|done].
  intros _. split; [done|by eexists].
Qed.

(** What [create_task] accepts. *)
Lemma create_task_bot i tasks task_type winners_per_task b :
  let out := create_task i tasks task_type winners_per_task (mkCSt b []) in
  c_bot out.2 = b
  ∨ (c_bot out.2 = task_settings tasks task_type winners_per_task b
     ∧ announce_channel b = true
     ∧ 0 < tasks
     ∧ 1 ≤ winners_per_task ≤ 20
     ∧ gc b = true
     ∧ is_Some (extract_sheet_id (sheet_url b))).
Proof.
  unfold create_task. unfold_c. simpl.
  repeat exec_c_step.
  all: try (by left).
  all: right; tests; subst.
  all: match goal with
       | H : validate_sheet_access _ _ _ = (true, _) |- _ =>
           apply validate_sheet_access_true in H as [? ?]
       end.
  all: split_and!; first [done | lia].
Qed.

Lemma configure_settings_bot i interval_minutes announce_channel logs_channel
    reaction_time role_removal_hours ping_role_name sheets_url b :
  let out := configure_settings i interval_minutes announce_channel logs_channel
               reaction_time role_removal_hours ping_role_name sheets_url
               (mkCSt b []) in
  (c_bot out.2 = b
   ∨ (c_bot out.2 = configured_settings interval_minutes reaction_time
                      role_removal_hours ping_role_name sheets_url b
      ∧ 1 ≤ interval_minutes
      ∧ 1 ≤ reaction_time ≤ 60
      ∧ 1 ≤ role_removal_hours ≤ 168
      ∧ check_sheets_url b i sheets_url = None))
  ∧ filter is_loop_event (c_out out.2) = [].
Proof.
  unfold configure_settings. unfold_c. simpl.
  repeat exec_c_step.
  all: split; [|by rewrite ?filter_app].
  all: try (by left).
  all: right; tests.
  all: split_and!; first [done | lia].
Qed.

Lemma check_sheets_url_None b i sheets_url url :
  check_sheets_url b i sheets_url = None →
  sheets_url = Some url → str_truthy url = true →
  gc b = true ∧ is_Some (extract_sheet_id url).
Proof.
  intros Hcheck -> Hurl. unfold check_sheets_url in Hcheck. rewrite Hurl in Hcheck.
  destruct (extract_sheet_id url) as [id|] eqn:Hid; [|done].
  destruct (str_truthy id); simpl in Hcheck; [|done].
  destruct (validate_sheet_access b (in_probe i) url) as [[] message] eqn:Hv;
    simpl in Hcheck; [|done].
  apply validate_sheet_access_true in Hv as [Hgc _]. split; [done|by eexists].
Qed.

Lemma stop_tasks_bot i b :
  let out := stop_tasks i (mkCSt b []) in
  c_bot out.2 = b ∨ c_bot out.2 = set_configured false b.
Proof.
  unfold stop_tasks. unfold_c. simpl.
  repeat exec_c_step.
  all: first [by left | by right].
Qed.

Lemma perform_well_formed a b : well_formed b → well_formed (perform a b).
Proof.
  intros (Hint & Hreact & Hhours & Hwin & Hcur & Hconf).
  destruct a as [i interval_minutes announce_channel logs_channel reaction_time
                   role_removal_hours ping_role_name sheets_url
                |i tasks task_type winners_per_task|i|w|emoji mid user now];
    simpl perform.
  - destruct (configure_settings_bot i interval_minutes announce_channel logs_channel
                reaction_time role_removal_hours ping_role_name sheets_url b)
      as [[->|(-> & ? & ? & ? & Hcheck)] _]; [done|].
    unfold well_formed. simpl. split_and!; try done; try lia.
    intros Hc. destruct (Hconf Hc) as (_ & Hgc & Hid & Htot).
    split_and!; try done.
    destruct sheets_url as [url|]; [|done].
    destruct (str_truthy url) eqn:Hurl; [|done].
    by destruct (check_sheets_url_None b i (Some url) url Hcheck eq_refl Hurl).
  - destruct (create_task_bot i tasks task_type winners_per_task b)
      as [->|(-> & ? & ? & ? & ? & ?)]; [done|].
    unfold well_formed. simpl. split_and!; try done; try lia.
  - destruct (stop_tasks_bot i b) as [->| ->]; [done|].
    unfold well_formed. simpl. split_and!; try done; try lia.
  - destruct (round_frame w b) as (r & st' & Heq & Hset).
    destruct (round_spec w b) as (r' & st'' & Heq' & _ & Hcases).
    rewrite Heq in Heq'. injection Heq' as Hr Hst. subst r' st''.
    rewrite Heq. simpl.
    assert (Hstep : current_task (st_bot st') = current_task b
                    ∨ current_task (st_bot st') = current_task b + 1).
    { destruct Hcases as [(_ & _ & _ & H & _)
                         |(_ & _ & _ & _ & _ & _ & [H|[H _]] & _)]; auto. }
    unfold settings in Hset.
    injection Hset as E1 E2 E3 E4 E5 E6 E7 E8 E9 E10 E11 E12.
    unfold well_formed.
    rewrite ?E1, ?E2, ?E3, ?E4, ?E5, ?E6, ?E7, ?E8, ?E9, ?E10, ?E11, ?E12.
    split_and!; try done; try lia.
  - unfold well_formed. simpl. split_and!; try done; try lia.
Qed.

(** X13.  Whatever commands, rounds and reactions the bot goes through
    after [__init__], its settings stay in the ranges the commands
    accept (interval at least 1 minute, reaction time 1-60 seconds, role
    removal 1-168 hours, 1-20 winners per task), the task cursor is at
    least 1, and whenever the bot is configured it holds an announcement
    channel, a Sheets client, a sheet URL from which an id can be
    extracted and a positive number of tasks. *)
Theorem bot_stays_well_formed (actions : list action) (gc : bool) :
  well_formed (perform_all actions (initial_bot gc)).
Proof.
  assert (Hinit : well_formed (initial_bot gc)).
  { unfold well_formed. simpl. split_and!; done || lia. }
  revert Hinit. generalize (initial_bot gc).
  unfold perform_all.
  induction actions as [|a rest IH]; intros b Hb; simpl; [done|].
  by apply IH, perform_well_formed.
Qed.

(** X14.  [create_task] changes the bot only when every test passes
    (announcement channel and sheet URL set, [tasks > 0], 1-20 winners
    per task, used in a server, sheet reachable): otherwise the bot is as
    it was and the loop is not touched.  When every test passes, the five
    task attributes are set and the cursor is back at 1; if the reply is
    delivered, the loop is cancelled when it was running, created anew
    with the bot's interval and started; if the reply raises, the bot
    stays configured with the new tasks but the loop is neither created
    nor started. *)
Theorem create_task_outcome (i : Interaction) (tasks : Z) (task_type : string)
    (winners_per_task : Z) (b : TaskBot) :
  let out := create_task i tasks task_type winners_per_task (mkCSt b []) in
  (create_task_accepts b i tasks winners_per_task = false →
   c_bot out.2 = b ∧ filter is_loop_event (c_out out.2) = [])
  ∧ (in_defer i = None →
     create_task_accepts b i tasks winners_per_task = true →
     c_bot out.2 = task_settings tasks task_type winners_per_task b
     ∧ match in_followup i 0 with
       | None =>
           out.1 = Ok tt
           ∧ filter is_loop_event (c_out out.2)
             = (if in_loop_running i then [LoopCancel] else [])
               ++ [LoopSleep; LoopCreate (interval_minutes b); LoopStart]
       | Some _ => filter is_loop_event (c_out out.2) = []
       end).
Proof.
  unfold create_task_accepts, create_task. unfold_c. simpl.
  destruct (validate_sheet_access b (in_probe i) (sheet_url b))
    as [sheet_valid message].
  simpl. split.
  - intros Hacc. repeat exec_c_step.
    all: tests.
    all: try (split; [done|]; by rewrite ?filter_app).
    all: exfalso; subst.
    all: revert Hacc.
    all: repeat match goal with
                | H : ?x = true |- context [?x] => rewrite H
                end; simpl.
    all: rewrite ?andb_true_r.
    all: rewrite andb_false_iff, ?andb_false_iff, ?Z.ltb_ge, ?Z.leb_gt.
    all: lia.
  - intros Hdefer Hacc. tests.
    destruct Hacc as ((((((Hch & Hurl) & ?) & ?) & ?) & Hguild) & ->).
    rewrite Hdefer, Hch, Hurl, Hguild. simpl.
    destruct (Z.leb_spec tasks 0); [lia|].
    destruct (Z.leb_spec winners_per_task 0); [lia|].
    destruct (Z.ltb_spec 20 winners_per_task); [lia|]. simpl.
    destruct (in_followup i 0); simpl.
    + split_followup; by split.
    + destruct (Z.min winners_per_task tasks =? 1); simpl;
        destruct (in_loop_running i); simpl; rewrite ?Hch; simpl;
        (split; [done|]); (split; [done|]);
        unfold send_log, mbind, M_bind, get_bot; simpl;
        destruct (logs_channel b); reflexivity.
Qed.

Lemma create_task_outcome_witness :
  let i := mkInteraction true "<@5>" "admin" None
             (λ _, Some (mkExn HTTPException "503")) false
             reachable_sheet "<#1>" "<#2>" in
  let b := set_current_task 3 (example_bot 1) in
  let out := create_task i 9 " Post" 2 (mkCSt b []) in
  c_bot out.2 = task_settings 9 " Post" 2 b
  ∧ filter is_loop_event (c_out out.2) = [].
Proof.
  intros i b out.
  destruct (create_task_outcome i 9 " Post" 2 b) as [_ Hacc].
  apply Hacc; reflexivity.
Defined.

(** X15.  [configure_settings] leaves the task state alone: it never
    changes [total_tasks], [current_task], [configured], [gc], the claim
    tracker, [winners_per_task] or [task_type], and it never touches the
    loop, so a new interval reaches the loop only with the next
    [create_task].  The sheet URL of the bot changes only to a URL that
    was given, from which an id can be extracted, with the Sheets client
    set. *)
Theorem configure_settings_frame (i : Interaction) (interval_minutes : Z)
    (announce_channel logs_channel : Channel) (reaction_time role_removal_hours : Z)
    (ping_role_name : string) (sheets_url : option string) (b : TaskBot) :
  let out := configure_settings i interval_minutes announce_channel logs_channel
               reaction_time role_removal_hours ping_role_name sheets_url
               (mkCSt b []) in
  total_tasks (c_bot out.2) = total_tasks b
  ∧ current_task (c_bot out.2) = current_task b
  ∧ configured (c_bot out.2) = configured b
  ∧ gc (c_bot out.2) = gc b
  ∧ reaction_timestamps (c_bot out.2) = reaction_timestamps b
  ∧ winners_per_task (c_bot out.2) = winners_per_task b
  ∧ task_type (c_bot out.2) = task_type b
  ∧ filter is_loop_event (c_out out.2) = []
  ∧ (sheet_url (c_bot out.2) = sheet_url b
     ∨ sheets_url = Some (sheet_url (c_bot out.2))
       ∧ gc b = true
       ∧ is_Some (extract_sheet_id (sheet_url (c_bot out.2)))).
Proof.
  intros out.
  destruct (configure_settings_bot i interval_minutes announce_channel logs_channel
              reaction_time role_removal_hours ping_role_name sheets_url b)
    as [[Hb|(Hb & _ & _ & _ & Hcheck)] Hloop]; fold out in Hb, Hloop; rewrite Hb.
  - split_and!; try done. by left.
  - simpl. split_and!; try done.
    destruct sheets_url as [url|]; [|by left].
    destruct (str_truthy url) eqn:Hurl; [|by left].
    right.
    by destruct (check_sheets_url_None b i (Some url) url Hcheck eq_refl Hurl).
Qed.

(** X16.  [stop_tasks] used while the loop runs unsets [configured]
    before it replies, so an iteration of the loop that still fires
    afterwards returns at its first test and does nothing; used while
    the loop does not run, it changes nothing. *)
Theorem stop_tasks_outcome (i : Interaction) (b : TaskBot) (w : World) :
  in_defer i = None →
  let out := stop_tasks i (mkCSt b []) in
  if in_loop_running i then
    c_bot out.2 = set_configured false b
    ∧ filter is_loop_event (c_out out.2) = [LoopStopped]
    ∧ task_allocation_loop_impl w (init_st (c_bot out.2))
      = (Ok NotConfigured, init_st (c_bot out.2))
  else
    c_bot out.2 = b ∧ filter is_loop_event (c_out out.2) = [].
Proof.
  intros Hdefer. unfold stop_tasks. unfold_c. simpl. rewrite Hdefer. simpl.
  destruct (in_loop_running i); simpl.
  - split_followup.
    + split_followup; by split_and!.
    + split; [done|]. split; [|done].
      unfold send_log, mbind, M_bind, get_bot. simpl.
      destruct (logs_channel b); reflexivity.
  - split_followup; [|done].
    by split_followup.
Qed.

Lemma stop_tasks_outcome_witness :
  let i := mkInteraction true "<@5>" "admin" None (λ _, None) true
             reachable_sheet "<#1>" "<#2>" in
  let out := stop_tasks i (mkCSt (example_bot 1) []) in
  configured (c_bot out.2) = false
  ∧ task_allocation_loop_impl world_ann_left (init_st (c_bot out.2))
    = (Ok NotConfigured, init_st (c_bot out.2)).
Proof.
  intros i out.
  assert (H := stop_tasks_outcome i (example_bot 1) world_ann_left eq_refl).
  change (c_bot out.2 = set_configured false (example_bot 1)
          ∧ filter is_loop_event (c_out out.2) = [LoopStopped]
          ∧ task_allocation_loop_impl world_ann_left (init_st (c_bot out.2))
            = (Ok NotConfigured, init_st (c_bot out.2))) in H.
  destruct H as (Hb & _ & Hround).
  split; [by rewrite Hb|exact Hround].
Defined.
